(** * Membraneless electrolyzer: model and experimental analysis

    A shallow embedding of [code/utils/constants.py],
    [code/simulations/electrolyzer_model.py] and
    [code/analysis/experimental_analysis.py].

    Numbers.  Python floats and NumPy float64 values are modelled by the
    real numbers [R]: arithmetic is exact and every modelled value is
    finite.  Rounding and overflow are therefore outside the model; a
    statement about finiteness is made by bounding the exact values
    against the range of a double ([finite_double] below).  Where
    an operation has no real result the model says so explicitly:
    - a division of Python floats by zero raises [ZeroDivisionError];
    - a NumPy division by zero or logarithm of a non-positive number does
      not raise in Python, it yields [inf] or [nan].  Element-wise array
      results carry [option R] ([None] for such an entry); inside a scalar
      computation the outcome is [NotReal], after which the model follows
      the computation no further.

    State.  Methods are computations [M S A] over the instance (and, for
    the analysis class, the file system): a state and error monad in which
    a raised exception leaves the state as it was at the raise. *)

From Stdlib Require Import Reals Lra Lia ZArith List Ascii String Sorted.
From stdpp Require Import base option list gmap strings.

#[local] Open Scope R_scope.
#[local] Open Scope string_scope.

(** ** Exceptions and the method monad *)

Inductive exn : Type :=
| KeyError (key : string)
| ZeroDivisionError
| ValueError (msg : string)
| TypeError (msg : string)
| RuntimeError (msg : string)
| FileNotFoundError (path : string)
| NotReal (op : string).

Inductive result (A : Type) : Type :=
| Ok (a : A)
| Err (e : exn).
Arguments Ok {A} a.
Arguments Err {A} e.

Definition M (S A : Type) : Type := S -> result A * S.

Definition ret {S A} (a : A) : M S A := fun s => (Ok a, s).

Definition bind {S A B} (m : M S A) (k : A -> M S B) : M S B :=
  fun s => match m s with
           | (Ok a, s') => k a s'
           | (Err e, s') => (Err e, s')
           end.

Definition raise {S A} (e : exn) : M S A := fun s => (Err e, s).

Definition get {S} : M S S := fun s => (Ok s, s).

Definition put {S} (s : S) : M S unit := fun _ => (Ok tt, s).

Definition lift {S A} (r : result A) : M S A := fun s => (r, s).

#[global] Instance M_ret {S} : MRet (M S) := @ret S.
#[global] Instance M_bind {S} : MBind (M S) := fun A B k m => bind m k.

(** [for x in l: acc = body(acc, x)], leaving the loop at the first raise. *)
Fixpoint foldM {S A B} (body : B -> A -> M S B) (acc : B) (l : list A) : M S B :=
  match l with
  | [] => mret acc
  | x :: l' => acc' ← body acc x; foldM body acc' l'
  end.

(** A computation is read-only when it hands back the state it was given,
    whatever it returns or raises. *)
Definition read_only {S A} (m : M S A) : Prop := forall s, (m s).2 = s.

(** ** Float operations *)

(** [x / y] on Python floats. *)
Definition py_div (x y : R) : result R :=
  if Req_dec_T y 0 then Err ZeroDivisionError else Ok (x / y).

(** [x / y] on an element of a NumPy array: no exception, [inf] or [nan]
    ([None]) when [y] is zero. *)
Definition np_div (x y : R) : option R :=
  if Req_dec_T y 0 then None else Some (x / y).

(** [np.log(x)]: [-inf] at zero and [nan] below, neither of them a real. *)
Definition np_log (x : R) : result R :=
  if Rlt_dec 0 x then Ok (ln x) else Err (NotReal "log").

(** ** [code/utils/constants.py] *)

Definition FARADAY_CONSTANT : R := 96485.3329.
Definition GAS_CONSTANT : R := 8.3144598.
Definition STANDARD_HYDROGEN_POTENTIAL : R := 0.0.
Definition STANDARD_OXYGEN_POTENTIAL : R := 1.229.
Definition THEORETICAL_CELL_VOLTAGE : R := 1.229.

Module ElectrodeParameters.
Definition LENGTH : R := 0.05.
Definition WIDTH : R := 0.02.
Definition ELECTRODE_SEPARATION : R := 0.005.
Definition ANODE_EXCHANGE_CURRENT : R := 1e-3.
Definition CATHODE_EXCHANGE_CURRENT : R := 1e-2.
Definition ANODE_CHARGE_TRANSFER : R := 0.5.
Definition CATHODE_CHARGE_TRANSFER : R := 0.5.
Definition ROUGHNESS_FACTOR : R := 100.
End ElectrodeParameters.

Module OperatingConditions.
Definition TEMPERATURE : R := 298.15.
Definition PRESSURE : R := 101325.
Definition INLET_VELOCITY : R := 0.01.
End OperatingConditions.

(** ** [code/simulations/electrolyzer_model.py] *)

(** The dictionary stored in [self.results]; arrays are lists. *)
Record IVResult : Type := {
  voltage : list R;
  current : list R;
  current_density : list (option R);
  power : list R;
  efficiency : list (option R)
}.

(** An instance of [MembranelessElectrolyzer]. *)
Record Electrolyzer : Type := {
  params : gmap string R;
  results : option IVResult
}.

Definition _get_default_parameters : gmap string R :=
  <["length" := ElectrodeParameters.LENGTH]> (
  <["width" := ElectrodeParameters.WIDTH]> (
  <["height" := ElectrodeParameters.ELECTRODE_SEPARATION]> (
  <["temperature" := OperatingConditions.TEMPERATURE]> (
  <["pressure" := OperatingConditions.PRESSURE]> (
  <["inlet_velocity" := OperatingConditions.INLET_VELOCITY]> (
  <["anode_i0" := ElectrodeParameters.ANODE_EXCHANGE_CURRENT]> (
  <["cathode_i0" := ElectrodeParameters.CATHODE_EXCHANGE_CURRENT]> (
  <["alpha_a" := ElectrodeParameters.ANODE_CHARGE_TRANSFER]> (
  <["alpha_c" := ElectrodeParameters.CATHODE_CHARGE_TRANSFER]> (
  <["roughness" := ElectrodeParameters.ROUGHNESS_FACTOR]> ∅)))))))))).

(** [__init__]: [parameters or self._get_default_parameters()]; an empty
    dictionary is falsy, like [None]. *)
Definition init (parameters : option (gmap string R)) : Electrolyzer :=
  let params :=
    match parameters with
    | Some d => if decide (d = ∅) then _get_default_parameters else d
    | None => _get_default_parameters
    end in
  {| params := params; results := None |}.

(** [self.params[key]] *)
Definition param (key : string) : M Electrolyzer R :=
  fun self => match params self !! key with
              | Some v => (Ok v, self)
              | None => (Err (KeyError key), self)
              end.

Definition butler_volmer (overpotential i0 alpha : R) (n : Z) : M Electrolyzer R :=
  T ← param "temperature";
  F_RT ← lift (py_div FARADAY_CONSTANT (GAS_CONSTANT * T));
  let anodic := exp (alpha * IZR n * F_RT * overpotential) in
  let cathodic := exp (- (1 - alpha) * IZR n * F_RT * overpotential) in
  roughness ← param "roughness";
  mret (i0 * roughness * (anodic - cathodic)).

Definition calculate_overpotentials (voltage : R) (concentrations : gmap string R)
  : M Electrolyzer (R * R) :=
  let anode_nernst := STANDARD_OXYGEN_POTENTIAL in
  let cathode_nernst := STANDARD_HYDROGEN_POTENTIAL in
  cathode_nernst ←
    match concentrations !! "H+" with
    | Some c_H =>
        T ← param "temperature";
        RT_F ← lift (py_div (GAS_CONSTANT * T) FARADAY_CONSTANT);
        c ← lift (py_div c_H 1000);
        l ← lift (np_log c);
        mret (cathode_nernst - RT_F * l)
    | None => mret cathode_nernst
    end;
  let eta_a := voltage - anode_nernst in
  let eta_c := cathode_nernst - 0 in
  mret (eta_a, eta_c).

(** [np.linspace(start, stop, num)] with NumPy's defaults ([endpoint=True]):
    the values [arange(0, num) * step + start] with [step = delta / (num - 1)],
    or [arange(0, num) * delta + start] when [num <= 1], and the last
    sample overwritten by [stop] when there is more than one. *)
Definition arange (n : nat) : list R := map INR (seq 0 n).

Definition linspace (start stop : R) (num : Z) : result (list R) :=
  if (num <? 0)%Z then
    Err (ValueError "Number of samples must be non-negative.")
  else
    let n := Z.to_nat num in
    let div := (num - 1)%Z in
    let delta := stop - start in
    let y := arange n in
    let y := if (0 <? div)%Z
             then let step := delta / IZR div in map (fun k => k * step) y
             else map (fun k => k * delta) y in
    let y := map (fun v => v + start) y in
    Ok (if (1 <? num)%Z then <[pred n := stop]> y else y).

(** [np.zeros_like(a)] *)
Definition zeros_like (a : list R) : list R := map (fun _ => 0) a.

(** [enumerate(l)] *)
Definition enumerate {A} (l : list A) : list (nat * A) := zip (seq 0 (length l)) l.

(** The body of the sweep loop for one sample: [currents[i] = ...]. *)
Definition sweep_step (currents : list R) (iv : nat * R) : M Electrolyzer (list R) :=
  let '(i, voltage) := iv in
  let concentrations : gmap string R := {["H+" := 1e-7 * 1000]} in
  '(eta_a, eta_c) ← calculate_overpotentials voltage concentrations;
  anode_i0 ← param "anode_i0";
  alpha_a ← param "alpha_a";
  i_a ← butler_volmer eta_a anode_i0 alpha_a 4;
  cathode_i0 ← param "cathode_i0";
  alpha_c ← param "alpha_c";
  i_c ← butler_volmer eta_c cathode_i0 alpha_c 2;
  let current_density := Rmin (Rabs i_a) (Rabs i_c) in
  p_length ← param "length";
  p_width ← param "width";
  let area := p_length * p_width in
  mret (<[i := current_density * area]> currents).

Definition simulate_iv_curve (voltage_range : option (R * R)) (num_points : Z)
  : M Electrolyzer IVResult :=
  let voltage_range := default (1.0, 2.5) voltage_range in
  voltages ← lift (linspace voltage_range.1 voltage_range.2 num_points);
  let currents := zeros_like voltages in
  currents ← foldM sweep_step currents (enumerate voltages);
  p_length ← param "length";
  p_width ← param "width";
  let res := {| voltage := voltages;
                current := currents;
                current_density := map (fun c => np_div c (p_length * p_width)) currents;
                power := zip_with Rmult voltages currents;
                efficiency := map (np_div THEORETICAL_CELL_VOLTAGE) voltages |} in
  self ← get;
  _ ← put {| params := params self; results := Some res |};
  mret res.

Definition calculate_hydrogen_production (current : R) : M Electrolyzer R :=
  lift (py_div current (2 * FARADAY_CONSTANT)).

(** On Python floats.  (A NumPy scalar or array divides by zero without
    raising and gives [nan] or [inf] there.) *)
Definition calculate_energy_efficiency (voltage current : R) : M Electrolyzer R :=
  hydrogen_rate ← calculate_hydrogen_production current;
  let theoretical_power := THEORETICAL_CELL_VOLTAGE * current in
  let actual_power := voltage * current in
  lift (py_div theoretical_power actual_power).

(** What [plot_results] hands to the four panels; drawing the charts is
    matplotlib's work and has no part in the model. *)
Record Panels : Type := {
  iv_panel : list R * list (option R);
  power_panel : list R * list R;
  efficiency_panel : list R * list (option R);
  h2_panel : list (option R) * list R
}.

Definition plot_results : M Electrolyzer Panels :=
  self ← get;
  match results self with
  | None => raise (ValueError "No results to plot. Run simulation first.")
  | Some res =>
      let h2_rate := map (fun c => c / (2 * FARADAY_CONSTANT)) (current res) in
      mret {| iv_panel := (voltage res, current_density res);
              power_panel := (voltage res, power res);
              efficiency_panel := (voltage res, efficiency res);
              h2_panel := (current_density res, map (fun h => h * 1000) h2_rate) |}
  end.

(** ** [code/analysis/experimental_analysis.py] *)

(** A pandas [DataFrame]: an object, with an identity, holding named
    columns of numbers. *)
Record DataFrame : Type := {
  df_id : nat;
  df_columns : gmap string (list R)
}.

(** The file-reading collaborator: the tables the CSV files parse to, by
    path, and the paths [pd.read_csv] has been called on, latest first.
    The CSV syntax itself is not modelled. *)
Record World : Type := {
  files : gmap string (gmap string (list R));
  reads : list string
}.

(** An instance of [ExperimentalAnalysis]. *)
Record ExperimentalAnalysis : Type := {
  data_path : string;
  iv_data : option DataFrame;
  h2_data : option DataFrame
}.

(** What a method of the analysis class runs on. *)
Record Session : Type := {
  analysis : ExperimentalAnalysis;
  world : World
}.

(** [__init__(data_path="../data/experimental")] *)
Definition analysis_init (path : option string) : ExperimentalAnalysis :=
  {| data_path := default "../data/experimental" path;
     iv_data := None;
     h2_data := None |}.

(** [os.path.join(a, b)] on POSIX paths. *)
Definition path_join (a b : string) : string :=
  if String.prefix "/" b then b
  else if decide (a = "") then b
  else if decide (String.get (String.length a - 1)%nat a = Some "/"%char) then a ++ b
  else a ++ "/" ++ b.

(** [pd.read_csv(filepath, comment='#')]: every call reads the file and
    makes a new [DataFrame] object. *)
Definition read_csv (filepath : string) : M Session DataFrame :=
  fun s =>
    match files (world s) !! filepath with
    | None => (Err (FileNotFoundError filepath), s)
    | Some columns =>
        let df := {| df_id := length (reads (world s)); df_columns := columns |} in
        (Ok df,
         {| analysis := analysis s;
            world := {| files := files (world s);
                        reads := filepath :: reads (world s) |} |})
    end.

Definition set_iv_data (df : DataFrame) : M Session unit :=
  fun s =>
    (Ok tt,
     {| analysis := {| data_path := data_path (analysis s);
                       iv_data := Some df;
                       h2_data := h2_data (analysis s) |};
        world := world s |}).

Definition set_h2_data (df : DataFrame) : M Session unit :=
  fun s =>
    (Ok tt,
     {| analysis := {| data_path := data_path (analysis s);
                       iv_data := iv_data (analysis s);
                       h2_data := Some df |};
        world := world s |}).

Definition load_iv_data (filename : option string) : M Session DataFrame :=
  let filename := default "current_voltage_measurements.csv" filename in
  s ← get;
  let filepath := path_join (data_path (analysis s)) filename in
  df ← read_csv filepath;
  _ ← set_iv_data df;
  mret df.

Definition load_h2_data (filename : option string) : M Session DataFrame :=
  let filename := default "hydrogen_production_rates.csv" filename in
  s ← get;
  let filepath := path_join (data_path (analysis s)) filename in
  df ← read_csv filepath;
  _ ← set_h2_data df;
  mret df.

(** [if self.iv_data is None: self.load_iv_data()], the head of every
    query on the IV table. *)
Definition iv_data_or_load : M Session unit :=
  s ← get;
  match iv_data (analysis s) with
  | None => _ ← load_iv_data None; mret tt
  | Some _ => mret tt
  end.

Definition h2_data_or_load : M Session unit :=
  s ← get;
  match h2_data (analysis s) with
  | None => _ ← load_h2_data None; mret tt
  | Some _ => mret tt
  end.

(** [self.iv_data[name]] and [self.h2_data[name]] *)
Definition column_of (table : option DataFrame) (name : string) : result (list R) :=
  match table with
  | None => Err (TypeError "'NoneType' object is not subscriptable")
  | Some df =>
      match df_columns df !! name with
      | Some col => Ok col
      | None => Err (KeyError name)
      end
  end.

Definition iv_column (name : string) : M Session (list R) :=
  s ← get; lift (column_of (iv_data (analysis s)) name).

Definition h2_column (name : string) : M Session (list R) :=
  s ← get; lift (column_of (h2_data (analysis s)) name).

(** [np.interp(x, xp, fp)] for sample points [xp] in increasing order, as
    NumPy requires: [fp[0]] to the left of the samples, [fp[-1]] to their
    right, the sample's value at a sample, and otherwise the value at [x]
    of the line through the two samples that bracket it,
    [slope * (x - xp[j]) + fp[j]].  [interp_from] walks to the bracket
    [xp[j] <= x < xp[j+1]] that NumPy finds by bisection.  The arrays are
    float64 arrays.  A column that pandas reads from a file without rows
    has object dtype instead, which NumPy refuses before it tests for
    emptiness: the statements about tables are about tables with rows. *)
Fixpoint interp_from (x x0 y0 : R) (rest : list (R * R)) : R :=
  match rest with
  | [] => y0
  | (x1, y1) :: rest' =>
      if Rlt_dec x x1 then
        if Req_dec_T x0 x then y0
        else (y1 - y0) / (x1 - x0) * (x - x0) + y0
      else interp_from x x1 y1 rest'
  end.

Definition np_interp (x : R) (xp fp : list R) : result R :=
  if decide (length xp = 0%nat) then
    Err (ValueError "array of sample points is empty")
  else if decide (length fp = length xp) then
    match zip xp fp with
    | [] => Err (ValueError "array of sample points is empty")
    | (x0, y0) :: rest => Ok (if Rlt_dec x x0 then y0 else interp_from x x0 y0 rest)
    end
  else Err (ValueError "fp and xp are not of the same length.").

Definition interpolate_current (voltage : R) : M Session R :=
  _ ← iv_data_or_load;
  xp ← iv_column "voltage_V";
  fp ← iv_column "current_density_A_m2";
  lift (np_interp voltage xp fp).

Definition interpolate_voltage (current_density : R) : M Session R :=
  _ ← iv_data_or_load;
  xp ← iv_column "current_density_A_m2";
  fp ← iv_column "voltage_V";
  lift (np_interp current_density xp fp).

(** [Series.max()], [Series.min()] and [Series.mean()]: [nan] ([None]) on
    an empty column. *)
Definition series_max (col : list R) : option R :=
  match col with
  | [] => None
  | x :: col' => Some (fold_left Rmax col' x)
  end.

Definition series_min (col : list R) : option R :=
  match col with
  | [] => None
  | x :: col' => Some (fold_left Rmin col' x)
  end.

Definition np_sum (a : list R) : R := fold_right Rplus 0 a.

Definition series_mean (col : list R) : option R :=
  np_div (np_sum col) (INR (length col)).

Definition calculate_performance_metrics : M Session (gmap string (option R)) :=
  _ ← iv_data_or_load;
  _ ← h2_data_or_load;
  let metrics : gmap string (option R) := ∅ in
  i15 ← interpolate_current 1.5;
  let metrics := <["current_at_1_5V" := Some i15]> metrics in
  i20 ← interpolate_current 2.0;
  let metrics := <["current_at_2_0V" := Some i20]> metrics in
  cd ← iv_column "current_density_A_m2";
  let metrics := <["max_current_density" := series_max cd]> metrics in
  v100 ← interpolate_voltage 100;
  let metrics := <["voltage_at_100_A_m2" := Some v100]> metrics in
  v200 ← interpolate_voltage 200;
  let metrics := <["voltage_at_200_A_m2" := Some v200]> metrics in
  fe ← h2_column "faradaic_efficiency";
  let metrics := <["avg_faradaic_efficiency" := series_mean fe]> metrics in
  fe ← h2_column "faradaic_efficiency";
  let metrics := <["min_faradaic_efficiency" := series_min fe]> metrics in
  rate ← h2_column "h2_production_mmol_s";
  let metrics := <["max_h2_rate_mmol_s" := series_max rate]> metrics in
  mret metrics.

(** [a >= b] and [a <= b] on column entries *)
Definition np_ge (a b : R) : bool := if Rge_dec a b then true else false.
Definition np_le (a b : R) : bool := if Rle_dec a b then true else false.

(** [df.loc[mask, column].values]: the entries of the column where the
    mask is set. *)
Fixpoint loc (mask : list bool) (col : list R) : list R :=
  match mask, col with
  | m :: mask', x :: col' => if m then x :: loc mask' col' else loc mask' col'
  | _, _ => []
  end.

(** The entries of an array when none of them is [inf] or [nan]. *)
Fixpoint all_real (a : list (option R)) : option (list R) :=
  match a with
  | [] => Some []
  | Some x :: a' => xs ← all_real a'; Some (x :: xs)
  | None :: _ => None
  end.

(** The model function of the fit, [np.exp((eta - a) / b)]. *)
Definition tafel_equation (eta a b : R) : option R :=
  q ← np_div (eta - a) b; Some (exp q).

(** A 2 x 2 covariance estimate; SciPy fills it with [inf] when it cannot
    estimate one. *)
Definition Covariance : Type := list (list (option R)).

(** The dictionary [fit_tafel_equation] returns. *)
Record TafelFit : Type := {
  tafel_a : R;
  tafel_b : R;
  r_squared : option R;
  covariance : Covariance;
  fit_voltage_range : R * R
}.

Section TafelFit.
(** [scipy.optimize.curve_fit(f, xdata, ydata, p0=..., maxfev=...)] for a
    model function of two parameters: the optimizer is a collaborator,
    taken as given.  It returns the fitted parameters and their
    covariance, or raises. *)
Variable curve_fit :
  (R -> R -> R -> option R) -> list R -> list R -> R * R -> nat
  -> result ((R * R) * Covariance).

Definition fit_tafel_equation (voltage_range : option (R * R)) : M Session TafelFit :=
  let voltage_range := default (1.2, 1.8) voltage_range in
  _ ← iv_data_or_load;
  v_lo ← iv_column "voltage_V";
  v_hi ← iv_column "voltage_V";
  let mask := zip_with andb (map (fun v => np_ge v voltage_range.1) v_lo)
                            (map (fun v => np_le v voltage_range.2) v_hi) in
  v_col ← iv_column "voltage_V";
  let voltage := loc mask v_col in
  c_col ← iv_column "current_density_A_m2";
  let current := loc mask c_col in
  '(popt, pcov) ← lift (curve_fit tafel_equation voltage current (1.0, 0.1) 5000%nat);
  let y_pred := map (fun eta => tafel_equation eta popt.1 popt.2) voltage in
  let ss_res :=
    y ← all_real y_pred;
    Some (np_sum (zip_with (fun c p => (c - p) ^ 2) current y)) in
  let ss_tot :=
    m ← np_div (np_sum current) (INR (length current));
    Some (np_sum (map (fun c => (c - m) ^ 2) current)) in
  let r_squared :=
    res ← ss_res; tot ← ss_tot; q ← np_div res tot; Some (1 - q) in
  mret {| tafel_a := popt.1;
          tafel_b := popt.2;
          r_squared := r_squared;
          covariance := pcov;
          fit_voltage_range := voltage_range |}.
End TafelFit.

(** A stand-in for the optimizer in examples: like SciPy's it raises on
    fewer observations than parameters, and it returns the initial guess
    with no covariance estimate otherwise. *)
Definition curve_fit_double
    (f : R -> R -> R -> option R) (xdata ydata : list R) (p0 : R * R) (maxfev : nat)
  : result ((R * R) * Covariance) :=
  if decide (length ydata < 2)%nat then
    Err (TypeError "Improper input: func input vector length N=2 must not exceed func output vector length M")
  else Ok (p0, [[None; None]; [None; None]]).

(** ** The specification's formulas *)

(** The relation as the specification writes it:
    i = i0 · roughness · (exp(α·n·F·η/(R·T)) − exp(−(1−α)·n·F·η/(R·T))). *)
Definition butler_volmer_spec (T roughness eta i0 alpha : R) (n : Z) : R :=
  i0 * roughness *
  (exp (alpha * IZR n * FARADAY_CONSTANT * eta / (GAS_CONSTANT * T))
   - exp (- (1 - alpha) * IZR n * FARADAY_CONSTANT * eta / (GAS_CONSTANT * T))).

(** The [i]-th of [N] equally spaced samples of the range [v_min, v_max]:
    the ends are both sampled, and a single sample is [v_min]. *)
Definition linspace_sample (v_min v_max : R) (N i : nat) : R :=
  if decide (N <= 1)%nat then v_min
  else v_min + INR i * ((v_max - v_min) / INR (N - 1)).

(** The cathode overpotential at the sweep's hydrogen-ion concentration,
    1e-7 mol/L written in mol/m3, referred to 1 mol/L. *)
Definition sweep_cathode_overpotential (T : R) : R :=
  STANDARD_HYDROGEN_POTENTIAL
  - GAS_CONSTANT * T / FARADAY_CONSTANT * ln (1e-7 * 1000 / 1000) - 0.

(** The two electrode current densities of the sweep at cell voltage [v]. *)
Definition sweep_anode_current (T roughness anode_i0 alpha_a v : R) : R :=
  butler_volmer_spec T roughness (v - STANDARD_OXYGEN_POTENTIAL) anode_i0 alpha_a 4.

Definition sweep_cathode_current (T roughness cathode_i0 alpha_c : R) : R :=
  butler_volmer_spec T roughness (sweep_cathode_overpotential T) cathode_i0 alpha_c 2.

(** Current continuity: the smaller of the two magnitudes. *)
Definition sweep_current_density
    (T roughness anode_i0 alpha_a cathode_i0 alpha_c v : R) : R :=
  Rmin (Rabs (sweep_anode_current T roughness anode_i0 alpha_a v))
       (Rabs (sweep_cathode_current T roughness cathode_i0 alpha_c)).

(** ** The range of a double

    The model computes with exact reals, so it has no [inf] of its own.
    Where a statement is about a computation staying finite, it bounds the
    exact value of every quantity the computation forms by the largest
    finite binary64 value, [sys.float_info.max], and keeps every divisor
    above the smallest normal one, [sys.float_info.min]. *)
Definition DBL_MAX : R := 1.7976931348623157e308.
Definition DBL_MIN : R := 2.2250738585072014e-308.

Definition finite_double (x : R) : Prop := Rabs x <= DBL_MAX.

(** A physically valid parameter set for the sweep: liquid water
    (273.15 K to 373.15 K), charge transfer coefficients between 0 and 1,
    positive exchange current densities and roughness of at most 1e30 in
    SI units, electrode dimensions between 1e-30 m and 1e30 m. *)
Record physically_valid
    (T roughness anode_i0 alpha_a cathode_i0 alpha_c p_length p_width : R) : Prop := {
  liquid_water : 273.15 <= T <= 373.15;
  alpha_a_fraction : 0 <= alpha_a <= 1;
  alpha_c_fraction : 0 <= alpha_c <= 1;
  roughness_size : 0 < roughness <= 1e30;
  anode_i0_size : 0 < anode_i0 <= 1e30;
  cathode_i0_size : 0 < cathode_i0 <= 1e30;
  length_size : 1e-30 <= p_length <= 1e30;
  width_size : 1e-30 <= p_width <= 1e30
}.

(** The call [simulate_iv_curve()] with both arguments left to their
    defaults. *)
Definition simulate_iv_curve_default : M Electrolyzer IVResult :=
  simulate_iv_curve None 50.

(** The cathode component of what [calculate_overpotentials] returns. *)
Definition cathode_of (r : result (R * R)) : result R :=
  match r with
  | Ok (_, eta_c) => Ok eta_c
  | Err e => Err e
  end.

(** The cathode side of the sweep at one voltage: the overpotentials, then
    Butler-Volmer on the cathode's. *)
Definition cathode_current_at (voltage : R) (concentrations : gmap string R)
    (i0 alpha : R) (n : Z) : M Electrolyzer R :=
  '(_, eta_c) ← calculate_overpotentials voltage concentrations;
  butler_volmer eta_c i0 alpha n.

(** ** Clients of an instance *)

(** A call of a method other than [simulate_iv_curve]. *)
Inductive other_call : Type :=
| call_butler_volmer (overpotential i0 alpha : R) (n : Z)
| call_calculate_overpotentials (voltage : R) (concentrations : gmap string R)
| call_calculate_hydrogen_production (current : R)
| call_calculate_energy_efficiency (voltage current : R)
| call_plot_results.

(** The instance after the call, whether it returned or raised. *)
Definition after_call (self : Electrolyzer) (c : other_call) : Electrolyzer :=
  match c with
  | call_butler_volmer eta i0 alpha n => (butler_volmer eta i0 alpha n self).2
  | call_calculate_overpotentials v cs => (calculate_overpotentials v cs self).2
  | call_calculate_hydrogen_production i => (calculate_hydrogen_production i self).2
  | call_calculate_energy_efficiency v i => (calculate_energy_efficiency v i self).2
  | call_plot_results => (plot_results self).2
  end.

Definition after_calls (self : Electrolyzer) (cs : list other_call) : Electrolyzer :=
  fold_left after_call cs self.

(** ** A three-row IV table *)

Definition three_row_columns : gmap string (list R) :=
  <["voltage_V" := [1.0; 1.5; 2.0]]> (
  <["current_density_A_m2" := [0; 50; 100]]> ∅).

Definition iv_file : string := "../data/experimental/current_voltage_measurements.csv".

(** A fresh instance, next to an IV file that holds the three rows. *)
Definition fresh_session : Session :=
  {| analysis := analysis_init None;
     world := {| files := {[ iv_file := three_row_columns ]}; reads := [] |} |}.

(** The table object the first read of that file makes, and the session
    after [load_iv_data()] on the fresh instance. *)
Definition three_row_table : DataFrame :=
  {| df_id := 0; df_columns := three_row_columns |}.

Definition three_row_session : Session :=
  {| analysis := {| data_path := "../data/experimental";
                    iv_data := Some three_row_table;
                    h2_data := None |};
     world := {| files := {[ iv_file := three_row_columns ]}; reads := [iv_file] |} |}.

(** ** Sessions after a load *)

(** The session once [load_iv_data] has read [filepath] and stored the
    new table. *)
Definition with_iv_data (s : Session) (filepath : string) (columns : gmap string (list R))
  : Session :=
  {| analysis := {| data_path := data_path (analysis s);
                    iv_data := Some {| df_id := length (reads (world s));
                                       df_columns := columns |};
                    h2_data := h2_data (analysis s) |};
     world := {| files := files (world s); reads := filepath :: reads (world s) |} |}.

Definition with_h2_data (s : Session) (filepath : string) (columns : gmap string (list R))
  : Session :=
  {| analysis := {| data_path := data_path (analysis s);
                    iv_data := iv_data (analysis s);
                    h2_data := Some {| df_id := length (reads (world s));
                                       df_columns := columns |} |};
     world := {| files := files (world s); reads := filepath :: reads (world s) |} |}.

(** How many of the two tables a session has yet to load. *)
Definition missing_tables (s : Session) : nat :=
  ((match iv_data (analysis s) with Some _ => 0 | None => 1 end)
   + (match h2_data (analysis s) with Some _ => 0 | None => 1 end))%nat.

(** The three ways the lazy idiom can go. *)
Inductive lazy_outcome (s : Session) (table : Session -> option DataFrame)
    (with_table : Session -> string -> gmap string (list R) -> Session)
    (r : result unit * Session) : Prop :=
| lazy_cached (df : DataFrame) :
    table s = Some df -> r = (Ok tt, s) -> lazy_outcome s table with_table r
| lazy_loaded (filepath : string) (columns : gmap string (list R)) :
    table s = None -> r = (Ok tt, with_table s filepath columns) ->
    lazy_outcome s table with_table r
| lazy_failed (e : exn) :
    table s = None -> r = (Err e, s) -> lazy_outcome s table with_table r.

(** A computation keeps a given state when, run on it, it hands it back. *)
Definition keeps {S A} (m : M S A) (s : S) : Prop := (m s).2 = s.

(** ** Rows of the IV table in a voltage window *)

#[global] Instance Rle_decision (x y : R) : Decision (x <= y) := Rle_dec x y.

(** The (voltage, current density) rows whose voltage lies in [lo, hi],
    both ends included, in the table's order. *)
Definition rows_in_range (lo hi : R) (rows : list (R * R)) : list (R * R) :=
  filter (fun row => lo <= row.1 /\ row.1 <= hi) rows.

(** ** More of [code/utils/constants.py] *)

(** Pure functions that can raise: [result] as a monad. *)
#[global] Instance result_ret : MRet result := @Ok.
#[global] Instance result_bind : MBind result :=
  fun A B k r => match r with Ok a => k a | Err e => Err e end.

Definition STANDARD_TEMPERATURE : R := 298.15.
Definition WATER_VISCOSITY : R := 8.9e-4.

Definition DIFFUSION_COEFFICIENTS : gmap string R :=
  <["H+" := 9.31e-9]> (
  <["OH-" := 5.27e-9]> (
  <["H2" := 4.5e-9]> (
  <["O2" := 2.0e-9]> (
  <["H2O" := 2.3e-9]> ∅)))).

(** On a Python float temperature. *)
Definition get_water_viscosity (temperature : R) : result R :=
  let A := 0.02939 in
  let B := 507.88 in
  let C := 149.3 in
  let T_celsius := temperature - 273.15 in
  q ← py_div B (T_celsius + C);
  let viscosity := A * exp q in
  mret (viscosity * 1e-3).

(** [temperature = None] is the call that leaves the temperature to its
    default, [STANDARD_TEMPERATURE]. *)
Definition get_diffusion_coefficient (species : string) (temperature : option R)
  : result R :=
  let temperature := default STANDARD_TEMPERATURE temperature in
  let base_coeff := default 1e-9 (DIFFUSION_COEFFICIENTS !! species) in
  ratio ← py_div temperature STANDARD_TEMPERATURE;
  mu ← get_water_viscosity temperature;
  visc_ratio ← py_div WATER_VISCOSITY mu;
  let temp_factor := ratio * visc_ratio in
  mret (base_coeff * temp_factor).

(** ** Instances built from a partial dictionary *)

(** A parameter dictionary that gives the electrode geometry and nothing
    else. *)
Definition geometry_only : gmap string R :=
  <["length" := 0.05]> (<["width" := 0.02]> ∅).

(** The default parameters with the electrode width set to zero. *)
Definition zero_width_parameters : gmap string R :=
  <["width" := 0]> _get_default_parameters.

(** ** More example tables *)

(** A table read from a file that has the voltage column only. *)
Definition voltage_only_columns : gmap string (list R) :=
  <["voltage_V" := [1.0; 1.5; 2.0]]> ∅.

Definition voltage_only_session : Session :=
  {| analysis := {| data_path := "../data/experimental";
                    iv_data := Some {| df_id := 0; df_columns := voltage_only_columns |};
                    h2_data := None |};
     world := {| files := {[ iv_file := voltage_only_columns ]}; reads := [iv_file] |} |}.

(** An instance that holds the three-row IV table and a two-row hydrogen
    table. *)
Definition h2_file : string := "../data/experimental/hydrogen_production_rates.csv".

Definition two_row_h2_columns : gmap string (list R) :=
  <["current_density_A_m2" := [50; 100]]> (
  <["h2_production_mmol_s" := [0.0026; 0.0052]]> (
  <["faradaic_efficiency" := [0.99; 1.0]]> ∅)).

Definition both_tables_session : Session :=
  {| analysis := {| data_path := "../data/experimental";
                    iv_data := Some three_row_table;
                    h2_data := Some {| df_id := 1; df_columns := two_row_h2_columns |} |};
     world := {| files := <[ iv_file := three_row_columns ]>
                            {[ h2_file := two_row_h2_columns ]};
                 reads := [h2_file; iv_file] |} |}.

(** The same with a hydrogen file that has the header line and no rows. *)
Definition no_row_h2_columns : gmap string (list R) :=
  <["current_density_A_m2" := []]> (
  <["h2_production_mmol_s" := []]> (
  <["faradaic_efficiency" := []]> ∅)).

Definition empty_h2_session : Session :=
  {| analysis := {| data_path := "../data/experimental";
                    iv_data := Some three_row_table;
                    h2_data := Some {| df_id := 1; df_columns := no_row_h2_columns |} |};
     world := {| files := <[ iv_file := three_row_columns ]>
                            {[ h2_file := no_row_h2_columns ]};
                 reads := [h2_file; iv_file] |} |}.

(** The keys of the dictionary of metrics. *)
Definition metric_keys : gset string :=
  {[ "current_at_1_5V"; "current_at_2_0V"; "max_current_density";
     "voltage_at_100_A_m2"; "voltage_at_200_A_m2"; "avg_faradaic_efficiency";
     "min_faradaic_efficiency"; "max_h2_rate_mmol_s" ]}.

(** ** The coefficient of determination of the Tafel fit *)

(** What [fit_tafel_equation] computes after the optimizer has returned
    [popt]: [y_pred], [ss_res], [ss_tot] and [1 - ss_res / ss_tot], on the
    voltages and current densities of the window. *)
Definition tafel_r_squared (voltage current : list R) (popt : R * R) : option R :=
  let y_pred := map (fun eta => tafel_equation eta popt.1 popt.2) voltage in
  let ss_res :=
    y ← all_real y_pred;
    Some (np_sum (zip_with (fun c p => (c - p) ^ 2) current y)) in
  let ss_tot :=
    m ← np_div (np_sum current) (INR (length current));
    Some (np_sum (map (fun c => (c - m) ^ 2) current)) in
  res ← ss_res; tot ← ss_tot; q ← np_div res tot; Some (1 - q).

(** An IV table of two rows that lie on the curve i = exp((V - 1.0) / 0.1). *)
Definition tafel_columns : gmap string (list R) :=
  <["voltage_V" := [1.2; 1.3]]> (
  <["current_density_A_m2" := [exp ((1.2 - 1.0) / 0.1); exp ((1.3 - 1.0) / 0.1)]]> ∅).

Definition tafel_session : Session :=
  {| analysis := {| data_path := "../data/experimental";
                    iv_data := Some {| df_id := 0; df_columns := tafel_columns |};
                    h2_data := None |};
     world := {| files := {[ iv_file := tafel_columns ]}; reads := [iv_file] |} |}.

(** ** [code/plotting/figure_generation.py] *)






Section Figures.
Variable curve_fit :
  (R -> R -> R -> option R) -> list R -> list R -> R * R -> nat
  -> result ((R * R) * Covariance).

End Figures.
(** * Properties *)

(** ** Running the monad *)

Lemma run_bind {S A B} (m : M S A) (k : A -> M S B) (s : S) :
  (m ≫= k) s = match m s with
               | (Ok a, s') => k a s'
               | (Err e, s') => (Err e, s')
               end.
Proof. reflexivity. Qed.

Lemma run_ret {S A} (a : A) (s : S) : (mret a : M S A) s = (Ok a, s).
Proof. reflexivity. Qed.

Lemma run_lift {S A} (r : result A) (s : S) : lift r s = (r, s).
Proof. reflexivity. Qed.

Lemma param_Some self key v :
  params self !! key = Some v -> param key self = (Ok v, self).
Proof. intros H. unfold param. now rewrite H. Qed.

Lemma param_None self key :
  params self !! key = None -> param key self = (Err (KeyError key), self).
Proof. intros H. unfold param. now rewrite H. Qed.

Lemma py_div_nonzero x y : y <> 0 -> py_div x y = Ok (x / y).
Proof. intros H. unfold py_div. destruct (Req_dec_T y 0); [contradiction | reflexivity]. Qed.

Lemma py_div_zero x : py_div x 0 = Err ZeroDivisionError.
Proof. unfold py_div. destruct (Req_dec_T 0 0); [reflexivity | contradiction]. Qed.

Lemma np_div_nonzero x y : y <> 0 -> np_div x y = Some (x / y).
Proof. intros H. unfold np_div. destruct (Req_dec_T y 0); [contradiction | reflexivity]. Qed.

Lemma np_div_by_zero x : np_div x 0 = None.
Proof. unfold np_div. destruct (Req_dec_T 0 0); [reflexivity | contradiction]. Qed.

Lemma np_log_pos x : 0 < x -> np_log x = Ok (ln x).
Proof. intros H. unfold np_log. destruct (Rlt_dec 0 x); [reflexivity | contradiction]. Qed.

(** ** Methods that only read the instance *)

Lemma read_only_ret {S A} (a : A) : read_only (mret a : M S A).
Proof. intros s. reflexivity. Qed.

Lemma read_only_lift {S A} (r : result A) : read_only (lift r : M S A).
Proof. intros s. reflexivity. Qed.

Lemma read_only_raise {S A} (e : exn) : read_only (raise e : M S A).
Proof. intros s. reflexivity. Qed.

Lemma read_only_get {S} : read_only (@get S).
Proof. intros s. reflexivity. Qed.

Lemma read_only_param key : read_only (param key).
Proof. intros s. unfold param. now destruct (params s !! key). Qed.

Lemma read_only_bind {S A B} (m : M S A) (k : A -> M S B) :
  read_only m -> (forall a, read_only (k a)) -> read_only (m ≫= k).
Proof.
  intros Hm Hk s. rewrite run_bind. specialize (Hm s).
  destruct (m s) as [[a | e] s']; simpl in *; subst s'.
  - apply Hk.
  - reflexivity.
Qed.

Create HintDb read_only.
#[local] Hint Resolve read_only_ret read_only_lift read_only_raise read_only_get
  read_only_param : read_only.

Ltac read_only_tac :=
  repeat first
    [ apply read_only_bind
    | progress intros
    | match goal with |- read_only (match ?x with _ => _ end) => destruct x end
    | solve [eauto with read_only] ].

Lemma read_only_butler_volmer eta i0 alpha n : read_only (butler_volmer eta i0 alpha n).
Proof. unfold butler_volmer. read_only_tac. Qed.

Lemma read_only_calculate_overpotentials v c : read_only (calculate_overpotentials v c).
Proof. unfold calculate_overpotentials. read_only_tac. Qed.

Lemma read_only_calculate_hydrogen_production c :
  read_only (calculate_hydrogen_production c).
Proof. unfold calculate_hydrogen_production. read_only_tac. Qed.

Lemma read_only_calculate_energy_efficiency v c :
  read_only (calculate_energy_efficiency v c).
Proof.
  unfold calculate_energy_efficiency.
  apply read_only_bind; [apply read_only_calculate_hydrogen_production |].
  read_only_tac.
Qed.

Lemma read_only_plot_results : read_only plot_results.
Proof. unfold plot_results. read_only_tac. Qed.

(** ** Butler-Volmer *)

Lemma GAS_CONSTANT_neq_0 : GAS_CONSTANT <> 0.
Proof. unfold GAS_CONSTANT. lra. Qed.

Lemma FARADAY_CONSTANT_neq_0 : FARADAY_CONSTANT <> 0.
Proof. unfold FARADAY_CONSTANT. lra. Qed.

Lemma GAS_T_neq_0 T : T <> 0 -> GAS_CONSTANT * T <> 0.
Proof. intros H. apply Rmult_integral_contrapositive_currified; [apply GAS_CONSTANT_neq_0 | exact H]. Qed.

(** What the method computes on an instance that has both parameters. *)
Lemma butler_volmer_run self eta i0 alpha n T roughness :
  params self !! "temperature" = Some T ->
  params self !! "roughness" = Some roughness ->
  T <> 0 ->
  butler_volmer eta i0 alpha n self =
  (Ok (butler_volmer_spec T roughness eta i0 alpha n), self).
Proof.
  intros HT Hr HT0. unfold butler_volmer.
  rewrite run_bind, (param_Some _ _ _ HT).
  rewrite run_bind, run_lift, (py_div_nonzero _ _ (GAS_T_neq_0 _ HT0)).
  rewrite run_bind, (param_Some _ _ _ Hr), run_ret.
  unfold butler_volmer_spec. do 3 f_equal.
  f_equal; f_equal; unfold Rdiv; ring.
Qed.

(** Without a temperature, or at temperature zero, the method raises
    before it evaluates anything. *)
Lemma butler_volmer_missing_temperature self eta i0 alpha n :
  params self !! "temperature" = None ->
  butler_volmer eta i0 alpha n self = (Err (KeyError "temperature"), self).
Proof.
  intros H. unfold butler_volmer. now rewrite run_bind, (param_None _ _ H).
Qed.

Lemma butler_volmer_zero_temperature self eta i0 alpha n :
  params self !! "temperature" = Some 0 ->
  butler_volmer eta i0 alpha n self = (Err ZeroDivisionError, self).
Proof.
  intros H. unfold butler_volmer. rewrite run_bind, (param_Some _ _ _ H).
  rewrite run_bind, run_lift, Rmult_0_r. now rewrite py_div_zero.
Qed.

(** ** Sampling the voltage range *)

Lemma arange_lookup n i : (i < n)%nat -> arange n !! i = Some (INR i).
Proof.
  intros H. unfold arange. rewrite list_lookup_fmap, lookup_seq_lt by exact H.
  reflexivity.
Qed.

Lemma length_arange n : length (arange n) = n.
Proof. unfold arange. now rewrite length_map, length_seq. Qed.

Lemma linspace_run start stop num :
  (0 <= num)%Z ->
  exists l,
    linspace start stop num = Ok l /\
    length l = Z.to_nat num /\
    forall i, (i < Z.to_nat num)%nat ->
      l !! i = Some (linspace_sample start stop (Z.to_nat num) i).
Proof.
  intros Hnum. unfold linspace.
  destruct (Z.ltb_spec num 0) as [? | _]; [lia |].
  eexists; split; [reflexivity |].
  set (n := Z.to_nat num).
  destruct (Z.ltb_spec 1 num) as [H1 | H1].
  - destruct (Z.ltb_spec 0 (num - 1)) as [_ | ?]; [| lia].
    assert (Hn : (1 < n)%nat) by (unfold n; lia).
    assert (Hdiv : IZR (num - 1) = INR (n - 1)).
    { rewrite INR_IZR_INZ. f_equal. unfold n. lia. }
    assert (Hpos : INR (n - 1) <> 0).
    { apply not_0_INR. lia. }
    split.
    + now rewrite length_insert, !length_map, length_arange.
    + intros i Hi. unfold linspace_sample.
      destruct (decide (n <= 1)%nat) as [? | _]; [lia |].
      destruct (decide (i = pred n)) as [-> | Hne].
      * rewrite list_lookup_insert_eq
          by (rewrite !length_map, length_arange; lia).
        f_equal. replace (pred n) with (n - 1)%nat by lia.
        field. exact Hpos.
      * rewrite list_lookup_insert_ne by congruence.
        rewrite !list_lookup_fmap, arange_lookup by exact Hi. simpl.
        rewrite Hdiv. f_equal. ring.
  - destruct (Z.ltb_spec 0 (num - 1)) as [? | _]; [lia |].
    split.
    + now rewrite !length_map, length_arange.
    + intros i Hi. unfold linspace_sample.
      destruct (decide (n <= 1)%nat) as [_ | ?]; [| unfold n in *; lia].
      assert (i = 0)%nat as -> by (unfold n in *; lia).
      rewrite !list_lookup_fmap, arange_lookup by exact Hi. simpl.
      f_equal. ring.
Qed.

Lemma linspace_negative start stop num :
  (num < 0)%Z -> exists msg, linspace start stop num = Err (ValueError msg).
Proof.
  intros H. unfold linspace. destruct (Z.ltb_spec num 0); [eauto | lia].
Qed.

Example linspace_three_points : linspace 1 2 3 = Ok [1; 1.5; 2].
Proof.
  unfold linspace. simpl. change (IZR (3 - 1)) with 2.
  repeat f_equal; lra.
Qed.

Example linspace_one_point : linspace 1 2 1 = Ok [1].
Proof. unfold linspace. simpl. repeat f_equal; lra. Qed.

(** A negative point count is refused before anything is computed. *)
Lemma simulate_iv_curve_negative_points self voltage_range num_points :
  (num_points < 0)%Z ->
  exists msg,
    simulate_iv_curve voltage_range num_points self = (Err (ValueError msg), self).
Proof.
  intros H.
  destruct (linspace_negative (default (1.0, 2.5) voltage_range).1
              (default (1.0, 2.5) voltage_range).2 num_points H) as [msg Hmsg].
  exists msg. unfold simulate_iv_curve. now rewrite run_bind, run_lift, Hmsg.
Qed.

(** ** The voltage sweep on a complete parameter dictionary *)

Lemma run_foldM_cons {S A B} (body : B -> A -> M S B) acc x l (s : S) :
  foldM body acc (x :: l) s =
  match body acc x s with
  | (Ok acc', s') => foldM body acc' l s'
  | (Err e, s') => (Err e, s')
  end.
Proof. reflexivity. Qed.

Lemma take_succ_insert {A} (l : list A) k y :
  (k < length l)%nat -> take (S k) (<[k := y]> l) = (take k l ++ [y])%list.
Proof.
  intros H. rewrite (take_S_r _ _ y) by (now apply list_lookup_insert_eq).
  now rewrite take_insert_ge by lia.
Qed.

Section Sweep.
Variable self : Electrolyzer.
Variables T roughness anode_i0 alpha_a cathode_i0 alpha_c p_length p_width : R.
Hypothesis has_temperature : params self !! "temperature" = Some T.
Hypothesis has_roughness : params self !! "roughness" = Some roughness.
Hypothesis has_anode_i0 : params self !! "anode_i0" = Some anode_i0.
Hypothesis has_alpha_a : params self !! "alpha_a" = Some alpha_a.
Hypothesis has_cathode_i0 : params self !! "cathode_i0" = Some cathode_i0.
Hypothesis has_alpha_c : params self !! "alpha_c" = Some alpha_c.
Hypothesis has_length : params self !! "length" = Some p_length.
Hypothesis has_width : params self !! "width" = Some p_width.
Hypothesis temperature_nonzero : T <> 0.

Let cell_current (v : R) : R :=
  sweep_current_density T roughness anode_i0 alpha_a cathode_i0 alpha_c v
  * (p_length * p_width).

Lemma sweep_overpotentials v :
  calculate_overpotentials v {["H+" := 1e-7 * 1000]} self =
  (Ok (v - STANDARD_OXYGEN_POTENTIAL, sweep_cathode_overpotential T), self).
Proof using has_temperature.
  unfold calculate_overpotentials. rewrite lookup_singleton_eq.
  rewrite run_bind, run_bind, (param_Some _ _ _ has_temperature).
  rewrite run_bind, run_lift, (py_div_nonzero _ _ FARADAY_CONSTANT_neq_0).
  rewrite run_bind, run_lift, py_div_nonzero by lra.
  rewrite run_bind, run_lift, np_log_pos by lra.
  reflexivity.
Qed.

Lemma sweep_step_run currents i v :
  sweep_step currents (i, v) self = (Ok (<[i := cell_current v]> currents), self).
Proof using All.
  unfold sweep_step.
  rewrite run_bind, sweep_overpotentials.
  rewrite run_bind, (param_Some _ _ _ has_anode_i0).
  rewrite run_bind, (param_Some _ _ _ has_alpha_a).
  rewrite run_bind,
    (butler_volmer_run _ _ _ _ _ _ _ has_temperature has_roughness temperature_nonzero).
  rewrite run_bind, (param_Some _ _ _ has_cathode_i0).
  rewrite run_bind, (param_Some _ _ _ has_alpha_c).
  rewrite run_bind,
    (butler_volmer_run _ _ _ _ _ _ _ has_temperature has_roughness temperature_nonzero).
  rewrite run_bind, (param_Some _ _ _ has_length).
  rewrite run_bind, (param_Some _ _ _ has_width).
  reflexivity.
Qed.

(** The loop fills the array from the left: after the samples [l] from
    index [k] on, the first [k] entries are as before and the rest hold
    the cell currents. *)
Lemma sweep_loop_run l : forall k currents,
  length currents = (k + length l)%nat ->
  foldM sweep_step currents (zip (seq k (length l)) l) self =
  (Ok (take k currents ++ map cell_current l)%list, self).
Proof using All.
  induction l as [| v l IH]; intros k currents Hlen; simpl length in *.
  - simpl. rewrite run_ret, app_nil_r, take_ge by lia. reflexivity.
  - change (zip (seq k (S (length l))) (v :: l))
      with ((k, v) :: zip (seq (S k) (length l)) l).
    rewrite run_foldM_cons, sweep_step_run.
    rewrite (IH (S k)) by (rewrite length_insert; lia).
    rewrite take_succ_insert by lia.
    now rewrite <- app_assoc.
Qed.

Lemma sweep_currents_run voltages :
  foldM sweep_step (zeros_like voltages) (enumerate voltages) self =
  (Ok (map cell_current voltages), self).
Proof using All.
  unfold enumerate.
  rewrite (sweep_loop_run voltages 0) by (unfold zeros_like; now rewrite length_map).
  reflexivity.
Qed.

(** The whole method: the result it returns and stores. *)
Lemma simulate_iv_curve_run voltage_range num_points :
  (0 <= num_points)%Z ->
  exists voltages,
    let currents := map cell_current voltages in
    let res := {| voltage := voltages;
                  current := currents;
                  current_density :=
                    map (fun c => np_div c (p_length * p_width)) currents;
                  power := zip_with Rmult voltages currents;
                  efficiency := map (np_div THEORETICAL_CELL_VOLTAGE) voltages |} in
    simulate_iv_curve voltage_range num_points self =
      (Ok res, {| params := params self; results := Some res |}) /\
    length voltages = Z.to_nat num_points /\
    forall i, (i < Z.to_nat num_points)%nat ->
      voltages !! i =
      Some (linspace_sample (default (1.0, 2.5) voltage_range).1
                            (default (1.0, 2.5) voltage_range).2
                            (Z.to_nat num_points) i).
Proof using All.
  intros Hnum.
  destruct (linspace_run (default (1.0, 2.5) voltage_range).1
              (default (1.0, 2.5) voltage_range).2 num_points Hnum)
    as (voltages & Hlin & Hlen & Hsample).
  exists voltages. simpl. split; [| split; assumption].
  unfold simulate_iv_curve.
  rewrite run_bind, run_lift, Hlin.
  rewrite run_bind, sweep_currents_run.
  rewrite run_bind, (param_Some _ _ _ has_length).
  rewrite run_bind, (param_Some _ _ _ has_width).
  reflexivity.
Qed.
End Sweep.

(** ** The electrochemical model *)

Lemma linspace_sample_step v_min v_max N i :
  (1 < N)%nat ->
  linspace_sample v_min v_max N (S i) - linspace_sample v_min v_max N i
  = (v_max - v_min) / INR (N - 1).
Proof.
  intros HN. unfold linspace_sample.
  destruct (decide (N <= 1)%nat); [lia |]. rewrite S_INR. ring.
Qed.

(** C1.  On an instance whose parameter dictionary has the keys the sweep
    reads (and a non-zero temperature), [simulate_iv_curve] over the range
    [v_min, v_max] (1.0 to 2.5 V when none is given) with [N] points
    succeeds and returns [N] voltages and [N] currents.  The voltages are
    the [N] equally spaced samples of the range, consecutive ones a step
    [(v_max - v_min) / (N - 1)] apart.  At each sampled voltage, with the
    overpotentials that [calculate_overpotentials] gives at a hydrogen-ion
    concentration of 1e-7 mol/L written in mol/m3, and the current
    densities that [butler_volmer] gives with 4 electrons at the anode and
    2 at the cathode, the current is the smaller of the two magnitudes
    times length times width.  Left to its defaults, the call is the sweep
    of 50 points over [1.0, 2.5]. *)
Theorem simulate_iv_curve_sweep
    self T roughness anode_i0 alpha_a cathode_i0 alpha_c p_length p_width
    voltage_range num_points :
  params self !! "temperature" = Some T ->
  params self !! "roughness" = Some roughness ->
  params self !! "anode_i0" = Some anode_i0 ->
  params self !! "alpha_a" = Some alpha_a ->
  params self !! "cathode_i0" = Some cathode_i0 ->
  params self !! "alpha_c" = Some alpha_c ->
  params self !! "length" = Some p_length ->
  params self !! "width" = Some p_width ->
  T <> 0 ->
  (0 <= num_points)%Z ->
  let v_min := (default (1.0, 2.5) voltage_range).1 in
  let v_max := (default (1.0, 2.5) voltage_range).2 in
  let N := Z.to_nat num_points in
  simulate_iv_curve_default = simulate_iv_curve (Some (1.0, 2.5)) 50 /\
  exists res,
    (simulate_iv_curve voltage_range num_points self).1 = Ok res /\
    length (voltage res) = N /\
    length (current res) = N /\
    (forall i, (i < N)%nat ->
       exists eta_a eta_c i_a i_c,
         voltage res !! i = Some (linspace_sample v_min v_max N i) /\
         calculate_overpotentials (linspace_sample v_min v_max N i)
           {["H+" := 1e-7 * 1000]} self = (Ok (eta_a, eta_c), self) /\
         butler_volmer eta_a anode_i0 alpha_a 4 self = (Ok i_a, self) /\
         butler_volmer eta_c cathode_i0 alpha_c 2 self = (Ok i_c, self) /\
         current res !! i = Some (Rmin (Rabs i_a) (Rabs i_c) * (p_length * p_width))) /\
    (forall i, (S i < N)%nat ->
       linspace_sample v_min v_max N (S i) - linspace_sample v_min v_max N i
       = (v_max - v_min) / INR (N - 1)).
Proof.
  intros HT Hr Hai Haa Hci Hac Hl Hw HT0 Hnum v_min v_max N.
  split; [reflexivity |].
  destruct (simulate_iv_curve_run self T roughness anode_i0 alpha_a cathode_i0
              alpha_c p_length p_width HT Hr Hai Haa Hci Hac Hl Hw HT0
              voltage_range num_points Hnum)
    as (voltages & Hrun & Hlen & Hsample).
  cbv zeta in Hrun. eexists. rewrite Hrun.
  split; [reflexivity |]. cbn [voltage current]. split; [exact Hlen |].
  split; [unfold N; rewrite <- Hlen; apply length_map |]. split.
  - intros i Hi. specialize (Hsample i Hi). fold v_min v_max N in Hsample.
    do 4 eexists. split; [exact Hsample |].
    split; [apply (sweep_overpotentials self T HT) |].
    split; [apply (butler_volmer_run _ _ _ _ _ _ _ HT Hr HT0) |].
    split; [apply (butler_volmer_run _ _ _ _ _ _ _ HT Hr HT0) |].
    rewrite list_lookup_fmap, Hsample. reflexivity.
  - intros i Hi. apply linspace_sample_step. lia.
Qed.

Lemma default_parameters_lookup :
  params (init None) !! "temperature" = Some 298.15 /\
  params (init None) !! "roughness" = Some 100 /\
  params (init None) !! "anode_i0" = Some 1e-3 /\
  params (init None) !! "alpha_a" = Some 0.5 /\
  params (init None) !! "cathode_i0" = Some 1e-2 /\
  params (init None) !! "alpha_c" = Some 0.5 /\
  params (init None) !! "length" = Some 0.05 /\
  params (init None) !! "width" = Some 0.02.
Proof. repeat split; reflexivity. Qed.

Lemma simulate_iv_curve_sweep_witness :
  simulate_iv_curve_default = simulate_iv_curve (Some (1.0, 2.5)) 50 /\
  exists res,
    (simulate_iv_curve None 50 (init None)).1 = Ok res /\
    length (voltage res) = 50%nat /\
    length (current res) = 50%nat /\
    (forall i, (i < 50)%nat ->
       exists eta_a eta_c i_a i_c,
         voltage res !! i = Some (linspace_sample 1.0 2.5 50 i) /\
         calculate_overpotentials (linspace_sample 1.0 2.5 50 i)
           {["H+" := 1e-7 * 1000]} (init None) = (Ok (eta_a, eta_c), init None) /\
         butler_volmer eta_a 1e-3 0.5 4 (init None) = (Ok i_a, init None) /\
         butler_volmer eta_c 1e-2 0.5 2 (init None) = (Ok i_c, init None) /\
         current res !! i = Some (Rmin (Rabs i_a) (Rabs i_c) * (0.05 * 0.02))) /\
    (forall i, (S i < 50)%nat ->
       linspace_sample 1.0 2.5 50 (S i) - linspace_sample 1.0 2.5 50 i
       = (2.5 - 1.0) / INR (50 - 1)).
Proof.
  apply (simulate_iv_curve_sweep (init None) 298.15 100 1e-3 0.5 1e-2 0.5 0.05 0.02
           None 50);
    [reflexivity | reflexivity | reflexivity | reflexivity | reflexivity
    | reflexivity | reflexivity | reflexivity | lra | lia].
Defined.

Lemma butler_volmer_spec_zero T roughness i0 alpha n :
  butler_volmer_spec T roughness 0 i0 alpha n = 0.
Proof.
  unfold butler_volmer_spec.
  replace (alpha * IZR n * FARADAY_CONSTANT * 0 / (GAS_CONSTANT * T)) with 0
    by (unfold Rdiv; ring).
  replace (- (1 - alpha) * IZR n * FARADAY_CONSTANT * 0 / (GAS_CONSTANT * T)) with 0
    by (unfold Rdiv; ring).
  rewrite exp_0. ring.
Qed.

(** C2.  On an instance configured with a (non-zero) temperature [T] and a
    roughness factor, [butler_volmer] returns, for every overpotential,
    exchange current density, charge-transfer coefficient and electron
    count, exactly i0 · roughness · (exp(α·n·F·η/(R·T)) −
    exp(−(1−α)·n·F·η/(R·T))), and it leaves the instance as it found it;
    the instance is left untouched whatever the call returns or raises. *)
Theorem butler_volmer_formula self overpotential i0 alpha n T roughness :
  params self !! "temperature" = Some T ->
  params self !! "roughness" = Some roughness ->
  T <> 0 ->
  butler_volmer overpotential i0 alpha n self =
    (Ok (i0 * roughness *
         (exp (alpha * IZR n * FARADAY_CONSTANT * overpotential / (GAS_CONSTANT * T))
          - exp (- (1 - alpha) * IZR n * FARADAY_CONSTANT * overpotential
                 / (GAS_CONSTANT * T)))),
     self) /\
  read_only (butler_volmer overpotential i0 alpha n).
Proof.
  intros HT Hr HT0. split.
  - now rewrite (butler_volmer_run _ _ _ _ _ _ _ HT Hr HT0).
  - apply read_only_butler_volmer.
Qed.

Lemma butler_volmer_formula_witness :
  butler_volmer 0.3 1e-3 0.5 4 (init None) =
    (Ok (1e-3 * 100 *
         (exp (0.5 * IZR 4 * FARADAY_CONSTANT * 0.3 / (GAS_CONSTANT * 298.15))
          - exp (- (1 - 0.5) * IZR 4 * FARADAY_CONSTANT * 0.3
                 / (GAS_CONSTANT * 298.15)))),
     init None) /\
  read_only (butler_volmer 0.3 1e-3 0.5 4).
Proof.
  apply (butler_volmer_formula (init None) 0.3 1e-3 0.5 4 298.15 100);
    [reflexivity | reflexivity | lra].
Defined.

(** C9.  At overpotential 0 the two exponentials are both 1 and cancel:
    on an instance configured with a (non-zero) temperature and a
    roughness factor, [butler_volmer] returns exactly 0 for every exchange
    current density, charge-transfer coefficient and electron count. *)
Theorem butler_volmer_at_equilibrium self i0 alpha n T roughness :
  params self !! "temperature" = Some T ->
  params self !! "roughness" = Some roughness ->
  T <> 0 ->
  butler_volmer 0 i0 alpha n self = (Ok 0, self).
Proof.
  intros HT Hr HT0.
  rewrite (butler_volmer_run _ _ _ _ _ _ _ HT Hr HT0).
  now rewrite butler_volmer_spec_zero.
Qed.

Lemma butler_volmer_at_equilibrium_witness :
  butler_volmer 0 1e-3 0.5 4 (init None) = (Ok 0, init None).
Proof.
  apply (butler_volmer_at_equilibrium (init None) 1e-3 0.5 4 298.15 100);
    [reflexivity | reflexivity | lra].
Defined.

(** C10.  The cathode overpotential does not depend on the applied
    voltage: for every instance and concentration state, the call at a
    second voltage behaves as the call at the first one does, with the
    same cathode overpotential (or the same exception) and the anode
    overpotential of the second voltage, voltage minus 1.229 V.  So the
    cathode's Butler-Volmer current density is the same at any two
    voltages, those of a sweep among them. *)
Theorem cathode_overpotential_ignores_voltage self v1 v2 concentrations i0 alpha n :
  calculate_overpotentials v2 concentrations self =
    match calculate_overpotentials v1 concentrations self with
    | (Ok (_, eta_c), s) => (Ok (v2 - STANDARD_OXYGEN_POTENTIAL, eta_c), s)
    | (Err e, s) => (Err e, s)
    end /\
  cathode_of (calculate_overpotentials v1 concentrations self).1 =
  cathode_of (calculate_overpotentials v2 concentrations self).1 /\
  cathode_current_at v1 concentrations i0 alpha n self =
  cathode_current_at v2 concentrations i0 alpha n self.
Proof.
  assert (Hshape : forall v,
    calculate_overpotentials v concentrations self =
    match calculate_overpotentials 0 concentrations self with
    | (Ok (_, eta_c), s) => (Ok (v - STANDARD_OXYGEN_POTENTIAL, eta_c), s)
    | (Err e, s) => (Err e, s)
    end).
  { intros v. unfold calculate_overpotentials. rewrite !run_bind.
    match goal with
    | |- context [match ?m with pair _ _ => _ end] => destruct m as [[eta | e] s]
    end; reflexivity. }
  assert (Hcathode : forall v,
    cathode_of (calculate_overpotentials v concentrations self).1 =
    cathode_of (calculate_overpotentials 0 concentrations self).1).
  { intros v. rewrite (Hshape v).
    destruct (calculate_overpotentials 0 concentrations self) as [[[ea ec] | e] s];
      reflexivity. }
  assert (Hcurrent : forall v,
    cathode_current_at v concentrations i0 alpha n self =
    cathode_current_at 0 concentrations i0 alpha n self).
  { intros v. unfold cathode_current_at. rewrite !run_bind, (Hshape v).
    destruct (calculate_overpotentials 0 concentrations self) as [[[ea ec] | e] s];
      reflexivity. }
  split; [| split].
  - rewrite (Hshape v2), (Hshape v1).
    destruct (calculate_overpotentials 0 concentrations self) as [[[ea ec] | e] s];
      reflexivity.
  - now rewrite (Hcathode v1), (Hcathode v2).
  - now rewrite (Hcurrent v1), (Hcurrent v2).
Qed.

(** ** Results before any simulation *)

Lemma after_call_results self c : results (after_call self c) = results self.
Proof.
  destruct c; cbn [after_call].
  - now rewrite read_only_butler_volmer.
  - now rewrite read_only_calculate_overpotentials.
  - now rewrite read_only_calculate_hydrogen_production.
  - now rewrite read_only_calculate_energy_efficiency.
  - now rewrite read_only_plot_results.
Qed.

Lemma after_calls_results cs : forall self,
  results (after_calls self cs) = results self.
Proof.
  unfold after_calls.
  induction cs as [| c cs IH]; intros self; cbn [fold_left].
  - reflexivity.
  - rewrite IH. apply after_call_results.
Qed.

Lemma plot_results_unavailable self :
  results self = None ->
  plot_results self =
  (Err (ValueError "No results to plot. Run simulation first."), self).
Proof. intros H. unfold plot_results. rewrite run_bind. simpl. now rewrite H. Qed.

(** C7.  On an instance on which [simulate_iv_curve] has never been
    invoked, whatever the parameters it was built with and whichever other
    methods were called on it since, the query of the results,
    [plot_results], raises the [ValueError] that says there are no results;
    it returns nothing in their place, and no other method reads them. *)
Theorem plot_results_before_simulation parameters (calls : list other_call) :
  let self := after_calls (init parameters) calls in
  results self = None /\
  plot_results self =
  (Err (ValueError "No results to plot. Run simulation first."), self).
Proof.
  intros self.
  assert (H : results self = None).
  { unfold self. rewrite after_calls_results. reflexivity. }
  split; [exact H | now apply plot_results_unavailable].
Qed.

(** ** Energy efficiency *)

Ltac run_stage H :=
  rewrite run_bind in H;
  match type of H with
  | context [match ?m with pair _ _ => _ end] =>
      let E := fresh "E" in destruct m as [[? | ?] ?] eqn:E; [| discriminate H]
  end.

(** Whenever a sweep returns, its efficiency column is the theoretical
    cell voltage over each voltage of its voltage column. *)
Lemma simulate_iv_curve_efficiency self voltage_range num_points res :
  (simulate_iv_curve voltage_range num_points self).1 = Ok res ->
  efficiency res = map (np_div THEORETICAL_CELL_VOLTAGE) (voltage res).
Proof.
  unfold simulate_iv_curve. intros H.
  run_stage H. run_stage H. run_stage H. run_stage H.
  rewrite run_bind in H. cbn in H. injection H as <-. reflexivity.
Qed.

Lemma calculate_energy_efficiency_run self voltage current :
  voltage <> 0 -> current <> 0 ->
  calculate_energy_efficiency voltage current self =
  (Ok (THEORETICAL_CELL_VOLTAGE / voltage), self).
Proof.
  intros Hv Hc. unfold calculate_energy_efficiency, calculate_hydrogen_production.
  rewrite run_bind, run_lift, py_div_nonzero
    by (apply Rmult_integral_contrapositive_currified;
        [lra | apply FARADAY_CONSTANT_neq_0]).
  rewrite run_lift, py_div_nonzero
    by (now apply Rmult_integral_contrapositive_currified).
  do 2 f_equal. field. split; assumption.
Qed.

(** C3, as amended.  For every voltage [v] and current [c] that are both non-zero,
    [calculate_energy_efficiency] returns the theoretical cell voltage
    divided by the applied voltage, whatever the current, and leaves the
    instance alone; and in the result of any sweep, the voltage-efficiency
    entry at a point with that applied voltage is the same value. *)
Theorem calculate_energy_efficiency_ratio (v c : R) :
  v <> 0 ->
  c <> 0 ->
  (forall self,
     calculate_energy_efficiency v c self =
     (Ok (THEORETICAL_CELL_VOLTAGE / v), self)) /\
  (forall self voltage_range num_points res i,
     (simulate_iv_curve voltage_range num_points self).1 = Ok res ->
     voltage res !! i = Some v ->
     efficiency res !! i = Some (Some (THEORETICAL_CELL_VOLTAGE / v))).
Proof.
  intros Hv Hc. split.
  - intros self. now apply calculate_energy_efficiency_run.
  - intros self voltage_range num_points res i Hrun Hi.
    rewrite (simulate_iv_curve_efficiency _ _ _ _ Hrun).
    rewrite list_lookup_fmap, Hi. simpl. now rewrite np_div_nonzero.
Qed.

Lemma calculate_energy_efficiency_ratio_witness :
  (forall self,
     calculate_energy_efficiency 2 1 self = (Ok (THEORETICAL_CELL_VOLTAGE / 2), self)) /\
  (forall self voltage_range num_points res i,
     (simulate_iv_curve voltage_range num_points self).1 = Ok res ->
     voltage res !! i = Some 2 ->
     efficiency res !! i = Some (Some (THEORETICAL_CELL_VOLTAGE / 2))).
Proof. apply (calculate_energy_efficiency_ratio 2 1); lra. Defined.

(** C3 as stated fails where the current is zero.  The default instance
    swept over [1.229, 2.0] with two points has such a point: its first
    voltage is 1.229 V, where the anode overpotential and with it the
    current are 0.  The efficiency entry of the result there is
    1.229 / 1.229, while [calculate_energy_efficiency] at that voltage and
    current divides zero by zero and raises. *)
Lemma calculate_energy_efficiency_zero_current :
  exists res,
    (simulate_iv_curve (Some (1.229, 2.0)) 2 (init None)).1 = Ok res /\
    voltage res !! 0%nat = Some 1.229 /\
    current res !! 0%nat = Some 0 /\
    efficiency res !! 0%nat = Some (Some (THEORETICAL_CELL_VOLTAGE / 1.229)) /\
    (calculate_energy_efficiency 1.229 0 (init None)).1 = Err ZeroDivisionError /\
    (calculate_energy_efficiency 1.229 0 (init None)).1
      <> Ok (THEORETICAL_CELL_VOLTAGE / 1.229).
Proof.
  destruct default_parameters_lookup as (HT & Hr & Hai & Haa & Hci & Hac & Hl & Hw).
  destruct (simulate_iv_curve_run (init None) _ _ _ _ _ _ _ _
              HT Hr Hai Haa Hci Hac Hl Hw ltac:(lra) (Some (1.229, 2.0)) 2 ltac:(lia))
    as (voltages & Hrun & Hlen & Hsample).
  cbv zeta in Hrun.
  assert (H0 : voltages !! 0%nat = Some 1.229).
  { rewrite (Hsample 0%nat) by (simpl; lia). f_equal.
    unfold linspace_sample. simpl. lra. }
  assert (Hraise : (calculate_energy_efficiency 1.229 0 (init None)).1
                   = Err ZeroDivisionError).
  { unfold calculate_energy_efficiency, calculate_hydrogen_production.
    rewrite run_bind, run_lift, py_div_nonzero
      by (unfold FARADAY_CONSTANT; lra).
    rewrite run_lift. replace (1.229 * 0) with 0 by ring.
    now rewrite py_div_zero. }
  eexists. rewrite Hrun. split; [reflexivity |].
  cbn [voltage current efficiency].
  split; [exact H0 |]. split; [| split; [| split]].
  - rewrite list_lookup_fmap, H0. simpl. f_equal.
    unfold sweep_current_density, sweep_anode_current.
    replace (1.229 - STANDARD_OXYGEN_POTENTIAL) with 0
      by (unfold STANDARD_OXYGEN_POTENTIAL; lra).
    rewrite butler_volmer_spec_zero, Rabs_R0.
    rewrite Rmin_left by apply Rabs_pos. ring.
  - rewrite list_lookup_fmap, H0. simpl.
    now rewrite np_div_nonzero by lra.
  - exact Hraise.
  - rewrite Hraise. discriminate.
Qed.

(** ** Interpolation *)

Lemma np_interp_cons x x0 y0 xp fp :
  length fp = length xp ->
  np_interp x (x0 :: xp) (y0 :: fp) =
  Ok (if Rlt_dec x x0 then y0 else interp_from x x0 y0 (zip xp fp)).
Proof.
  intros Hlen. unfold np_interp.
  destruct (decide (length (x0 :: xp) = 0%nat)) as [H | _]; [discriminate H |].
  destruct (decide (length (y0 :: fp) = length (x0 :: xp))) as [_ | H].
  - reflexivity.
  - exfalso. apply H. simpl. now rewrite Hlen.
Qed.

(** Every sample of an increasing column is at least the first one. *)
Lemma sorted_lookup_ge x0 xp j x :
  StronglySorted Rlt (x0 :: xp) -> (x0 :: xp) !! j = Some x -> x0 <= x.
Proof.
  intros Hs Hj. destruct j as [| j]; simpl in Hj.
  - injection Hj as <-. apply Rle_refl.
  - apply StronglySorted_inv in Hs as [_ Hall].
    rewrite Forall_lookup in Hall. left. exact (Hall j x Hj).
Qed.

(** At a sample the walk returns the sample's value. *)
Lemma interp_from_sample xp : forall fp x0 y0 j x y,
  length fp = length xp ->
  StronglySorted Rlt (x0 :: xp) ->
  (x0 :: xp) !! j = Some x ->
  (y0 :: fp) !! j = Some y ->
  interp_from x x0 y0 (zip xp fp) = y.
Proof.
  induction xp as [| x1 xp IH]; intros fp x0 y0 j x y Hlen Hs Hx Hy.
  - destruct fp; [| discriminate Hlen].
    destruct j as [| j]; simpl in *; [congruence | discriminate Hx].
  - destruct fp as [| y1 fp]; [discriminate Hlen |].
    injection Hlen as Hlen. simpl.
    destruct j as [| j]; simpl in Hx, Hy.
    + injection Hx as <-. injection Hy as <-.
      apply StronglySorted_inv in Hs as [_ Hall].
      apply Forall_inv in Hall.
      destruct (Rlt_dec x0 x1); [| contradiction].
      destruct (Req_dec_T x0 x0); [reflexivity | contradiction].
    + apply StronglySorted_inv in Hs as [Hs _].
      pose proof (sorted_lookup_ge _ _ _ _ Hs Hx) as Hge.
      destruct (Rlt_dec x x1); [lra |].
      now apply (IH fp x1 y1 j).
Qed.

Lemma default_last_cons {A} (l : list A) : forall a y,
  default a (last (y :: l)) = default y (last l).
Proof.
  induction l as [| z l IH]; intros a y; [reflexivity |].
  rewrite last_cons_cons. now rewrite (IH a z), (IH y z).
Qed.

(** To the right of every sample the walk returns the last value. *)
Lemma interp_from_right xp : forall fp x0 y0 x,
  length fp = length xp ->
  Forall (fun v => v < x) xp ->
  interp_from x x0 y0 (zip xp fp) = default y0 (last fp).
Proof.
  induction xp as [| x1 xp IH]; intros fp x0 y0 x Hlen Hall.
  - destruct fp; [reflexivity | discriminate Hlen].
  - destruct fp as [| y1 fp]; [discriminate Hlen |].
    injection Hlen as Hlen. simpl.
    apply Forall_cons in Hall as [H1 Hall].
    destruct (Rlt_dec x x1); [lra |].
    rewrite (IH fp x1 y1 x Hlen Hall).
    symmetry. apply default_last_cons.
Qed.

(** The last sample of an increasing column is its largest. *)
Lemma sorted_last_max xp : forall xl,
  StronglySorted Rlt xp -> last xp = Some xl -> Forall (fun v => v <= xl) xp.
Proof.
  induction xp as [| x0 xp IH]; intros xl Hs Hl; [constructor |].
  apply StronglySorted_inv in Hs as [Hs Hall].
  destruct xp as [| x1 xp].
  - injection Hl as <-. constructor; [apply Rle_refl | constructor].
  - rewrite last_cons_cons in Hl. pose proof (IH xl Hs Hl) as IH'.
    constructor; [| exact IH'].
    apply Forall_inv in Hall. apply Forall_inv in IH'. lra.
Qed.

Lemma np_interp_sample xp fp j x y :
  length fp = length xp ->
  StronglySorted Rlt xp ->
  xp !! j = Some x -> fp !! j = Some y ->
  np_interp x xp fp = Ok y.
Proof.
  intros Hlen Hs Hx Hy.
  destruct xp as [| x0 xp]; [discriminate Hx |].
  destruct fp as [| y0 fp]; [discriminate Hlen |].
  injection Hlen as Hlen. rewrite np_interp_cons by exact Hlen.
  pose proof (sorted_lookup_ge _ _ _ _ Hs Hx) as Hge.
  destruct (Rlt_dec x x0); [lra |].
  f_equal. now apply (interp_from_sample xp fp x0 y0 j).
Qed.

Lemma np_interp_left xp fp x x0 y0 :
  length fp = length xp ->
  xp !! 0%nat = Some x0 -> fp !! 0%nat = Some y0 ->
  x < x0 ->
  np_interp x xp fp = Ok y0.
Proof.
  intros Hlen Hx Hy Hlt.
  destruct xp as [| x0' xp]; [discriminate Hx |].
  destruct fp as [| y0' fp]; [discriminate Hlen |].
  injection Hx as ->. injection Hy as ->. injection Hlen as Hlen.
  rewrite np_interp_cons by exact Hlen.
  destruct (Rlt_dec x x0); [reflexivity | contradiction].
Qed.

Lemma np_interp_right xp fp x xl yl :
  length fp = length xp ->
  StronglySorted Rlt xp ->
  last xp = Some xl -> last fp = Some yl ->
  xl < x ->
  np_interp x xp fp = Ok yl.
Proof.
  intros Hlen Hs Hx Hy Hlt.
  pose proof (sorted_last_max xp xl Hs Hx) as Hmax.
  destruct xp as [| x0 xp]; [discriminate Hx |].
  destruct fp as [| y0 fp]; [discriminate Hlen |].
  injection Hlen as Hlen. rewrite np_interp_cons by exact Hlen.
  apply Forall_cons in Hmax as [H0 Hmax].
  destruct (Rlt_dec x x0); [lra |].
  f_equal. rewrite (interp_from_right xp fp x0 y0 x Hlen).
  - rewrite <- (default_last_cons fp y0 y0). now rewrite Hy.
  - eapply Forall_impl; [exact Hmax |]. simpl. intros v Hv. lra.
Qed.

(** ** Queries on a loaded IV table *)

Lemma iv_data_or_load_loaded s df :
  iv_data (analysis s) = Some df -> iv_data_or_load s = (Ok tt, s).
Proof. intros H. unfold iv_data_or_load. rewrite run_bind. simpl. now rewrite H. Qed.

Lemma h2_data_or_load_loaded s df :
  h2_data (analysis s) = Some df -> h2_data_or_load s = (Ok tt, s).
Proof. intros H. unfold h2_data_or_load. rewrite run_bind. simpl. now rewrite H. Qed.

Lemma iv_column_loaded s df name col :
  iv_data (analysis s) = Some df ->
  df_columns df !! name = Some col ->
  iv_column name s = (Ok col, s).
Proof.
  intros H Hcol. unfold iv_column. rewrite run_bind. simpl.
  rewrite H. unfold lift, column_of. now rewrite Hcol.
Qed.

Lemma interpolate_current_loaded s df xp fp x :
  iv_data (analysis s) = Some df ->
  df_columns df !! "voltage_V" = Some xp ->
  df_columns df !! "current_density_A_m2" = Some fp ->
  interpolate_current x s = (np_interp x xp fp, s).
Proof.
  intros H Hxp Hfp. unfold interpolate_current.
  rewrite run_bind, (iv_data_or_load_loaded _ _ H).
  rewrite run_bind, (iv_column_loaded _ _ _ _ H Hxp).
  rewrite run_bind, (iv_column_loaded _ _ _ _ H Hfp).
  reflexivity.
Qed.

Lemma np_interp_three_rows :
  np_interp 1.25 [1.0; 1.5; 2.0] [0; 50; 100] = Ok 25 /\
  np_interp 3.0 [1.0; 1.5; 2.0] [0; 50; 100] = Ok 100.
Proof.
  split.
  - rewrite np_interp_cons by reflexivity. simpl.
    destruct (Rlt_dec 1.25 1.0); [lra |].
    destruct (Rlt_dec 1.25 1.5); [| lra].
    destruct (Req_dec_T 1.0 1.25); [lra |].
    f_equal. lra.
  - rewrite np_interp_cons by reflexivity. simpl.
    destruct (Rlt_dec 3.0 1.0); [lra |].
    destruct (Rlt_dec 3.0 1.5); [lra |].
    destruct (Rlt_dec 3.0 2.0); [lra |].
    reflexivity.
Qed.

(** C5.  On an instance holding an IV table whose voltages are strictly
    increasing, [interpolate_current] at the voltage of a sample returns
    that sample's current density, below the first voltage the first
    current density and above the last voltage the last one, reading no
    file and changing nothing; and on an instance holding the table with
    voltages [1.0, 1.5, 2.0] and current densities [0, 50, 100] it returns
    25 at 1.25 and 100 at 3.0. *)
Theorem interpolate_current_samples_and_clamp s df xp fp :
  iv_data (analysis s) = Some df ->
  df_columns df !! "voltage_V" = Some xp ->
  df_columns df !! "current_density_A_m2" = Some fp ->
  length fp = length xp ->
  StronglySorted Rlt xp ->
  (forall j x y, xp !! j = Some x -> fp !! j = Some y ->
     interpolate_current x s = (Ok y, s)) /\
  (forall x x0 y0, xp !! 0%nat = Some x0 -> fp !! 0%nat = Some y0 -> x < x0 ->
     interpolate_current x s = (Ok y0, s)) /\
  (forall x xl yl, last xp = Some xl -> last fp = Some yl -> xl < x ->
     interpolate_current x s = (Ok yl, s)) /\
  (forall s' df',
     iv_data (analysis s') = Some df' ->
     df_columns df' !! "voltage_V" = Some [1.0; 1.5; 2.0] ->
     df_columns df' !! "current_density_A_m2" = Some [0; 50; 100] ->
     interpolate_current 1.25 s' = (Ok 25, s') /\
     interpolate_current 3.0 s' = (Ok 100, s')).
Proof.
  intros H Hxp Hfp Hlen Hs. split; [| split; [| split]].
  - intros j x y Hx Hy.
    rewrite (interpolate_current_loaded _ _ _ _ _ H Hxp Hfp).
    now rewrite (np_interp_sample xp fp j x y).
  - intros x x0 y0 Hx Hy Hlt.
    rewrite (interpolate_current_loaded _ _ _ _ _ H Hxp Hfp).
    now rewrite (np_interp_left xp fp x x0 y0).
  - intros x xl yl Hx Hy Hlt.
    rewrite (interpolate_current_loaded _ _ _ _ _ H Hxp Hfp).
    now rewrite (np_interp_right xp fp x xl yl).
  - intros s' df' H' Hxp' Hfp'.
    rewrite !(interpolate_current_loaded _ _ _ _ _ H' Hxp' Hfp').
    destruct np_interp_three_rows as [-> ->]. split; reflexivity.
Qed.

Lemma interpolate_current_samples_and_clamp_witness :
  (forall j x y, [1.0; 1.5; 2.0] !! j = Some x -> [0; 50; 100] !! j = Some y ->
     interpolate_current x three_row_session = (Ok y, three_row_session)) /\
  (forall x x0 y0,
     [1.0; 1.5; 2.0] !! 0%nat = Some x0 -> [0; 50; 100] !! 0%nat = Some y0 -> x < x0 ->
     interpolate_current x three_row_session = (Ok y0, three_row_session)) /\
  (forall x xl yl,
     last [1.0; 1.5; 2.0] = Some xl -> last [0; 50; 100] = Some yl -> xl < x ->
     interpolate_current x three_row_session = (Ok yl, three_row_session)) /\
  (forall s' df',
     iv_data (analysis s') = Some df' ->
     df_columns df' !! "voltage_V" = Some [1.0; 1.5; 2.0] ->
     df_columns df' !! "current_density_A_m2" = Some [0; 50; 100] ->
     interpolate_current 1.25 s' = (Ok 25, s') /\
     interpolate_current 3.0 s' = (Ok 100, s')).
Proof.
  apply (interpolate_current_samples_and_clamp three_row_session three_row_table
           [1.0; 1.5; 2.0] [0; 50; 100]);
    [reflexivity | reflexivity | reflexivity | reflexivity |].
  repeat (constructor; [| repeat constructor; lra]). constructor.
Defined.

(** ** Loading *)

Lemma load_iv_data_run s filename columns :
  let filepath := path_join (data_path (analysis s))
                    (default "current_voltage_measurements.csv" filename) in
  files (world s) !! filepath = Some columns ->
  load_iv_data filename s =
  (Ok {| df_id := length (reads (world s)); df_columns := columns |},
   with_iv_data s filepath columns).
Proof.
  intros filepath H. unfold load_iv_data. rewrite run_bind. cbn [get].
  rewrite run_bind. unfold read_csv. fold filepath. rewrite H. reflexivity.
Qed.

Lemma load_iv_data_missing s filename :
  let filepath := path_join (data_path (analysis s))
                    (default "current_voltage_measurements.csv" filename) in
  files (world s) !! filepath = None ->
  load_iv_data filename s = (Err (FileNotFoundError filepath), s).
Proof.
  intros filepath H. unfold load_iv_data. rewrite run_bind. cbn [get].
  rewrite run_bind. unfold read_csv. fold filepath. rewrite H. reflexivity.
Qed.

Lemma load_h2_data_run s filename columns :
  let filepath := path_join (data_path (analysis s))
                    (default "hydrogen_production_rates.csv" filename) in
  files (world s) !! filepath = Some columns ->
  load_h2_data filename s =
  (Ok {| df_id := length (reads (world s)); df_columns := columns |},
   with_h2_data s filepath columns).
Proof.
  intros filepath H. unfold load_h2_data. rewrite run_bind. cbn [get].
  rewrite run_bind. unfold read_csv. fold filepath. rewrite H. reflexivity.
Qed.

Lemma load_h2_data_missing s filename :
  let filepath := path_join (data_path (analysis s))
                    (default "hydrogen_production_rates.csv" filename) in
  files (world s) !! filepath = None ->
  load_h2_data filename s = (Err (FileNotFoundError filepath), s).
Proof.
  intros filepath H. unfold load_h2_data. rewrite run_bind. cbn [get].
  rewrite run_bind. unfold read_csv. fold filepath. rewrite H. reflexivity.
Qed.

Lemma iv_data_or_load_outcome s :
  lazy_outcome s (fun s => iv_data (analysis s)) with_iv_data (iv_data_or_load s).
Proof.
  unfold iv_data_or_load. rewrite run_bind. cbn [get].
  destruct (iv_data (analysis s)) as [df |] eqn:E.
  - now apply (lazy_cached _ _ _ _ df).
  - rewrite run_bind.
    destruct (files (world s) !! path_join (data_path (analysis s))
                (default "current_voltage_measurements.csv" None)) as [columns |] eqn:F.
    + rewrite (load_iv_data_run s None columns F).
      now eapply lazy_loaded.
    + rewrite (load_iv_data_missing s None F).
      now eapply lazy_failed.
Qed.

Lemma h2_data_or_load_outcome s :
  lazy_outcome s (fun s => h2_data (analysis s)) with_h2_data (h2_data_or_load s).
Proof.
  unfold h2_data_or_load. rewrite run_bind. cbn [get].
  destruct (h2_data (analysis s)) as [df |] eqn:E.
  - now apply (lazy_cached _ _ _ _ df).
  - rewrite run_bind.
    destruct (files (world s) !! path_join (data_path (analysis s))
                (default "hydrogen_production_rates.csv" None)) as [columns |] eqn:F.
    + rewrite (load_h2_data_run s None columns F).
      now eapply lazy_loaded.
    + rewrite (load_h2_data_missing s None F).
      now eapply lazy_failed.
Qed.

(** ** Queries on loaded tables keep the session *)

Lemma keeps_read_only {S A} (m : M S A) s : read_only m -> keeps m s.
Proof. intros H. apply H. Qed.

Lemma keeps_bind {S A B} (m : M S A) (k : A -> M S B) s :
  keeps m s -> (forall a, keeps (k a) s) -> keeps (m ≫= k) s.
Proof.
  unfold keeps. intros Hm Hk. rewrite run_bind.
  destruct (m s) as [[a | e] s']; simpl in *; subst s'.
  - apply Hk.
  - reflexivity.
Qed.

Lemma read_only_iv_column name : read_only (iv_column name).
Proof. unfold iv_column. read_only_tac. Qed.

Lemma read_only_h2_column name : read_only (h2_column name).
Proof. unfold h2_column. read_only_tac. Qed.

Lemma keeps_iv_data_or_load s :
  is_Some (iv_data (analysis s)) -> keeps iv_data_or_load s.
Proof. intros [df H]. unfold keeps. now rewrite (iv_data_or_load_loaded s df H). Qed.

Lemma keeps_h2_data_or_load s :
  is_Some (h2_data (analysis s)) -> keeps h2_data_or_load s.
Proof. intros [df H]. unfold keeps. now rewrite (h2_data_or_load_loaded s df H). Qed.

Ltac keeps_tac :=
  repeat first
    [ apply keeps_read_only;
      first [ apply read_only_iv_column | apply read_only_h2_column
            | apply read_only_ret | apply read_only_lift ]
    | apply keeps_bind
    | progress intros ].

Lemma keeps_interpolate_current x s :
  is_Some (iv_data (analysis s)) -> keeps (interpolate_current x) s.
Proof.
  intros H. unfold interpolate_current.
  apply keeps_bind; [now apply keeps_iv_data_or_load |]. keeps_tac.
Qed.

Lemma keeps_interpolate_voltage x s :
  is_Some (iv_data (analysis s)) -> keeps (interpolate_voltage x) s.
Proof.
  intros H. unfold interpolate_voltage.
  apply keeps_bind; [now apply keeps_iv_data_or_load |]. keeps_tac.
Qed.

(** What follows the two lazy loads in [calculate_performance_metrics]. *)
Lemma keeps_metrics_tail {A} (k : gmap string (option R) -> M Session A) s :
  is_Some (iv_data (analysis s)) ->
  (forall m, keeps (k m) s) ->
  keeps (i15 ← interpolate_current 1.5;
         i20 ← interpolate_current 2.0;
         cd ← iv_column "current_density_A_m2";
         v100 ← interpolate_voltage 100;
         v200 ← interpolate_voltage 200;
         fe ← h2_column "faradaic_efficiency";
         fe' ← h2_column "faradaic_efficiency";
         rate ← h2_column "h2_production_mmol_s";
         k (<["max_h2_rate_mmol_s" := series_max rate]> (
            <["min_faradaic_efficiency" := series_min fe']> (
            <["avg_faradaic_efficiency" := series_mean fe]> (
            <["voltage_at_200_A_m2" := Some v200]> (
            <["voltage_at_100_A_m2" := Some v100]> (
            <["max_current_density" := series_max cd]> (
            <["current_at_2_0V" := Some i20]> (
            <["current_at_1_5V" := Some i15]> ∅))))))))) s.
Proof.
  intros H Hk.
  apply keeps_bind; [now apply keeps_interpolate_current | intros i15].
  apply keeps_bind; [now apply keeps_interpolate_current | intros i20].
  apply keeps_bind; [apply keeps_read_only, read_only_iv_column | intros cd].
  apply keeps_bind; [now apply keeps_interpolate_voltage | intros v100].
  apply keeps_bind; [now apply keeps_interpolate_voltage | intros v200].
  apply keeps_bind; [apply keeps_read_only, read_only_h2_column | intros fe].
  apply keeps_bind; [apply keeps_read_only, read_only_h2_column | intros fe'].
  apply keeps_bind; [apply keeps_read_only, read_only_h2_column | intros rate].
  apply Hk.
Qed.

Lemma calculate_performance_metrics_unfold s :
  calculate_performance_metrics s =
  match iv_data_or_load s with
  | (Ok _, s1) =>
      match h2_data_or_load s1 with
      | (Ok _, s2) =>
          (i15 ← interpolate_current 1.5;
           i20 ← interpolate_current 2.0;
           cd ← iv_column "current_density_A_m2";
           v100 ← interpolate_voltage 100;
           v200 ← interpolate_voltage 200;
           fe ← h2_column "faradaic_efficiency";
           fe' ← h2_column "faradaic_efficiency";
           rate ← h2_column "h2_production_mmol_s";
           mret (<["max_h2_rate_mmol_s" := series_max rate]> (
                 <["min_faradaic_efficiency" := series_min fe']> (
                 <["avg_faradaic_efficiency" := series_mean fe]> (
                 <["voltage_at_200_A_m2" := Some v200]> (
                 <["voltage_at_100_A_m2" := Some v100]> (
                 <["max_current_density" := series_max cd]> (
                 <["current_at_2_0V" := Some i20]> (
                 <["current_at_1_5V" := Some i15]> ∅))))))))) s2
      | (Err e, s2) => (Err e, s2)
      end
  | (Err e, s1) => (Err e, s1)
  end.
Proof.
  unfold calculate_performance_metrics. rewrite run_bind.
  destruct (iv_data_or_load s) as [[[] | e] s1]; [| reflexivity].
  rewrite run_bind.
  destruct (h2_data_or_load s1) as [[[] | e] s2]; reflexivity.
Qed.

(** One lazy load: what it leaves of the session. *)
Lemma iv_data_or_load_step s :
  exists r s1,
    iv_data_or_load s = (r, s1) /\
    h2_data (analysis s1) = h2_data (analysis s) /\
    (is_Some (iv_data (analysis s)) -> s1 = s) /\
    (exists new, reads (world s1) = (new ++ reads (world s))%list /\
                 (length new <= match iv_data (analysis s) with
                                | Some _ => 0 | None => 1 end)%nat) /\
    (forall u, r = Ok u -> is_Some (iv_data (analysis s1))).
Proof.
  destruct (iv_data_or_load_outcome s) as [df H -> | filepath columns H -> | e H ->];
    do 2 eexists; (split; [reflexivity |]); rewrite H; simpl.
  - repeat split; eauto. exists []. split; [reflexivity | simpl; lia].
  - repeat split; eauto.
    + intros [? ?]; discriminate.
    + exists [filepath]. split; [reflexivity | simpl; lia].
  - repeat split; eauto.
    + exists []. split; [reflexivity | simpl; lia].
    + intros u Hu. discriminate Hu.
Qed.

Lemma h2_data_or_load_step s :
  exists r s1,
    h2_data_or_load s = (r, s1) /\
    iv_data (analysis s1) = iv_data (analysis s) /\
    (is_Some (h2_data (analysis s)) -> s1 = s) /\
    (exists new, reads (world s1) = (new ++ reads (world s))%list /\
                 (length new <= match h2_data (analysis s) with
                                | Some _ => 0 | None => 1 end)%nat) /\
    (forall u, r = Ok u -> is_Some (h2_data (analysis s1))).
Proof.
  destruct (h2_data_or_load_outcome s) as [df H -> | filepath columns H -> | e H ->];
    do 2 eexists; (split; [reflexivity |]); rewrite H; simpl.
  - repeat split; eauto. exists []. split; [reflexivity | simpl; lia].
  - repeat split; eauto.
    + intros [? ?]; discriminate.
    + exists [filepath]. split; [reflexivity | simpl; lia].
  - repeat split; eauto.
    + exists []. split; [reflexivity | simpl; lia].
    + intros u Hu. discriminate Hu.
Qed.

Lemma keeps_calculate_performance_metrics s :
  is_Some (iv_data (analysis s)) -> is_Some (h2_data (analysis s)) ->
  keeps calculate_performance_metrics s.
Proof.
  intros Hiv Hh2. unfold keeps. rewrite calculate_performance_metrics_unfold.
  pose proof (keeps_iv_data_or_load s Hiv) as K1. unfold keeps in K1.
  destruct (iv_data_or_load s) as [[[] | e] s1]; simpl in K1; subst s1; [| reflexivity].
  pose proof (keeps_h2_data_or_load s Hh2) as K2. unfold keeps in K2.
  destruct (h2_data_or_load s) as [[[] | e] s2]; simpl in K2; subst s2; [| reflexivity].
  apply (keeps_metrics_tail (fun m => mret m) s Hiv).
  intros m. apply keeps_read_only, read_only_ret.
Qed.

(** The session a metrics query ends in. *)
Lemma calculate_performance_metrics_step s :
  exists s',
    (calculate_performance_metrics s).2 = s' /\
    (is_Some (iv_data (analysis s)) -> iv_data (analysis s') = iv_data (analysis s)) /\
    (is_Some (h2_data (analysis s)) -> h2_data (analysis s') = h2_data (analysis s)) /\
    (exists new, reads (world s') = (new ++ reads (world s))%list /\
                 (length new <= missing_tables s)%nat) /\
    (forall m, (calculate_performance_metrics s).1 = Ok m ->
       is_Some (iv_data (analysis s')) /\ is_Some (h2_data (analysis s'))).
Proof.
  rewrite calculate_performance_metrics_unfold.
  destruct (iv_data_or_load_step s) as (r1 & s1 & -> & Hh1 & Hk1 & (n1 & Hr1 & Hn1) & Hl1).
  destruct r1 as [[] | e1].
  2:{ exists s1. simpl. repeat split.
      - intros H. now rewrite (Hk1 H).
      - intros _. exact Hh1.
      - exists n1. split; [exact Hr1 | unfold missing_tables; lia].
      - discriminate.
      - discriminate. }
  destruct (h2_data_or_load_step s1) as (r2 & s2 & -> & Hi2 & Hk2 & (n2 & Hr2 & Hn2) & Hl2).
  assert (Hreads : exists new, reads (world s2) = (new ++ reads (world s))%list /\
                               (length new <= missing_tables s)%nat).
  { exists (n2 ++ n1)%list. split.
    - now rewrite Hr2, Hr1, app_assoc.
    - rewrite length_app, Hh1 in *. unfold missing_tables. lia. }
  assert (Hiv : is_Some (iv_data (analysis s)) -> iv_data (analysis s2) = iv_data (analysis s)).
  { intros H. rewrite Hi2. now rewrite (Hk1 H). }
  assert (Hh2 : is_Some (h2_data (analysis s)) -> h2_data (analysis s2) = h2_data (analysis s)).
  { intros H. rewrite <- Hh1 in H. rewrite (Hk2 H). exact Hh1. }
  destruct r2 as [[] | e2].
  2:{ exists s2. simpl. repeat split; try assumption; discriminate. }
  assert (Hiv2 : is_Some (iv_data (analysis s2))).
  { rewrite Hi2. now apply (Hl1 tt). }
  pose proof (keeps_metrics_tail (fun m => mret m) s2 Hiv2
                (fun m => keeps_read_only _ _ (read_only_ret m))) as K.
  unfold keeps in K. exists s2. split; [exact K |].
  repeat split; try assumption. now apply (Hl2 tt).
Qed.

(** C4, as amended.  A metrics query loads only the tables that are
    missing: a table the instance already holds stays the identical
    object, the files read during the query are at most one for each
    missing table, and once a query has returned, the next one reads
    nothing and changes nothing.  [load_iv_data] itself keeps no such
    cache: whenever its file is there it reads it, returns a new table
    object and stores that one, whether or not a table was held before. *)
Theorem metrics_query_loads_missing_tables_only s :
  let s' := (calculate_performance_metrics s).2 in
  (is_Some (iv_data (analysis s)) -> iv_data (analysis s') = iv_data (analysis s)) /\
  (is_Some (h2_data (analysis s)) -> h2_data (analysis s') = h2_data (analysis s)) /\
  (exists new, reads (world s') = (new ++ reads (world s))%list /\
               (length new <= missing_tables s)%nat) /\
  (forall m, (calculate_performance_metrics s).1 = Ok m ->
     keeps calculate_performance_metrics s') /\
  (forall filename columns,
     let filepath := path_join (data_path (analysis s))
                       (default "current_voltage_measurements.csv" filename) in
     files (world s) !! filepath = Some columns ->
     exists df s1,
       load_iv_data filename s = (Ok df, s1) /\
       df_id df = length (reads (world s)) /\
       iv_data (analysis s1) = Some df /\
       reads (world s1) = filepath :: reads (world s)).
Proof.
  intros s'.
  destruct (calculate_performance_metrics_step s) as (s2 & Hs2 & Hiv & Hh2 & Hreads & Hok).
  fold s' in Hs2. subst s2.
  split; [exact Hiv |]. split; [exact Hh2 |]. split; [exact Hreads |]. split.
  - intros m Hm. destruct (Hok m Hm) as [H1 H2].
    now apply keeps_calculate_performance_metrics.
  - intros filename columns filepath Hfile.
    do 2 eexists. split; [exact (load_iv_data_run s filename columns Hfile) |].
    repeat split.
Qed.

Lemma fresh_session_iv_path :
  path_join (data_path (analysis fresh_session))
    (default "current_voltage_measurements.csv" None) = iv_file.
Proof. reflexivity. Qed.

Lemma fresh_session_load :
  load_iv_data None fresh_session = (Ok three_row_table, three_row_session).
Proof.
  apply (load_iv_data_run fresh_session None three_row_columns).
  apply lookup_singleton_eq.
Qed.

(** C4 as stated fails for [load_iv_data]: called twice on a fresh
    instance, with no reload asked for in between, it reads the file both
    times, and the second call returns a new table object, not the one the
    first call cached. *)
Lemma load_iv_data_twice_reads_twice :
  exists df1 s1 df2 s2,
    load_iv_data None fresh_session = (Ok df1, s1) /\
    iv_data (analysis s1) = Some df1 /\
    load_iv_data None s1 = (Ok df2, s2) /\
    df2 <> df1 /\
    reads (world s2) = [iv_file; iv_file].
Proof.
  assert (H2 : files (world three_row_session) !! iv_file = Some three_row_columns).
  { apply lookup_singleton_eq. }
  pose proof (load_iv_data_run three_row_session None _ H2) as R2.
  do 4 eexists. split; [exact fresh_session_load |]. split; [reflexivity |].
  split; [exact R2 |]. split; [| reflexivity].
  intros Heq. apply (f_equal df_id) in Heq. simpl in Heq. discriminate Heq.
Qed.

(** ** Tafel regression *)

Lemma np_ge_true v lo : np_ge v lo = true <-> lo <= v.
Proof. unfold np_ge. destruct (Rge_dec v lo); split; intros; try lra; discriminate. Qed.

Lemma np_le_true v hi : np_le v hi = true <-> v <= hi.
Proof. unfold np_le. destruct (Rle_dec v hi); split; intros; try lra; discriminate. Qed.

(** Selecting by the mask built from the voltage column is keeping the
    rows of the window. *)
Lemma loc_window lo hi v_col : forall c_col,
  length c_col = length v_col ->
  let mask := zip_with andb (map (fun v => np_ge v lo) v_col)
                            (map (fun v => np_le v hi) v_col) in
  loc mask v_col = map fst (rows_in_range lo hi (zip v_col c_col)) /\
  loc mask c_col = map snd (rows_in_range lo hi (zip v_col c_col)).
Proof.
  unfold rows_in_range.
  cbv zeta. induction v_col as [| v v_col IH]; intros c_col Hlen.
  - destruct c_col; [| discriminate Hlen]. split; reflexivity.
  - destruct c_col as [| c c_col]; [discriminate Hlen |].
    injection Hlen as Hlen. destruct (IH c_col Hlen) as [IHv IHc].
    cbn [map zip_with loc]. rewrite filter_cons. cbn [fst].
    destruct (decide (lo <= v /\ v <= hi)) as [[H1 H2] | Hout].
    + apply np_ge_true in H1. apply np_le_true in H2. rewrite H1, H2.
      cbn [andb map fst snd]. now rewrite IHv, IHc.
    + assert (Hmask : np_ge v lo && np_le v hi = false).
      { apply andb_false_iff.
        destruct (np_ge v lo) eqn:E1; [| now left].
        destruct (np_le v hi) eqn:E2; [| now right].
        exfalso. apply Hout. split; [now apply np_ge_true | now apply np_le_true]. }
      rewrite Hmask. split; assumption.
Qed.

Lemma tafel_equation_exp eta a b :
  b <> 0 -> tafel_equation eta a b = Some (exp ((eta - a) / b)).
Proof. intros Hb. unfold tafel_equation. now rewrite np_div_nonzero. Qed.

Lemma curve_fit_double_needs_two_points f xdata ydata p0 maxfev :
  (length ydata < 2)%nat -> exists e, curve_fit_double f xdata ydata p0 maxfev = Err e.
Proof.
  intros H. unfold curve_fit_double.
  destruct (decide (length ydata < 2)%nat); [eauto | contradiction].
Qed.

Section TafelRegression.
Variable curve_fit :
  (R -> R -> R -> option R) -> list R -> list R -> R * R -> nat
  -> result ((R * R) * Covariance).

(** SciPy's optimizer refuses fewer observations than parameters. *)
Hypothesis curve_fit_needs_two_points :
  forall f xdata ydata p0 maxfev,
    (length ydata < 2)%nat -> exists e, curve_fit f xdata ydata p0 maxfev = Err e.

(** On a loaded table the method is one call of the optimizer, on the rows
    of the window, and what it makes of the answer. *)
Lemma fit_tafel_equation_run s df v_col c_col voltage_range :
  iv_data (analysis s) = Some df ->
  df_columns df !! "voltage_V" = Some v_col ->
  df_columns df !! "current_density_A_m2" = Some c_col ->
  length c_col = length v_col ->
  let window := default (1.2, 1.8) voltage_range in
  let rows := rows_in_range window.1 window.2 (zip v_col c_col) in
  exists r_squared,
    fit_tafel_equation curve_fit voltage_range s =
    match curve_fit tafel_equation (map fst rows) (map snd rows) (1.0, 0.1) 5000%nat with
    | Ok (popt, pcov) =>
        (Ok {| tafel_a := popt.1;
               tafel_b := popt.2;
               r_squared := r_squared popt;
               covariance := pcov;
               fit_voltage_range := window |}, s)
    | Err e => (Err e, s)
    end.
Proof using Type.
  intros H Hv Hc Hlen window rows.
  destruct (loc_window window.1 window.2 v_col c_col Hlen) as [Hlv Hlc].
  fold rows in Hlv, Hlc.
  eexists (fun popt => _).
  unfold fit_tafel_equation. fold window.
  rewrite run_bind, (iv_data_or_load_loaded _ _ H).
  rewrite run_bind, (iv_column_loaded _ _ _ _ H Hv).
  rewrite run_bind, (iv_column_loaded _ _ _ _ H Hv).
  rewrite run_bind, (iv_column_loaded _ _ _ _ H Hv).
  rewrite run_bind, (iv_column_loaded _ _ _ _ H Hc).
  rewrite run_bind, run_lift, Hlv, Hlc.
  destruct (curve_fit tafel_equation (map fst rows) (map snd rows) (1.0, 0.1) 5000%nat)
    as [[popt pcov] | e]; reflexivity.
Qed.
End TafelRegression.

(** C6.  On a loaded IV table, [fit_tafel_equation] keeps the rows whose
    voltage lies in the given range, ends included ([1.2, 1.8] V when none
    is given), and hands them to the optimizer with the model
    i = exp((eta - a) / b), the initial guess a = 1.0, b = 0.1 and an
    iteration budget of 5000.  Whatever exception the optimizer raises, a
    failure to converge within the budget among them, the method raises in
    turn and returns no result; with an optimizer that refuses fewer
    observations than parameters, as SciPy's does, that is so whenever
    fewer than 2 rows are in range.  Only when the optimizer returns does
    the method return, with the optimizer's parameters and covariance. *)
Theorem fit_tafel_equation_propagates_errors
    (curve_fit : (R -> R -> R -> option R) -> list R -> list R -> R * R -> nat
                 -> result ((R * R) * Covariance))
    s df v_col c_col voltage_range :
  (forall f xdata ydata p0 maxfev,
     (length ydata < 2)%nat -> exists e, curve_fit f xdata ydata p0 maxfev = Err e) ->
  iv_data (analysis s) = Some df ->
  df_columns df !! "voltage_V" = Some v_col ->
  df_columns df !! "current_density_A_m2" = Some c_col ->
  length c_col = length v_col ->
  let window := default (1.2, 1.8) voltage_range in
  let rows := rows_in_range window.1 window.2 (zip v_col c_col) in
  let fitted :=
    curve_fit tafel_equation (map fst rows) (map snd rows) (1.0, 0.1) 5000%nat in
  fit_tafel_equation curve_fit None = fit_tafel_equation curve_fit (Some (1.2, 1.8)) /\
  (forall row, row ∈ rows <->
     (window.1 <= row.1 /\ row.1 <= window.2) /\ row ∈ zip v_col c_col) /\
  (forall eta a b, b <> 0 -> tafel_equation eta a b = Some (exp ((eta - a) / b))) /\
  ((length rows < 2)%nat ->
     exists e, fit_tafel_equation curve_fit voltage_range s = (Err e, s)) /\
  (forall e, fitted = Err e ->
     fit_tafel_equation curve_fit voltage_range s = (Err e, s)) /\
  (forall popt pcov, fitted = Ok (popt, pcov) ->
     exists fit,
       fit_tafel_equation curve_fit voltage_range s = (Ok fit, s) /\
       tafel_a fit = popt.1 /\ tafel_b fit = popt.2 /\
       covariance fit = pcov /\ fit_voltage_range fit = window).
Proof.
  intros Hfew H Hv Hc Hlen window rows fitted.
  destruct (fit_tafel_equation_run curve_fit s df v_col c_col voltage_range
              H Hv Hc Hlen) as [r2 Hrun].
  fold window rows fitted in Hrun.
  split; [reflexivity |]. split; [| split; [| split; [| split]]].
  - intros row. unfold rows, rows_in_range.
    now rewrite list_elem_of_filter.
  - intros eta a b Hb. now apply tafel_equation_exp.
  - intros Hlt.
    destruct (Hfew tafel_equation (map fst rows) (map snd rows) (1.0, 0.1) 5000%nat)
      as [e He].
    { now rewrite length_map. }
    exists e. fold fitted in He. now rewrite Hrun, He.
  - intros e He. now rewrite Hrun, He.
  - intros popt pcov Hfit. rewrite Hrun, Hfit.
    eexists. split; [reflexivity |]. repeat split.
Qed.

Lemma fit_tafel_equation_propagates_errors_witness :
  let window := (1.2, 1.8) in
  let rows := rows_in_range window.1 window.2 (zip [1.0; 1.5; 2.0] [0; 50; 100]) in
  let fitted :=
    curve_fit_double tafel_equation (map fst rows) (map snd rows) (1.0, 0.1) 5000%nat in
  fit_tafel_equation curve_fit_double None
    = fit_tafel_equation curve_fit_double (Some (1.2, 1.8)) /\
  (forall row, row ∈ rows <->
     (window.1 <= row.1 /\ row.1 <= window.2) /\ row ∈ zip [1.0; 1.5; 2.0] [0; 50; 100]) /\
  (forall eta a b, b <> 0 -> tafel_equation eta a b = Some (exp ((eta - a) / b))) /\
  ((length rows < 2)%nat ->
     exists e, fit_tafel_equation curve_fit_double None three_row_session
               = (Err e, three_row_session)) /\
  (forall e, fitted = Err e ->
     fit_tafel_equation curve_fit_double None three_row_session
     = (Err e, three_row_session)) /\
  (forall popt pcov, fitted = Ok (popt, pcov) ->
     exists fit,
       fit_tafel_equation curve_fit_double None three_row_session
       = (Ok fit, three_row_session) /\
       tafel_a fit = popt.1 /\ tafel_b fit = popt.2 /\
       covariance fit = pcov /\ fit_voltage_range fit = window).
Proof.
  apply (fit_tafel_equation_propagates_errors curve_fit_double three_row_session
           three_row_table [1.0; 1.5; 2.0] [0; 50; 100] None);
    [exact curve_fit_double_needs_two_points
    | reflexivity | reflexivity | reflexivity | reflexivity].
Defined.

(** On the three-row table the default window [1.2, 1.8] holds the middle
    row alone, and the fit raises what the optimizer raises on one
    observation. *)
Example three_row_window :
  rows_in_range 1.2 1.8 (zip [1.0; 1.5; 2.0] [0; 50; 100]) = [(1.5, 50)].
Proof.
  unfold rows_in_range. simpl zip_with.
  rewrite filter_cons. destruct (decide _) as [[H1 H2] | _]; [simpl in H1; lra |].
  rewrite filter_cons. destruct (decide _) as [_ | H]; [| exfalso; apply H; simpl; lra].
  rewrite filter_cons. destruct (decide _) as [[H1 H2] | _]; [simpl in H2; lra |].
  reflexivity.
Qed.

Example three_row_fit_raises :
  exists msg,
    fit_tafel_equation curve_fit_double None three_row_session
    = (Err (TypeError msg), three_row_session).
Proof.
  destruct (fit_tafel_equation_run curve_fit_double three_row_session three_row_table
              [1.0; 1.5; 2.0] [0; 50; 100] None) as [r2 Hrun];
    [reflexivity | reflexivity | reflexivity | reflexivity |].
  cbv zeta in Hrun. simpl default in Hrun. cbn [fst snd] in Hrun.
  rewrite three_row_window in Hrun. rewrite Hrun. eexists. reflexivity.
Qed.

(** * More of the code *)

(** ** Water viscosity and diffusion coefficients *)

Lemma run_result_bind {A B} (r : result A) (k : A -> result B) :
  (r ≫= k) = match r with Ok a => k a | Err e => Err e end.
Proof. reflexivity. Qed.

Lemma get_water_viscosity_run temperature :
  temperature <> 123.85 ->
  get_water_viscosity temperature =
  Ok (0.02939 * exp (507.88 / (temperature - 273.15 + 149.3)) * 1e-3).
Proof.
  intros H. unfold get_water_viscosity.
  rewrite run_result_bind, py_div_nonzero by lra. reflexivity.
Qed.

Lemma vogel_exponent_decreasing T1 T2 :
  123.85 < T1 -> T1 < T2 ->
  507.88 / (T2 - 273.15 + 149.3) < 507.88 / (T1 - 273.15 + 149.3).
Proof.
  intros H1 H12. unfold Rdiv. apply Rmult_lt_compat_l; [lra |].
  apply Rinv_lt_contravar; [| lra].
  apply Rmult_lt_0_compat; lra.
Qed.

Lemma viscosity_decreasing T1 T2 :
  123.85 < T1 -> T1 < T2 ->
  0 < 0.02939 * exp (507.88 / (T2 - 273.15 + 149.3)) * 1e-3
    < 0.02939 * exp (507.88 / (T1 - 273.15 + 149.3)) * 1e-3.
Proof.
  intros H1 H12.
  pose proof (exp_pos (507.88 / (T2 - 273.15 + 149.3))) as Hpos.
  pose proof (exp_increasing _ _ (vogel_exponent_decreasing T1 T2 H1 H12)) as Hinc.
  split; nra.
Qed.

(** X1.  Above 123.85 K (-149.3 degrees Celsius) [get_water_viscosity]
    returns a viscosity that falls strictly as the temperature rises and
    stays above the prefactor of the Vogel equation, 0.02939 mPa.s. *)
Theorem get_water_viscosity_decreasing T1 T2 :
  123.85 < T1 -> T1 < T2 ->
  exists mu1 mu2,
    get_water_viscosity T1 = Ok mu1 /\
    get_water_viscosity T2 = Ok mu2 /\
    0.02939 * 1e-3 < mu2 < mu1.
Proof.
  intros H1 H12. do 2 eexists.
  split; [apply get_water_viscosity_run; lra |].
  split; [apply get_water_viscosity_run; lra |].
  split; [| now apply viscosity_decreasing].
  assert (Hq : 0 < 507.88 / (T2 - 273.15 + 149.3)).
  { apply Rdiv_lt_0_compat; lra. }
  apply exp_increasing in Hq. rewrite exp_0 in Hq. nra.
Qed.

Lemma get_water_viscosity_decreasing_witness :
  exists mu1 mu2,
    get_water_viscosity 298.15 = Ok mu1 /\
    get_water_viscosity 350 = Ok mu2 /\
    0.02939 * 1e-3 < mu2 < mu1.
Proof. apply (get_water_viscosity_decreasing 298.15 350); lra. Defined.

Lemma base_coefficient_positive species :
  0 < default 1e-9 (DIFFUSION_COEFFICIENTS !! species).
Proof.
  unfold DIFFUSION_COEFFICIENTS.
  repeat (rewrite lookup_insert; case_decide; [simpl; lra |]).
  rewrite lookup_empty. simpl. lra.
Qed.

Lemma get_diffusion_coefficient_run species temperature :
  let T := default STANDARD_TEMPERATURE temperature in
  T <> 123.85 ->
  get_diffusion_coefficient species temperature =
  Ok (default 1e-9 (DIFFUSION_COEFFICIENTS !! species)
      * (T / STANDARD_TEMPERATURE
         * (WATER_VISCOSITY
            / (0.02939 * exp (507.88 / (T - 273.15 + 149.3)) * 1e-3)))).
Proof.
  intros T HT. unfold get_diffusion_coefficient. fold T.
  rewrite run_result_bind, py_div_nonzero by (unfold STANDARD_TEMPERATURE; lra).
  rewrite run_result_bind, (get_water_viscosity_run T HT).
  pose proof (exp_pos (507.88 / (T - 273.15 + 149.3))) as Hpos.
  rewrite run_result_bind, py_div_nonzero by nra.
  reflexivity.
Qed.

Lemma lt_div_r x y z : 0 < z -> x * z < y -> x < y / z.
Proof.
  intros Hz H. apply Rmult_lt_reg_r with z; [exact Hz |].
  replace (y / z * z) with y by (field; lra). exact H.
Qed.

Lemma exp_3_lt_27 x : x < 3 -> exp x < 27.
Proof.
  intros H. apply Rlt_le_trans with (exp 3); [now apply exp_increasing |].
  replace 3 with (1 + (1 + 1)) by ring. rewrite !exp_plus.
  pose proof exp_le_3 as H3. pose proof (exp_pos 1) as Hp. nra.
Qed.

(** X2.  Called without a temperature,
    [get_diffusion_coefficient] does not return the tabulated coefficient
    of the species (or the fallback 1e-9 of a species the table lacks): the
    Vogel viscosity at 298.15 K is below [WATER_VISCOSITY], and the value
    returned is the tabulated one times a factor above 1.1. *)
Theorem get_diffusion_coefficient_default_exceeds_table species :
  exists k,
    1.1 < k /\
    get_diffusion_coefficient species None =
    Ok (default 1e-9 (DIFFUSION_COEFFICIENTS !! species) * k).
Proof.
  eexists. split; [| apply get_diffusion_coefficient_run; simpl;
                     unfold STANDARD_TEMPERATURE; lra].
  simpl. unfold STANDARD_TEMPERATURE, WATER_VISCOSITY.
  set (e := exp (507.88 / (298.15 - 273.15 + 149.3))).
  assert (He : 0 < e < 27).
  { split; [apply exp_pos |]. apply exp_3_lt_27.
    replace (298.15 - 273.15 + 149.3) with 174.3 by lra. lra. }
  replace (298.15 / 298.15) with 1 by lra.
  rewrite Rmult_1_l.
  apply lt_div_r; nra.
Qed.

(** X3.  Above 123.85 K the diffusion coefficient that
    [get_diffusion_coefficient] returns, for a tabulated species or
    through the fallback, is positive and rises strictly with the
    temperature. *)
Theorem get_diffusion_coefficient_increasing species T1 T2 :
  123.85 < T1 -> T1 < T2 ->
  exists D1 D2,
    get_diffusion_coefficient species (Some T1) = Ok D1 /\
    get_diffusion_coefficient species (Some T2) = Ok D2 /\
    0 < D1 < D2.
Proof.
  intros H1 H12.
  do 2 eexists.
  split; [apply get_diffusion_coefficient_run; simpl; lra |].
  split; [apply get_diffusion_coefficient_run; simpl; lra |].
  simpl. pose proof (base_coefficient_positive species) as Hb.
  set (b := default 1e-9 (DIFFUSION_COEFFICIENTS !! species)) in *.
  destruct (viscosity_decreasing T1 T2 H1 H12) as [Hm2 Hm12].
  set (m1 := 0.02939 * exp (507.88 / (T1 - 273.15 + 149.3)) * 1e-3) in *.
  set (m2 := 0.02939 * exp (507.88 / (T2 - 273.15 + 149.3)) * 1e-3) in *.
  assert (Hm1 : 0 < m1) by lra.
  unfold STANDARD_TEMPERATURE, WATER_VISCOSITY.
  assert (Hi : 0 < / m1 < / m2).
  { split; [now apply Rinv_0_lt_compat |].
    apply Rinv_lt_contravar; [now apply Rmult_lt_0_compat | exact Hm12]. }
  assert (Hr : 0 < T1 / 298.15 < T2 / 298.15) by (split; lra).
  assert (Hv : 0 < 8.9e-4 / m1 < 8.9e-4 / m2) by (unfold Rdiv; split; nra).
  split; [apply Rmult_lt_0_compat; [exact Hb | apply Rmult_lt_0_compat; lra] |].
  apply Rmult_lt_compat_l; [exact Hb |]. nra.
Qed.

Lemma get_diffusion_coefficient_increasing_witness :
  exists D1 D2,
    get_diffusion_coefficient "H+" (Some 298.15) = Ok D1 /\
    get_diffusion_coefficient "H+" (Some 350) = Ok D2 /\
    0 < D1 < D2.
Proof. apply (get_diffusion_coefficient_increasing "H+" 298.15 350); lra. Defined.

(** ** Butler-Volmer: symmetry and monotonicity *)

Lemma butler_volmer_spec_reflect T roughness eta i0 alpha n :
  butler_volmer_spec T roughness (- eta) i0 alpha n
  = - butler_volmer_spec T roughness eta i0 (1 - alpha) n.
Proof.
  unfold butler_volmer_spec.
  replace (alpha * IZR n * FARADAY_CONSTANT * - eta / (GAS_CONSTANT * T))
    with (- (1 - (1 - alpha)) * IZR n * FARADAY_CONSTANT * eta / (GAS_CONSTANT * T))
    by (unfold Rdiv; ring).
  replace (- (1 - alpha) * IZR n * FARADAY_CONSTANT * - eta / (GAS_CONSTANT * T))
    with ((1 - alpha) * IZR n * FARADAY_CONSTANT * eta / (GAS_CONSTANT * T))
    by (unfold Rdiv; ring).
  ring.
Qed.

(** X4.  Reversing the overpotential and exchanging the
    charge-transfer coefficient [alpha] for [1 - alpha] reverses the
    current density that [butler_volmer] returns; at [alpha = 0.5], the
    default of both electrodes, the current density is an odd function of
    the overpotential. *)
Theorem butler_volmer_reflection self overpotential i0 alpha n T roughness :
  params self !! "temperature" = Some T ->
  params self !! "roughness" = Some roughness ->
  T <> 0 ->
  (exists i,
     butler_volmer overpotential i0 (1 - alpha) n self = (Ok i, self) /\
     butler_volmer (- overpotential) i0 alpha n self = (Ok (- i), self)) /\
  (exists i,
     butler_volmer overpotential i0 0.5 n self = (Ok i, self) /\
     butler_volmer (- overpotential) i0 0.5 n self = (Ok (- i), self)).
Proof.
  intros HT Hr HT0. split; eexists; (split; [apply (butler_volmer_run _ _ _ _ _ _ _ HT Hr HT0) |]).
  - rewrite (butler_volmer_run _ _ _ _ _ _ _ HT Hr HT0).
    now rewrite butler_volmer_spec_reflect.
  - rewrite (butler_volmer_run _ _ _ _ _ _ _ HT Hr HT0).
    rewrite butler_volmer_spec_reflect.
    now replace (1 - 0.5) with 0.5 by lra.
Qed.

Lemma butler_volmer_reflection_witness :
  (exists i,
     butler_volmer 0.3 1e-3 (1 - 0.4) 4 (init None) = (Ok i, init None) /\
     butler_volmer (- (0.3)) 1e-3 0.4 4 (init None) = (Ok (- i), init None)) /\
  (exists i,
     butler_volmer 0.3 1e-3 0.5 4 (init None) = (Ok i, init None) /\
     butler_volmer (- (0.3)) 1e-3 0.5 4 (init None) = (Ok (- i), init None)).
Proof.
  apply (butler_volmer_reflection (init None) 0.3 1e-3 0.4 4 298.15 100);
    [reflexivity | reflexivity | lra].
Defined.

Lemma exp_le_compat x y : x <= y -> exp x <= exp y.
Proof.
  intros [H | ->]; [left; now apply exp_increasing | apply Rle_refl].
Qed.

Lemma butler_volmer_spec_increasing T roughness i0 alpha n eta1 eta2 :
  0 < T -> 0 < roughness -> 0 < i0 -> 0 <= alpha <= 1 -> (1 <= n)%Z ->
  eta1 < eta2 ->
  butler_volmer_spec T roughness eta1 i0 alpha n
  < butler_volmer_spec T roughness eta2 i0 alpha n.
Proof.
  intros HT Hr Hi0 [Ha0 Ha1] Hn Heta. unfold butler_volmer_spec.
  assert (HK : 0 < IZR n * FARADAY_CONSTANT / (GAS_CONSTANT * T)).
  { apply Rdiv_lt_0_compat.
    - apply Rmult_lt_0_compat; [apply IZR_lt; lia | unfold FARADAY_CONSTANT; lra].
    - apply Rmult_lt_0_compat; [unfold GAS_CONSTANT; lra | exact HT]. }
  set (K := IZR n * FARADAY_CONSTANT / (GAS_CONSTANT * T)) in *.
  replace (alpha * IZR n * FARADAY_CONSTANT * eta1 / (GAS_CONSTANT * T))
    with (alpha * K * eta1) by (unfold K, Rdiv; ring).
  replace (alpha * IZR n * FARADAY_CONSTANT * eta2 / (GAS_CONSTANT * T))
    with (alpha * K * eta2) by (unfold K, Rdiv; ring).
  replace (- (1 - alpha) * IZR n * FARADAY_CONSTANT * eta1 / (GAS_CONSTANT * T))
    with (- (1 - alpha) * K * eta1) by (unfold K, Rdiv; ring).
  replace (- (1 - alpha) * IZR n * FARADAY_CONSTANT * eta2 / (GAS_CONSTANT * T))
    with (- (1 - alpha) * K * eta2) by (unfold K, Rdiv; ring).
  assert (Hprod : 0 < i0 * roughness) by now apply Rmult_lt_0_compat.
  apply Rmult_lt_compat_l; [exact Hprod |].
  assert (Hstep : 0 < K * (eta2 - eta1)) by (apply Rmult_lt_0_compat; lra).
  assert (Han : exp (alpha * K * eta1) <= exp (alpha * K * eta2))
    by (apply exp_le_compat; nra).
  assert (Hca : exp (- (1 - alpha) * K * eta2) <= exp (- (1 - alpha) * K * eta1))
    by (apply exp_le_compat; nra).
  destruct (Rle_lt_or_eq_dec 0 alpha Ha0) as [Hpos | <-].
  - assert (exp (alpha * K * eta1) < exp (alpha * K * eta2))
      by (apply exp_increasing; nra).
    lra.
  - assert (exp (- (1 - 0) * K * eta2) < exp (- (1 - 0) * K * eta1))
      by (apply exp_increasing; nra).
    lra.
Qed.

(** X5.  For a positive temperature, roughness and exchange current
    density, a charge-transfer coefficient in [0, 1] and at least one
    electron, the current density that [butler_volmer] returns rises
    strictly with the overpotential; with the zero at overpotential 0, it
    has the sign of the overpotential. *)
Theorem butler_volmer_increasing self i0 alpha n T roughness eta1 eta2 :
  params self !! "temperature" = Some T ->
  params self !! "roughness" = Some roughness ->
  0 < T -> 0 < roughness -> 0 < i0 -> 0 <= alpha <= 1 -> (1 <= n)%Z ->
  eta1 < eta2 ->
  exists i1 i2,
    butler_volmer eta1 i0 alpha n self = (Ok i1, self) /\
    butler_volmer eta2 i0 alpha n self = (Ok i2, self) /\
    i1 < i2 /\
    (0 <= eta1 -> 0 <= i1 /\ 0 < i2) /\
    (eta2 <= 0 -> i1 < 0 /\ i2 <= 0).
Proof.
  intros HT Hr HT0 Hr0 Hi0 Ha Hn Heta.
  assert (HTne : T <> 0) by lra.
  do 2 eexists.
  split; [apply (butler_volmer_run _ _ _ _ _ _ _ HT Hr HTne) |].
  split; [apply (butler_volmer_run _ _ _ _ _ _ _ HT Hr HTne) |].
  pose proof (butler_volmer_spec_increasing T roughness i0 alpha n eta1 eta2
                HT0 Hr0 Hi0 Ha Hn Heta) as H12.
  pose proof (butler_volmer_spec_zero T roughness i0 alpha n) as H0.
  split; [exact H12 |]. split.
  - intros [Hpos | <-].
    + pose proof (butler_volmer_spec_increasing T roughness i0 alpha n 0 eta1
                    HT0 Hr0 Hi0 Ha Hn Hpos). lra.
    + lra.
  - intros [Hneg | ->].
    + pose proof (butler_volmer_spec_increasing T roughness i0 alpha n eta2 0
                    HT0 Hr0 Hi0 Ha Hn Hneg). lra.
    + lra.
Qed.

Lemma butler_volmer_increasing_witness :
  exists i1 i2,
    butler_volmer 0.1 1e-3 0.5 4 (init None) = (Ok i1, init None) /\
    butler_volmer 0.3 1e-3 0.5 4 (init None) = (Ok i2, init None) /\
    i1 < i2 /\
    (0 <= 0.1 -> 0 <= i1 /\ 0 < i2) /\
    (0.3 <= 0 -> i1 < 0 /\ i2 <= 0).
Proof.
  apply (butler_volmer_increasing (init None) 1e-3 0.5 4 298.15 100 0.1 0.3);
    [reflexivity | reflexivity | lra | lra | lra | lra | lia | lra].
Defined.

(** ** Overpotentials *)

(** X6.  Without an "H+" entry in the concentration state,
    [calculate_overpotentials] returns the applied voltage minus 1.229 V
    for the anode and 0 for the cathode, and reads no parameter: it
    succeeds on every instance, one whose dictionary has no temperature
    included. *)
Theorem calculate_overpotentials_without_hydrogen_ion self v concentrations :
  concentrations !! "H+" = None ->
  calculate_overpotentials v concentrations self =
  (Ok (v - STANDARD_OXYGEN_POTENTIAL, 0), self).
Proof.
  intros H. unfold calculate_overpotentials. rewrite H, run_bind, run_ret, run_ret.
  do 3 f_equal. unfold STANDARD_HYDROGEN_POTENTIAL. lra.
Qed.

Lemma calculate_overpotentials_without_hydrogen_ion_witness :
  calculate_overpotentials 1.5 {["OH-" := 1e-4]} (init (Some geometry_only)) =
  (Ok (1.5 - STANDARD_OXYGEN_POTENTIAL, 0), init (Some geometry_only)).
Proof.
  apply (calculate_overpotentials_without_hydrogen_ion
           (init (Some geometry_only)) 1.5 {["OH-" := 1e-4]}).
  reflexivity.
Defined.

Lemma calculate_overpotentials_run self v concentrations c_H T :
  concentrations !! "H+" = Some c_H ->
  params self !! "temperature" = Some T ->
  0 < c_H ->
  calculate_overpotentials v concentrations self =
  (Ok (v - STANDARD_OXYGEN_POTENTIAL,
       STANDARD_HYDROGEN_POTENTIAL
       - GAS_CONSTANT * T / FARADAY_CONSTANT * ln (c_H / 1000) - 0), self).
Proof.
  intros Hc HT Hpos. unfold calculate_overpotentials. rewrite Hc.
  rewrite run_bind, run_bind, (param_Some _ _ _ HT).
  rewrite run_bind, run_lift, (py_div_nonzero _ _ FARADAY_CONSTANT_neq_0).
  rewrite run_bind, run_lift, py_div_nonzero by lra.
  rewrite run_bind, run_lift, np_log_pos by lra.
  reflexivity.
Qed.

(** X7.  With a positive hydrogen-ion concentration [c_H] (mol/m3)
    and a positive temperature, the cathode overpotential that
    [calculate_overpotentials] returns is -(R T / F) ln(c_H / 1000): it is
    positive exactly when the concentration is below the 1000 mol/m3
    reference, and 0 at the reference. *)
Theorem calculate_overpotentials_nernst_shift self v concentrations c_H T :
  concentrations !! "H+" = Some c_H ->
  params self !! "temperature" = Some T ->
  0 < c_H ->
  0 < T ->
  exists eta_c,
    calculate_overpotentials v concentrations self =
      (Ok (v - STANDARD_OXYGEN_POTENTIAL, eta_c), self) /\
    eta_c = - (GAS_CONSTANT * T / FARADAY_CONSTANT) * ln (c_H / 1000) /\
    (0 < eta_c <-> c_H < 1000) /\
    (eta_c = 0 <-> c_H = 1000).
Proof.
  intros Hc HT Hpos HT0.
  eexists. split; [apply (calculate_overpotentials_run _ _ _ _ _ Hc HT Hpos) |].
  assert (HK : 0 < GAS_CONSTANT * T / FARADAY_CONSTANT).
  { apply Rdiv_lt_0_compat; [| unfold FARADAY_CONSTANT; lra].
    apply Rmult_lt_0_compat; [unfold GAS_CONSTANT; lra | exact HT0]. }
  set (K := GAS_CONSTANT * T / FARADAY_CONSTANT) in *.
  assert (Hq : 0 < c_H / 1000) by lra.
  assert (Hlt : c_H < 1000 -> ln (c_H / 1000) < 0).
  { intros H. rewrite <- ln_1. apply ln_increasing; lra. }
  assert (Hgt : 1000 < c_H -> 0 < ln (c_H / 1000)).
  { intros H. rewrite <- ln_1. apply ln_increasing; lra. }
  assert (Heq : c_H = 1000 -> ln (c_H / 1000) = 0).
  { intros ->. replace (1000 / 1000) with 1 by lra. apply ln_1. }
  unfold STANDARD_HYDROGEN_POTENTIAL.
  split; [lra |].
  destruct (Rtotal_order c_H 1000) as [H | [H | H]].
  - specialize (Hlt H). split; split; intros; nra.
  - specialize (Heq H). rewrite Heq. split; split; intros; lra.
  - specialize (Hgt H). split; split; intros; nra.
Qed.

Lemma calculate_overpotentials_nernst_shift_witness :
  exists eta_c,
    calculate_overpotentials 1.5 {["H+" := 1e-7 * 1000]} (init None) =
      (Ok (1.5 - STANDARD_OXYGEN_POTENTIAL, eta_c), init None) /\
    eta_c = - (GAS_CONSTANT * 298.15 / FARADAY_CONSTANT) * ln (1e-7 * 1000 / 1000) /\
    (0 < eta_c <-> 1e-7 * 1000 < 1000) /\
    (eta_c = 0 <-> 1e-7 * 1000 = 1000).
Proof.
  apply (calculate_overpotentials_nernst_shift (init None) 1.5
           {["H+" := 1e-7 * 1000]} (1e-7 * 1000) 298.15);
    [reflexivity | reflexivity | lra | lra].
Defined.

(** ** The sweep on any instance *)

Lemma read_only_foldM {S A B} (body : B -> A -> M S B) (l : list A) :
  (forall acc x, read_only (body acc x)) -> forall acc, read_only (foldM body acc l).
Proof.
  intros Hbody. induction l as [| x l IH]; intros acc; simpl.
  - apply read_only_ret.
  - apply read_only_bind; [apply Hbody | intros acc'; apply IH].
Qed.

Lemma read_only_sweep_step currents iv : read_only (sweep_step currents iv).
Proof.
  destruct iv as [i v]. unfold sweep_step.
  apply read_only_bind; [apply read_only_calculate_overpotentials |].
  intros [eta_a eta_c].
  apply read_only_bind; [apply read_only_param | intros].
  apply read_only_bind; [apply read_only_param | intros].
  apply read_only_bind; [apply read_only_butler_volmer | intros].
  apply read_only_bind; [apply read_only_param | intros].
  apply read_only_bind; [apply read_only_param | intros].
  apply read_only_bind; [apply read_only_butler_volmer | intros].
  apply read_only_bind; [apply read_only_param | intros].
  apply read_only_bind; [apply read_only_param | intros].
  apply read_only_ret.
Qed.

Lemma read_only_sweep_loop currents l : read_only (foldM sweep_step currents l).
Proof. apply read_only_foldM. intros acc x. apply read_only_sweep_step. Qed.

(** The stages of a sweep: what each leaves when the method goes on. *)
Lemma simulate_iv_curve_stages self voltage_range num_points :
  let window := default (1.0, 2.5) voltage_range in
  simulate_iv_curve voltage_range num_points self =
  match linspace window.1 window.2 num_points with
  | Err e => (Err e, self)
  | Ok voltages =>
      match (foldM sweep_step (zeros_like voltages) (enumerate voltages) self).1 with
      | Err e => (Err e, self)
      | Ok currents =>
          match params self !! "length", params self !! "width" with
          | Some p_length, Some p_width =>
              let res :=
                {| voltage := voltages;
                   current := currents;
                   current_density :=
                     map (fun c => np_div c (p_length * p_width)) currents;
                   power := zip_with Rmult voltages currents;
                   efficiency := map (np_div THEORETICAL_CELL_VOLTAGE) voltages |} in
              (Ok res, {| params := params self; results := Some res |})
          | None, _ => (Err (KeyError "length"), self)
          | Some _, None => (Err (KeyError "width"), self)
          end
      end
  end.
Proof.
  intros window. unfold simulate_iv_curve. fold window.
  rewrite run_bind, run_lift.
  destruct (linspace window.1 window.2 num_points) as [voltages | e]; [| reflexivity].
  rewrite run_bind.
  pose proof (read_only_sweep_loop (zeros_like voltages) (enumerate voltages) self) as Hro.
  destruct (foldM sweep_step (zeros_like voltages) (enumerate voltages) self)
    as [[currents | e] s1]; simpl in Hro; subst s1; [| reflexivity].
  rewrite run_bind. unfold param at 1.
  destruct (params self !! "length") as [p_length |]; [| reflexivity].
  rewrite run_bind. unfold param at 1.
  destruct (params self !! "width") as [p_width |]; reflexivity.
Qed.

(** X8.  [simulate_iv_curve] either returns a result, and then the
    instance holds exactly that result and the parameters it had, or it
    raises, and then the instance is as it was: the parameters and the
    results of an earlier sweep are still there. *)
Theorem simulate_iv_curve_stores_or_leaves self voltage_range num_points :
  match simulate_iv_curve voltage_range num_points self with
  | (Ok res, self') => params self' = params self /\ results self' = Some res
  | (Err e, self') => self' = self
  end.
Proof.
  rewrite simulate_iv_curve_stages. cbv zeta.
  destruct (linspace _ _ num_points) as [voltages | e]; [| reflexivity].
  destruct (foldM sweep_step _ _ self).1 as [currents | e]; [| reflexivity].
  destruct (params self !! "length"); [| reflexivity].
  destruct (params self !! "width"); [| reflexivity].
  split; reflexivity.
Qed.

Lemma sweep_step_length currents iv self currents' :
  (sweep_step currents iv self).1 = Ok currents' ->
  length currents' = length currents.
Proof.
  destruct iv as [i v]. unfold sweep_step. intros H.
  run_stage H. destruct a as [eta_a eta_c].
  do 8 run_stage H.
  rewrite run_ret in H. simpl in H. injection H as <-.
  apply length_insert.
Qed.

Lemma sweep_loop_length l : forall currents self currents',
  (foldM sweep_step currents l self).1 = Ok currents' ->
  length currents' = length currents.
Proof.
  induction l as [| iv l IH]; intros currents self currents' H.
  - simpl in H. injection H as <-. reflexivity.
  - rewrite run_foldM_cons in H.
    destruct (sweep_step currents iv self) as [[c1 | e] s1] eqn:E; [| discriminate H].
    rewrite (IH _ _ _ H). apply (sweep_step_length currents iv self). now rewrite E.
Qed.

Lemma linspace_Ok_inv start stop num l :
  linspace start stop num = Ok l ->
  (0 <= num)%Z /\
  length l = Z.to_nat num /\
  forall i, (i < Z.to_nat num)%nat ->
    l !! i = Some (linspace_sample start stop (Z.to_nat num) i).
Proof.
  intros H.
  assert (Hnum : (0 <= num)%Z).
  { destruct (Z.lt_ge_cases num 0) as [Hneg | Hge]; [| exact Hge].
    destruct (linspace_negative start stop num Hneg) as [msg Hmsg].
    rewrite Hmsg in H. discriminate H. }
  split; [exact Hnum |].
  destruct (linspace_run start stop num Hnum) as (l' & Hl' & Hlen & Hs).
  rewrite Hl' in H. injection H as <-. split; assumption.
Qed.

(** What a sweep that returns has computed. *)
Lemma simulate_iv_curve_Ok_inv self voltage_range num_points res :
  (simulate_iv_curve voltage_range num_points self).1 = Ok res ->
  let window := default (1.0, 2.5) voltage_range in
  exists p_length p_width,
    params self !! "length" = Some p_length /\
    params self !! "width" = Some p_width /\
    linspace window.1 window.2 num_points = Ok (voltage res) /\
    (foldM sweep_step (zeros_like (voltage res)) (enumerate (voltage res)) self).1
      = Ok (current res) /\
    current_density res = map (fun c => np_div c (p_length * p_width)) (current res) /\
    power res = zip_with Rmult (voltage res) (current res) /\
    efficiency res = map (np_div THEORETICAL_CELL_VOLTAGE) (voltage res).
Proof.
  intros H window. rewrite simulate_iv_curve_stages in H. fold window in H. cbv zeta in H.
  destruct (linspace window.1 window.2 num_points) as [voltages | e]; [| discriminate H].
  destruct (foldM sweep_step _ _ self).1 as [currents | e] eqn:E; [| discriminate H].
  destruct (params self !! "length") as [p_length |]; [| discriminate H].
  destruct (params self !! "width") as [p_width |]; [| discriminate H].
  simpl in H. injection H as <-. simpl.
  exists p_length, p_width. repeat split; try reflexivity. exact E.
Qed.

(** X9.  Whenever [simulate_iv_curve] returns, the five arrays of
    its result have one entry for each of the [num_points] samples, the
    power is voltage times current entry by entry, the current density is
    the current over the electrode area, and the efficiency is 1.229 V
    over the voltage. *)
Theorem simulate_iv_curve_arrays_aligned self voltage_range num_points res :
  (simulate_iv_curve voltage_range num_points self).1 = Ok res ->
  let N := Z.to_nat num_points in
  (0 <= num_points)%Z /\
  length (voltage res) = N /\
  length (current res) = N /\
  length (current_density res) = N /\
  length (power res) = N /\
  length (efficiency res) = N /\
  forall i v c,
    voltage res !! i = Some v ->
    current res !! i = Some c ->
    power res !! i = Some (v * c) /\
    efficiency res !! i = Some (np_div THEORETICAL_CELL_VOLTAGE v) /\
    exists p_length p_width,
      params self !! "length" = Some p_length /\
      params self !! "width" = Some p_width /\
      current_density res !! i = Some (np_div c (p_length * p_width)).
Proof.
  intros H N.
  destruct (simulate_iv_curve_Ok_inv _ _ _ _ H)
    as (p_length & p_width & Hl & Hw & Hlin & Hloop & Hcd & Hpow & Heff).
  destruct (linspace_Ok_inv _ _ _ _ Hlin) as (Hnum & HlenV & _).
  assert (HlenC : length (current res) = N).
  { rewrite (sweep_loop_length _ _ _ _ Hloop). unfold zeros_like.
    now rewrite length_map. }
  split; [exact Hnum |]. split; [exact HlenV |]. split; [exact HlenC |].
  split; [now rewrite Hcd, length_map |].
  split; [rewrite Hpow, length_zip_with; fold N in HlenV; lia |].
  split; [now rewrite Heff, length_map |].
  intros i v c Hv Hc. split; [| split].
  - rewrite Hpow, lookup_zip_with, Hv. simpl. now rewrite Hc.
  - now rewrite Heff, list_lookup_fmap, Hv.
  - exists p_length, p_width. split; [exact Hl |]. split; [exact Hw |].
    now rewrite Hcd, list_lookup_fmap, Hc.
Qed.

Lemma default_sweep_returns :
  exists res, (simulate_iv_curve None 50 (init None)).1 = Ok res.
Proof.
  destruct default_parameters_lookup as (HT & Hr & Hai & Haa & Hci & Hac & Hl & Hw).
  destruct (simulate_iv_curve_run (init None) _ _ _ _ _ _ _ _
              HT Hr Hai Haa Hci Hac Hl Hw ltac:(lra) None 50 ltac:(lia))
    as (voltages & Hrun & _).
  cbv zeta in Hrun. eexists. now rewrite Hrun.
Qed.

Lemma simulate_iv_curve_arrays_aligned_witness :
  exists res,
    (simulate_iv_curve None 50 (init None)).1 = Ok res /\
    ((0 <= 50)%Z /\
     length (voltage res) = 50%nat /\
     length (current res) = 50%nat /\
     length (current_density res) = 50%nat /\
     length (power res) = 50%nat /\
     length (efficiency res) = 50%nat /\
     forall i v c,
       voltage res !! i = Some v ->
       current res !! i = Some c ->
       power res !! i = Some (v * c) /\
       efficiency res !! i = Some (np_div THEORETICAL_CELL_VOLTAGE v) /\
       exists p_length p_width,
         params (init None) !! "length" = Some p_length /\
         params (init None) !! "width" = Some p_width /\
         current_density res !! i = Some (np_div c (p_length * p_width))).
Proof.
  destruct default_sweep_returns as [res H]. exists res.
  split; [exact H |].
  exact (simulate_iv_curve_arrays_aligned (init None) None 50 res H).
Defined.

Lemma simulate_iv_curve_Ok_state self voltage_range num_points res self' :
  simulate_iv_curve voltage_range num_points self = (Ok res, self') ->
  self' = {| params := params self; results := Some res |}.
Proof.
  rewrite simulate_iv_curve_stages. cbv zeta.
  destruct (linspace _ _ num_points) as [voltages | e]; [| discriminate].
  destruct (foldM sweep_step _ _ self).1 as [currents | e]; [| discriminate].
  destruct (params self !! "length"); [| discriminate].
  destruct (params self !! "width"); [| discriminate].
  now intros [= <- <-].
Qed.

(** X10.  On the instance a sweep has returned on, [plot_results] does
    not raise: it plots the sweep's own arrays, the hydrogen panel showing
    current / (2 F) in mmol/s against the current density, and leaves the
    instance alone. *)
Theorem plot_results_after_simulation self voltage_range num_points res self' :
  simulate_iv_curve voltage_range num_points self = (Ok res, self') ->
  plot_results self' =
  (Ok {| iv_panel := (voltage res, current_density res);
         power_panel := (voltage res, power res);
         efficiency_panel := (voltage res, efficiency res);
         h2_panel := (current_density res,
                      map (fun c => c / (2 * FARADAY_CONSTANT) * 1000) (current res)) |},
   self').
Proof.
  intros H. rewrite (simulate_iv_curve_Ok_state _ _ _ _ _ H).
  unfold plot_results. rewrite run_bind. cbn [get results].
  rewrite run_ret. do 3 f_equal. now rewrite map_map.
Qed.

Lemma plot_results_after_simulation_witness :
  exists res self',
    simulate_iv_curve None 50 (init None) = (Ok res, self') /\
    plot_results self' =
    (Ok {| iv_panel := (voltage res, current_density res);
           power_panel := (voltage res, power res);
           efficiency_panel := (voltage res, efficiency res);
           h2_panel := (current_density res,
                        map (fun c => c / (2 * FARADAY_CONSTANT) * 1000) (current res)) |},
     self').
Proof.
  destruct default_sweep_returns as [res H].
  destruct (simulate_iv_curve None 50 (init None)) as [r self'] eqn:E.
  simpl in H. subst r. exists res, self'. split; [reflexivity |].
  exact (plot_results_after_simulation (init None) None 50 res self' E).
Defined.

(** ** The sampled voltages *)

Lemma linspace_sample_first v_min v_max N : linspace_sample v_min v_max N 0 = v_min.
Proof.
  unfold linspace_sample. destruct (decide (N <= 1)%nat); [reflexivity |].
  simpl. ring.
Qed.

Lemma linspace_sample_last v_min v_max N :
  (2 <= N)%nat -> linspace_sample v_min v_max N (N - 1) = v_max.
Proof.
  intros HN. unfold linspace_sample. destruct (decide (N <= 1)%nat); [lia |].
  assert (INR (N - 1) <> 0) by (apply not_0_INR; lia).
  field. assumption.
Qed.

Lemma linspace_sample_monotone v_min v_max N i j :
  v_min <= v_max -> (i <= j)%nat ->
  linspace_sample v_min v_max N i <= linspace_sample v_min v_max N j.
Proof.
  intros Hle Hij. unfold linspace_sample.
  destruct (decide (N <= 1)%nat); [apply Rle_refl |].
  assert (0 < INR (N - 1)) by (apply lt_0_INR; lia).
  assert (0 <= (v_max - v_min) / INR (N - 1)).
  { apply Rmult_le_pos; [lra |]. left. now apply Rinv_0_lt_compat. }
  pose proof (le_INR i j Hij). nra.
Qed.

(** X11.  The voltages of a sweep that returns start at the lower end
    of the range and, with two points or more, end at its upper end; when
    the lower end is not above the upper one they never decrease along the
    sweep. *)
Theorem simulate_iv_curve_voltages_monotone self voltage_range num_points res :
  (simulate_iv_curve voltage_range num_points self).1 = Ok res ->
  let v_min := (default (1.0, 2.5) voltage_range).1 in
  let v_max := (default (1.0, 2.5) voltage_range).2 in
  let N := Z.to_nat num_points in
  ((1 <= N)%nat -> voltage res !! 0%nat = Some v_min) /\
  ((2 <= N)%nat -> voltage res !! (N - 1)%nat = Some v_max) /\
  (v_min <= v_max ->
   forall i j vi vj,
     (i <= j)%nat -> voltage res !! i = Some vi -> voltage res !! j = Some vj ->
     vi <= vj).
Proof.
  intros H v_min v_max N.
  destruct (simulate_iv_curve_Ok_inv _ _ _ _ H)
    as (p_length & p_width & _ & _ & Hlin & _).
  destruct (linspace_Ok_inv _ _ _ _ Hlin) as (Hnum & Hlen & Hs).
  fold v_min v_max N in Hs, Hlen.
  split; [| split].
  - intros HN. rewrite Hs by lia. f_equal. apply linspace_sample_first.
  - intros HN. rewrite Hs by lia. f_equal. now apply linspace_sample_last.
  - intros Hle i j vi vj Hij Hi Hj.
    assert (Hjlt : (j < N)%nat).
    { rewrite <- Hlen. eapply lookup_lt_Some. exact Hj. }
    rewrite Hs in Hi by lia. rewrite Hs in Hj by lia.
    injection Hi as <-. injection Hj as <-.
    now apply linspace_sample_monotone.
Qed.

Lemma simulate_iv_curve_voltages_monotone_witness :
  exists res,
    (simulate_iv_curve None 50 (init None)).1 = Ok res /\
    (((1 <= 50)%nat -> voltage res !! 0%nat = Some 1.0) /\
     ((2 <= 50)%nat -> voltage res !! 49%nat = Some 2.5) /\
     (1.0 <= 2.5 ->
      forall i j vi vj,
        (i <= j)%nat -> voltage res !! i = Some vi -> voltage res !! j = Some vj ->
        vi <= vj)).
Proof.
  destruct default_sweep_returns as [res H]. exists res.
  split; [exact H |].
  exact (simulate_iv_curve_voltages_monotone (init None) None 50 res H).
Defined.

(** ** Edge cases of the sweep *)

(** X12.  A sweep of zero points runs no step of the loop: it
    returns five empty arrays and stores them as soon as the dictionary
    has a length and a width, whatever else it lacks. *)
Theorem simulate_iv_curve_no_points self voltage_range p_length p_width :
  params self !! "length" = Some p_length ->
  params self !! "width" = Some p_width ->
  let res := {| voltage := []; current := []; current_density := [];
                power := []; efficiency := [] |} in
  simulate_iv_curve voltage_range 0 self =
  (Ok res, {| params := params self; results := Some res |}).
Proof.
  intros Hl Hw res. rewrite simulate_iv_curve_stages. cbv zeta.
  unfold linspace. simpl. rewrite Hl, Hw. reflexivity.
Qed.

Lemma simulate_iv_curve_no_points_witness :
  let res := {| voltage := []; current := []; current_density := [];
                power := []; efficiency := [] |} in
  simulate_iv_curve (Some (1.0, 2.0)) 0 (init (Some geometry_only)) =
  (Ok res, {| params := params (init (Some geometry_only)); results := Some res |}).
Proof.
  apply (simulate_iv_curve_no_points (init (Some geometry_only)) (Some (1.0, 2.0))
           0.05 0.02); reflexivity.
Defined.

Lemma init_nonempty d : d <> ∅ -> init (Some d) = {| params := d; results := None |}.
Proof. intros H. unfold init. destruct (decide (d = ∅)); [contradiction | reflexivity]. Qed.

Lemma geometry_only_nonempty : geometry_only <> ∅.
Proof.
  intros H. apply (f_equal (fun m => m !! "length")) in H.
  unfold geometry_only in H. rewrite lookup_insert_eq, lookup_empty in H.
  discriminate H.
Qed.

(** X13.  A non-empty dictionary passed to the constructor is taken
    as it is, with no default for a key it lacks: on an instance built
    from a dictionary without "temperature", a sweep of one point or more
    raises [KeyError] for that key and stores no result.  Only the empty
    dictionary, like no dictionary, gives the default parameters. *)
Theorem simulate_iv_curve_partial_dictionary d voltage_range num_points :
  d <> ∅ ->
  d !! "temperature" = None ->
  (1 <= num_points)%Z ->
  params (init (Some d)) = d /\
  simulate_iv_curve voltage_range num_points (init (Some d)) =
    (Err (KeyError "temperature"), init (Some d)) /\
  results (init (Some d)) = None /\
  init (Some ∅) = init None.
Proof.
  intros Hd HT Hnum. rewrite (init_nonempty d Hd).
  split; [reflexivity |]. split; [| split; reflexivity].
  set (self := {| params := d; results := None |}).
  rewrite simulate_iv_curve_stages. cbv zeta.
  destruct (linspace_run (default (1.0, 2.5) voltage_range).1
              (default (1.0, 2.5) voltage_range).2 num_points ltac:(lia))
    as (voltages & Hlin & Hlen & _).
  rewrite Hlin.
  destruct voltages as [| v voltages]; [simpl in Hlen; lia |].
  change (enumerate (v :: voltages))
    with ((0%nat, v) :: zip (seq 1 (length voltages)) voltages).
  rewrite run_foldM_cons.
  assert (Hstep : sweep_step (zeros_like (v :: voltages)) (0%nat, v) self
                  = (Err (KeyError "temperature"), self)).
  { unfold sweep_step, calculate_overpotentials.
    rewrite lookup_singleton_eq.
    rewrite !run_bind, (param_None self "temperature" HT). reflexivity. }
  rewrite Hstep. reflexivity.
Qed.

Lemma simulate_iv_curve_partial_dictionary_witness :
  params (init (Some geometry_only)) = geometry_only /\
  simulate_iv_curve None 50 (init (Some geometry_only)) =
    (Err (KeyError "temperature"), init (Some geometry_only)) /\
  results (init (Some geometry_only)) = None /\
  init (Some ∅) = init None.
Proof.
  apply (simulate_iv_curve_partial_dictionary geometry_only None 50);
    [exact geometry_only_nonempty | reflexivity | lia].
Defined.

Lemma zero_width_parameters_lookup :
  zero_width_parameters !! "temperature" = Some 298.15 /\
  zero_width_parameters !! "roughness" = Some 100 /\
  zero_width_parameters !! "anode_i0" = Some 1e-3 /\
  zero_width_parameters !! "alpha_a" = Some 0.5 /\
  zero_width_parameters !! "cathode_i0" = Some 1e-2 /\
  zero_width_parameters !! "alpha_c" = Some 0.5 /\
  zero_width_parameters !! "length" = Some 0.05 /\
  zero_width_parameters !! "width" = Some 0.
Proof. repeat split; reflexivity. Qed.

(** X14.  With an electrode of zero area (a zero length or width)
    the sweep still returns: every current is 0, and every entry of the
    current-density array is 0 / 0, not a number. *)
Theorem simulate_iv_curve_zero_area
    self T roughness anode_i0 alpha_a cathode_i0 alpha_c p_length p_width
    voltage_range num_points :
  params self !! "temperature" = Some T ->
  params self !! "roughness" = Some roughness ->
  params self !! "anode_i0" = Some anode_i0 ->
  params self !! "alpha_a" = Some alpha_a ->
  params self !! "cathode_i0" = Some cathode_i0 ->
  params self !! "alpha_c" = Some alpha_c ->
  params self !! "length" = Some p_length ->
  params self !! "width" = Some p_width ->
  T <> 0 ->
  p_length * p_width = 0 ->
  (0 <= num_points)%Z ->
  exists res,
    (simulate_iv_curve voltage_range num_points self).1 = Ok res /\
    forall i, (i < Z.to_nat num_points)%nat ->
      current res !! i = Some 0 /\ current_density res !! i = Some None.
Proof.
  intros HT Hr Hai Haa Hci Hac Hl Hw HT0 Harea Hnum.
  destruct (simulate_iv_curve_run self T roughness anode_i0 alpha_a cathode_i0
              alpha_c p_length p_width HT Hr Hai Haa Hci Hac Hl Hw HT0
              voltage_range num_points Hnum)
    as (voltages & Hrun & Hlen & Hsample).
  cbv zeta in Hrun. eexists. rewrite Hrun.
  split; [reflexivity |]. cbn [current current_density].
  intros i Hi. specialize (Hsample i Hi).
  rewrite !list_lookup_fmap, Hsample. simpl. rewrite Harea, Rmult_0_r.
  split; [reflexivity |]. now rewrite np_div_by_zero.
Qed.

Lemma simulate_iv_curve_zero_area_witness :
  exists res,
    (simulate_iv_curve None 50 (init (Some zero_width_parameters))).1 = Ok res /\
    forall i, (i < 50)%nat ->
      current res !! i = Some 0 /\ current_density res !! i = Some None.
Proof.
  apply (simulate_iv_curve_zero_area (init (Some zero_width_parameters))
           298.15 100 1e-3 0.5 1e-2 0.5 0.05 0 None 50);
    [reflexivity | reflexivity | reflexivity | reflexivity | reflexivity
    | reflexivity | reflexivity | reflexivity | lra | lra | lia].
Defined.

Lemma sweep_current_density_mirror T roughness anode_i0 cathode_i0 alpha_c v w :
  v - STANDARD_OXYGEN_POTENTIAL = - (w - STANDARD_OXYGEN_POTENTIAL) ->
  sweep_current_density T roughness anode_i0 0.5 cathode_i0 alpha_c v
  = sweep_current_density T roughness anode_i0 0.5 cathode_i0 alpha_c w.
Proof.
  intros H. unfold sweep_current_density, sweep_anode_current.
  rewrite H, butler_volmer_spec_reflect.
  replace (1 - 0.5) with 0.5 by lra. now rewrite Rabs_Ropp.
Qed.

(** X15.  The sweep takes the magnitude of the anode's current
    density, so with the anode's charge-transfer coefficient at its default
    0.5 the simulated current does not tell a voltage below 1.229 V from
    the voltage as far above it: samples whose voltages add up to
    2 x 1.229 V carry the same current. *)
Theorem simulate_iv_curve_mirror
    self T roughness anode_i0 cathode_i0 alpha_c p_length p_width
    voltage_range num_points :
  params self !! "temperature" = Some T ->
  params self !! "roughness" = Some roughness ->
  params self !! "anode_i0" = Some anode_i0 ->
  params self !! "alpha_a" = Some 0.5 ->
  params self !! "cathode_i0" = Some cathode_i0 ->
  params self !! "alpha_c" = Some alpha_c ->
  params self !! "length" = Some p_length ->
  params self !! "width" = Some p_width ->
  T <> 0 ->
  (0 <= num_points)%Z ->
  exists res,
    (simulate_iv_curve voltage_range num_points self).1 = Ok res /\
    forall i j vi vj,
      voltage res !! i = Some vi ->
      voltage res !! j = Some vj ->
      vi + vj = 2 * STANDARD_OXYGEN_POTENTIAL ->
      exists c, current res !! i = Some c /\ current res !! j = Some c.
Proof.
  intros HT Hr Hai Haa Hci Hac Hl Hw HT0 Hnum.
  destruct (simulate_iv_curve_run self T roughness anode_i0 0.5 cathode_i0
              alpha_c p_length p_width HT Hr Hai Haa Hci Hac Hl Hw HT0
              voltage_range num_points Hnum)
    as (voltages & Hrun & Hlen & Hsample).
  cbv zeta in Hrun. eexists. rewrite Hrun.
  split; [reflexivity |]. cbn [current voltage].
  intros i j vi vj Hi Hj Hsum.
  eexists. rewrite !list_lookup_fmap, Hi, Hj. simpl.
  split; [reflexivity |]. do 2 f_equal.
  apply sweep_current_density_mirror. lra.
Qed.

Lemma simulate_iv_curve_mirror_witness :
  exists res,
    (simulate_iv_curve (Some (1.0, 1.458)) 2 (init None)).1 = Ok res /\
    forall i j vi vj,
      voltage res !! i = Some vi ->
      voltage res !! j = Some vj ->
      vi + vj = 2 * STANDARD_OXYGEN_POTENTIAL ->
      exists c, current res !! i = Some c /\ current res !! j = Some c.
Proof.
  apply (simulate_iv_curve_mirror (init None) 298.15 100 1e-3 1e-2 0.5 0.05 0.02
           (Some (1.0, 1.458)) 2);
    [reflexivity | reflexivity | reflexivity | reflexivity | reflexivity
    | reflexivity | reflexivity | reflexivity | lra | lia].
Defined.

(** ** Current densities of the sweep: sign and size *)

Lemma exp_INR_le_pow3 n : exp (INR n) <= 3 ^ n.
Proof.
  induction n as [| n IH].
  - simpl. rewrite exp_0. lra.
  - rewrite S_INR, exp_plus. change (3 ^ S n) with (3 * 3 ^ n).
    pose proof exp_le_3 as H3. pose proof (exp_pos (INR n)) as Hn.
    pose proof (exp_pos 1) as H1. nra.
Qed.

Lemma exp_within_pow3 n x : Rabs x <= INR n -> Rabs (exp x) <= 3 ^ n.
Proof.
  intros Hx. rewrite Rabs_pos_eq by (left; apply exp_pos).
  apply Rle_trans with (exp (INR n)); [| apply exp_INR_le_pow3].
  apply exp_le_compat. pose proof (Rle_abs x). lra.
Qed.

Lemma F_RT_above_freezing T :
  273.15 <= T -> 0 < FARADAY_CONSTANT / (GAS_CONSTANT * T) <= 42.5.
Proof.
  intros HT. unfold FARADAY_CONSTANT, GAS_CONSTANT.
  assert (Hden : 0 < 8.3144598 * T) by lra.
  split; [apply Rdiv_lt_0_compat; lra |].
  apply Rmult_le_reg_r with (8.3144598 * T); [exact Hden |].
  replace (96485.3329 / (8.3144598 * T) * (8.3144598 * T)) with 96485.3329
    by (field; lra).
  lra.
Qed.

(** The size of an argument of [np.exp] in [butler_volmer]: a fraction
    [a] of [n * F_RT * eta]. *)
Lemma exponent_within a n k eta :
  0 <= a <= 1 -> 0 <= n -> 0 <= k <= 42.5 -> Rabs eta <= 0.5 ->
  Rabs (a * n * k * eta) <= n * 42.5 * 0.5.
Proof.
  intros Ha Hn Hk Heta.
  rewrite !Rabs_mult, (Rabs_pos_eq a), (Rabs_pos_eq n), (Rabs_pos_eq k) by lra.
  pose proof (Rabs_pos eta) as He.
  assert (H1 : a * n <= n) by nra.
  assert (H2 : a * n * k <= n * 42.5) by nra.
  assert (H3 : 0 <= a * n * k) by (repeat apply Rmult_le_pos; lra).
  nra.
Qed.

Lemma exp_difference_within b x y :
  0 < x <= b -> 0 < y <= b -> Rabs (x - y) <= b.
Proof. intros Hx Hy. apply Rabs_le. lra. Qed.

(** Within half a volt of equilibrium and above the freezing point, the
    two arguments of [np.exp] are at most [n * 21.25] in size, and the
    current density is at most [i0 * roughness * 3 ^ m] for [m] above
    that. *)
Lemma butler_volmer_spec_within T roughness eta i0 alpha n m :
  273.15 <= T -> 0 <= alpha <= 1 -> 0 < i0 -> 0 < roughness -> (0 <= n)%Z ->
  Rabs eta <= 0.5 ->
  IZR n * 42.5 * 0.5 <= INR m ->
  let F_RT := FARADAY_CONSTANT / (GAS_CONSTANT * T) in
  let anodic := alpha * IZR n * F_RT * eta in
  let cathodic := - (1 - alpha) * IZR n * F_RT * eta in
  Rabs anodic <= INR m /\
  Rabs cathodic <= INR m /\
  butler_volmer_spec T roughness eta i0 alpha n
  = i0 * roughness * (exp anodic - exp cathodic) /\
  Rabs (butler_volmer_spec T roughness eta i0 alpha n) <= i0 * roughness * 3 ^ m.
Proof.
  intros HT Halpha Hi0 Hr Hn Heta Hm F_RT anodic cathodic.
  pose proof (F_RT_above_freezing T HT) as HF. fold F_RT in HF.
  assert (Hn' : 0 <= IZR n) by now apply IZR_le.
  assert (Ha : Rabs anodic <= INR m).
  { eapply Rle_trans; [| exact Hm].
    apply exponent_within; [exact Halpha | exact Hn' | lra | exact Heta]. }
  assert (Hc : Rabs cathodic <= INR m).
  { eapply Rle_trans; [| exact Hm].
    unfold cathodic.
    replace (- (1 - alpha) * IZR n * F_RT * eta)
      with ((1 - alpha) * IZR n * F_RT * (- eta)) by ring.
    apply exponent_within; [lra | exact Hn' | lra | now rewrite Rabs_Ropp]. }
  assert (Hspec : butler_volmer_spec T roughness eta i0 alpha n
                  = i0 * roughness * (exp anodic - exp cathodic)).
  { unfold butler_volmer_spec, anodic, cathodic, F_RT.
    do 2 f_equal; f_equal; unfold Rdiv; ring. }
  repeat split; [exact Ha | exact Hc | exact Hspec |].
  rewrite Hspec, !Rabs_mult, (Rabs_pos_eq i0), (Rabs_pos_eq roughness) by lra.
  apply Rmult_le_compat_l; [apply Rmult_le_pos; lra |].
  pose proof (exp_within_pow3 m anodic Ha) as Hea.
  pose proof (exp_within_pow3 m cathodic Hc) as Hec.
  rewrite Rabs_pos_eq in Hea, Hec by (left; apply exp_pos).
  apply exp_difference_within; split; try apply exp_pos; assumption.
Qed.

Lemma finite_double_within b x :
  Rabs x <= b -> 1e100 * b <= DBL_MAX -> finite_double (1e100 * x).
Proof.
  intros Hx Hb. unfold finite_double.
  rewrite Rabs_mult, (Rabs_pos_eq 1e100) by lra. lra.
Qed.

(** C8.  On a parameter dictionary with the keys the sweep reads, a
    non-zero temperature and a non-zero electrode area, a sweep of any
    range (increasing or not) with [N] points succeeds, and each of the
    [N] entries [r] of its current-density sequence is the smaller of the
    magnitudes of the two current densities that [butler_volmer] returns
    at that sample, hence non-negative.

    It is finite in this sense: when the parameter set is physically
    valid and the two overpotentials that [calculate_overpotentials]
    returns at the sample are within 0.5 V in size, then the four
    arguments handed to [np.exp] are within 85 in size (a double's
    exponential overflows above 709), and the quantities formed at that
    sample, [R T], the factor [F / (R T)], the four exponentials, the
    products [i0 * roughness], the two current densities, their minimum
    [r], the electrode area and the current [r * area], are within the
    range of a finite double even when multiplied by 1e100; the area, by
    which the current is divided again, is above the smallest normal
    double; and [r] is at most [cathode_i0 * roughness * 3 ^ 43]. *)
Theorem simulate_iv_curve_current_density_nonneg_finite
    self T roughness anode_i0 alpha_a cathode_i0 alpha_c p_length p_width
    voltage_range num_points :
  params self !! "temperature" = Some T ->
  params self !! "roughness" = Some roughness ->
  params self !! "anode_i0" = Some anode_i0 ->
  params self !! "alpha_a" = Some alpha_a ->
  params self !! "cathode_i0" = Some cathode_i0 ->
  params self !! "alpha_c" = Some alpha_c ->
  params self !! "length" = Some p_length ->
  params self !! "width" = Some p_width ->
  T <> 0 ->
  p_length * p_width <> 0 ->
  (0 <= num_points)%Z ->
  let v_min := (default (1.0, 2.5) voltage_range).1 in
  let v_max := (default (1.0, 2.5) voltage_range).2 in
  let N := Z.to_nat num_points in
  exists res,
    (simulate_iv_curve voltage_range num_points self).1 = Ok res /\
    length (current_density res) = N /\
    forall i, (i < N)%nat ->
      exists eta_a eta_c i_a i_c r,
        voltage res !! i = Some (linspace_sample v_min v_max N i) /\
        calculate_overpotentials (linspace_sample v_min v_max N i)
          {["H+" := 1e-7 * 1000]} self = (Ok (eta_a, eta_c), self) /\
        butler_volmer eta_a anode_i0 alpha_a 4 self = (Ok i_a, self) /\
        butler_volmer eta_c cathode_i0 alpha_c 2 self = (Ok i_c, self) /\
        r = Rmin (Rabs i_a) (Rabs i_c) /\
        current res !! i = Some (r * (p_length * p_width)) /\
        current_density res !! i = Some (Some r) /\
        0 <= r /\
        (physically_valid T roughness anode_i0 alpha_a cathode_i0 alpha_c
           p_length p_width ->
         Rabs eta_a <= 0.5 ->
         Rabs eta_c <= 0.5 ->
         let F_RT := FARADAY_CONSTANT / (GAS_CONSTANT * T) in
         let exponents :=
           [alpha_a * 4 * F_RT * eta_a; - (1 - alpha_a) * 4 * F_RT * eta_a;
            alpha_c * 2 * F_RT * eta_c; - (1 - alpha_c) * 2 * F_RT * eta_c] in
         Forall (fun x => Rabs x <= 85) exponents /\
         Forall (fun x => finite_double (1e100 * x))
           ([GAS_CONSTANT * T; F_RT] ++ map exp exponents
            ++ [anode_i0 * roughness; i_a; cathode_i0 * roughness; i_c;
                r; p_length * p_width; r * (p_length * p_width)])%list /\
         DBL_MIN <= p_length * p_width /\
         r <= cathode_i0 * roughness * 3 ^ 43).
Proof.
  intros HT Hr Hai Haa Hci Hac Hl Hw HT0 Harea Hnum v_min v_max N.
  destruct (simulate_iv_curve_run self T roughness anode_i0 alpha_a cathode_i0
              alpha_c p_length p_width HT Hr Hai Haa Hci Hac Hl Hw HT0
              voltage_range num_points Hnum)
    as (voltages & Hrun & Hlen & Hsample).
  cbv zeta in Hrun. eexists. rewrite Hrun.
  split; [reflexivity |]. cbn [current_density voltage current]. split.
  { unfold N. rewrite <- Hlen. rewrite length_map. apply length_map. }
  intros i Hi. specialize (Hsample i Hi). fold v_min v_max N in Hsample.
  set (v := linspace_sample v_min v_max N i) in *.
  set (eta_a := v - STANDARD_OXYGEN_POTENTIAL).
  set (eta_c := sweep_cathode_overpotential T).
  set (i_a := butler_volmer_spec T roughness eta_a anode_i0 alpha_a 4).
  set (i_c := butler_volmer_spec T roughness eta_c cathode_i0 alpha_c 2).
  exists eta_a, eta_c, i_a, i_c, (Rmin (Rabs i_a) (Rabs i_c)).
  assert (Hmin : 0 <= Rmin (Rabs i_a) (Rabs i_c)) by (apply Rmin_glb; apply Rabs_pos).
  split; [exact Hsample |].
  split; [exact (sweep_overpotentials self T HT v) |].
  split; [exact (butler_volmer_run self eta_a anode_i0 alpha_a 4 T roughness HT Hr HT0) |].
  split; [exact (butler_volmer_run self eta_c cathode_i0 alpha_c 2 T roughness HT Hr HT0) |].
  split; [reflexivity |].
  split; [rewrite list_lookup_fmap, Hsample; reflexivity |].
  split.
  { rewrite !list_lookup_fmap, Hsample. simpl.
    rewrite np_div_nonzero by exact Harea.
    do 2 f_equal. unfold Rdiv. rewrite Rmult_assoc, Rinv_r by exact Harea.
    unfold sweep_current_density, sweep_anode_current, sweep_cathode_current.
    fold eta_a eta_c i_a i_c. ring. }
  split; [exact Hmin |].
  intros [Hfreeze Halpha_a Halpha_c Hrough Hanode Hcathode Hlength Hwidth] Ha Hc.
  set (F_RT := FARADAY_CONSTANT / (GAS_CONSTANT * T)).
  destruct (butler_volmer_spec_within T roughness eta_a anode_i0 alpha_a 4 85
              (proj1 Hfreeze) Halpha_a (proj1 Hanode) (proj1 Hrough) ltac:(lia) Ha
              ltac:(simpl; lra))
    as (Ha1 & Ha2 & _ & Hia).
  destruct (butler_volmer_spec_within T roughness eta_c cathode_i0 alpha_c 2 43
              (proj1 Hfreeze) Halpha_c (proj1 Hcathode) (proj1 Hrough) ltac:(lia) Hc
              ltac:(simpl; lra))
    as (Hc1 & Hc2 & _ & Hic).
  cbv zeta in Ha1, Ha2, Hc1, Hc2. fold F_RT in Ha1, Ha2, Hc1, Hc2.
  fold i_a in Hia. fold i_c in Hic.
  pose proof (F_RT_above_freezing T (proj1 Hfreeze)) as HF. fold F_RT in HF.
  assert (H85 : INR 85 = 85) by (simpl; lra).
  assert (H43 : INR 43 = 43) by (simpl; lra).
  assert (Hpow : 0 < 3 ^ 43 <= 3 ^ 85) by lra.
  assert (Hia' : Rabs i_a <= 1e60 * 3 ^ 85) by nra.
  assert (Hic' : Rabs i_c <= 1e60 * 3 ^ 43) by nra.
  assert (Hr' : Rmin (Rabs i_a) (Rabs i_c) <= Rabs i_c) by apply Rmin_r.
  assert (Harea' : 1e-60 <= p_length * p_width <= 1e60) by nra.
  rewrite H85 in Ha1, Ha2. rewrite H43 in Hc1, Hc2.
  split; [| split; [| split]].
  - repeat (apply List.Forall_cons; [lra |]). apply List.Forall_nil.
  - cbn [map app].
    apply List.Forall_cons.
    { apply (finite_double_within 1e4); [| unfold DBL_MAX; lra].
      unfold GAS_CONSTANT. rewrite Rabs_pos_eq; lra. }
    apply List.Forall_cons.
    { apply (finite_double_within 42.5); [rewrite Rabs_pos_eq; lra | unfold DBL_MAX; lra]. }
    do 4 (apply List.Forall_cons;
          [apply (finite_double_within (3 ^ 85)); [| unfold DBL_MAX; lra];
           apply exp_within_pow3; rewrite H85; lra |]).
    apply List.Forall_cons.
    { apply (finite_double_within 1e60); [| unfold DBL_MAX; lra].
      rewrite Rabs_pos_eq; nra. }
    apply List.Forall_cons.
    { apply (finite_double_within (1e60 * 3 ^ 85)); [exact Hia' | unfold DBL_MAX; lra]. }
    apply List.Forall_cons.
    { apply (finite_double_within 1e60); [| unfold DBL_MAX; lra].
      rewrite Rabs_pos_eq; nra. }
    apply List.Forall_cons.
    { apply (finite_double_within (1e60 * 3 ^ 43)); [exact Hic' | unfold DBL_MAX; lra]. }
    apply List.Forall_cons.
    { apply (finite_double_within (1e60 * 3 ^ 43)); [| unfold DBL_MAX; lra].
      rewrite Rabs_pos_eq by exact Hmin. lra. }
    apply List.Forall_cons.
    { apply (finite_double_within 1e60); [| unfold DBL_MAX; lra].
      rewrite Rabs_pos_eq; lra. }
    apply List.Forall_cons; [| apply List.Forall_nil].
    apply (finite_double_within (1e60 * 3 ^ 43 * 1e60)); [| unfold DBL_MAX; lra].
    rewrite Rabs_pos_eq by (apply Rmult_le_pos; lra).
    apply Rmult_le_compat; lra.
  - unfold DBL_MIN. lra.
  - lra.
Qed.

Lemma exp_INR_mult n x : exp (INR n * x) = exp x ^ n.
Proof.
  induction n as [| n IH].
  - simpl. rewrite Rmult_0_l. apply exp_0.
  - rewrite S_INR, Rmult_plus_distr_r, Rmult_1_l, exp_plus, IH. simpl. ring.
Qed.

(** [ln 1e-7] is between -19.4 and 0. *)
Lemma ln_sweep_concentration : - (19.4) <= ln (1e-7 * 1000 / 1000) <= 0.
Proof.
  replace (1e-7 * 1000 / 1000) with 1e-7 by lra.
  split; left.
  - rewrite <- (ln_exp (- (19.4))). apply ln_increasing; [apply exp_pos |].
    rewrite exp_Ropp.
    assert (H : 1e7 < exp 19.4).
    { replace 19.4 with (INR 64 * 0.303125) by (simpl; lra).
      rewrite exp_INR_mult.
      apply Rlt_le_trans with (1.303125 ^ 64); [lra |].
      apply pow_incr. split; [lra |].
      pose proof (exp_ineq1_le 0.303125). lra. }
    apply Rmult_lt_reg_r with (exp 19.4); [apply exp_pos |].
    rewrite Rinv_l by (pose proof (exp_pos 19.4); lra). lra.
  - rewrite <- ln_1. apply ln_increasing; lra.
Qed.

Lemma default_cathode_overpotential_within :
  Rabs (sweep_cathode_overpotential 298.15) <= 0.5.
Proof.
  unfold sweep_cathode_overpotential, STANDARD_HYDROGEN_POTENTIAL,
    GAS_CONSTANT, FARADAY_CONSTANT.
  pose proof ln_sweep_concentration as Hln.
  set (l := ln (1e-7 * 1000 / 1000)) in *.
  apply Rabs_le. split; lra.
Qed.

Lemma linspace_sample_in_range v_min v_max N i :
  v_min <= v_max -> (i < N)%nat ->
  v_min <= linspace_sample v_min v_max N i <= v_max.
Proof.
  intros Hle Hi. split.
  - rewrite <- (linspace_sample_first v_min v_max N) at 1.
    apply linspace_sample_monotone; [exact Hle | lia].
  - destruct (decide (N <= 1)%nat) as [H1 | H1].
    + unfold linspace_sample. destruct (decide (N <= 1)%nat); [exact Hle | lia].
    + rewrite <- (linspace_sample_last v_min v_max N) at 2 by lia.
      apply linspace_sample_monotone; [exact Hle | lia].
Qed.

Lemma simulate_iv_curve_current_density_nonneg_finite_witness :
  exists res,
    (simulate_iv_curve (Some (1.0, 1.5)) 50 (init None)).1 = Ok res /\
    length (current_density res) = 50%nat /\
    forall i, (i < 50)%nat ->
      exists r,
        current_density res !! i = Some (Some r) /\
        0 <= r /\
        finite_double (1e100 * r) /\
        r <= 1e-2 * 100 * 3 ^ 43.
Proof.
  destruct (simulate_iv_curve_current_density_nonneg_finite
              (init None) 298.15 100 1e-3 0.5 1e-2 0.5 0.05 0.02
              (Some (1.0, 1.5)) 50
              eq_refl eq_refl eq_refl eq_refl eq_refl eq_refl eq_refl eq_refl
              ltac:(lra) ltac:(lra) ltac:(lia))
    as (res & Hrun & Hlen & Hentry).
  exists res. split; [exact Hrun |]. split; [exact Hlen |].
  intros i Hi.
  destruct (Hentry i Hi)
    as (eta_a & eta_c & i_a & i_c & r & _ & Hov & _ & _ & _ & _ & Hcd & Hpos & Hfin).
  exists r. split; [exact Hcd |]. split; [exact Hpos |].
  rewrite (sweep_overpotentials (init None) 298.15 eq_refl) in Hov.
  injection Hov as <- <-.
  pose proof (linspace_sample_in_range 1.0 1.5 50 i ltac:(lra) Hi) as Hv.
  destruct Hfin as (_ & Hall & _ & Hbound).
  - constructor; lra.
  - unfold STANDARD_OXYGEN_POTENTIAL. apply Rabs_le.
    change (linspace_sample _ _ _ i) with (linspace_sample 1.0 1.5 50 i). lra.
  - exact default_cathode_overpotential_within.
  - split; [| exact Hbound].
    exact (Forall_lookup_1 _ _ 10 r Hall eq_refl).
Defined.

(** ** Hydrogen production and energy efficiency *)

Lemma calculate_hydrogen_production_run self current :
  calculate_hydrogen_production current self =
  (Ok (current / (2 * FARADAY_CONSTANT)), self).
Proof.
  unfold calculate_hydrogen_production.
  rewrite run_lift, py_div_nonzero; [reflexivity |].
  unfold FARADAY_CONSTANT. lra.
Qed.

(** [calculate_hydrogen_production] never raises and leaves
    the instance alone; the rate it returns is proportional to the
    current, two Faraday constants of charge per mole: the rate of a sum of
    currents is the sum of the rates, and the current is recovered as
    2 F times the rate. *)
Theorem calculate_hydrogen_production_proportional self (a b : R) :
  exists rate_a rate_b,
    calculate_hydrogen_production a self = (Ok rate_a, self) /\
    calculate_hydrogen_production b self = (Ok rate_b, self) /\
    calculate_hydrogen_production (a + b) self = (Ok (rate_a + rate_b), self) /\
    a = 2 * FARADAY_CONSTANT * rate_a.
Proof.
  do 2 eexists.
  split; [apply calculate_hydrogen_production_run |].
  split; [apply calculate_hydrogen_production_run |].
  rewrite calculate_hydrogen_production_run.
  split; [do 2 f_equal; unfold FARADAY_CONSTANT; lra |].
  unfold FARADAY_CONSTANT. lra.
Qed.

(** X16.  [calculate_energy_efficiency] raises [ZeroDivisionError]
    exactly when the voltage or the current is zero: it divides the
    theoretical power by voltage times current. *)
Theorem calculate_energy_efficiency_zero_division self (v c : R) :
  (v = 0 \/ c = 0) <->
  calculate_energy_efficiency v c self = (Err ZeroDivisionError, self).
Proof.
  split.
  - intros H. unfold calculate_energy_efficiency.
    rewrite run_bind, calculate_hydrogen_production_run, run_lift.
    replace (v * c) with 0 by (destruct H as [-> | ->]; ring).
    now rewrite py_div_zero.
  - intros H.
    destruct (Req_dec_T v 0) as [Hv | Hv]; [now left |].
    destruct (Req_dec_T c 0) as [Hc | Hc]; [now right |].
    rewrite (calculate_energy_efficiency_run self v c Hv Hc) in H. discriminate H.
Qed.

(** ** Loading the tables *)

(** X17.  [load_h2_data] reads the file of the given name under the
    data path.  When the file is there it returns a new table object with
    the file's columns and stores it as the hydrogen table, leaving the IV
    table and the data path as they were; when it is not, the call raises
    [FileNotFoundError] for the joined path and changes nothing. *)
Theorem load_h2_data_effect s filename :
  let filepath := path_join (data_path (analysis s))
                    (default "hydrogen_production_rates.csv" filename) in
  match files (world s) !! filepath with
  | Some columns =>
      exists df s',
        load_h2_data filename s = (Ok df, s') /\
        df_columns df = columns /\
        h2_data (analysis s') = Some df /\
        iv_data (analysis s') = iv_data (analysis s) /\
        data_path (analysis s') = data_path (analysis s) /\
        files (world s') = files (world s) /\
        reads (world s') = filepath :: reads (world s)
  | None => load_h2_data filename s = (Err (FileNotFoundError filepath), s)
  end.
Proof.
  intros filepath.
  destruct (files (world s) !! filepath) as [columns |] eqn:E.
  - do 2 eexists. split; [exact (load_h2_data_run s filename columns E) |].
    repeat split.
  - exact (load_h2_data_missing s filename E).
Qed.

(** X18.  A call of [load_iv_data] whose file is missing raises
    [FileNotFoundError] for the joined path before anything is stored: the
    table cached by an earlier load is still the one the instance holds,
    and no read is recorded. *)
Theorem load_iv_data_missing_file_keeps_cache s filename :
  let filepath := path_join (data_path (analysis s))
                    (default "current_voltage_measurements.csv" filename) in
  files (world s) !! filepath = None ->
  load_iv_data filename s = (Err (FileNotFoundError filepath), s).
Proof. intros filepath H. exact (load_iv_data_missing s filename H). Qed.

Lemma load_iv_data_missing_file_keeps_cache_witness :
  load_iv_data (Some "missing.csv") three_row_session =
  (Err (FileNotFoundError "../data/experimental/missing.csv"), three_row_session) /\
  iv_data (analysis three_row_session) = Some three_row_table.
Proof.
  split; [| reflexivity].
  apply (load_iv_data_missing_file_keeps_cache three_row_session (Some "missing.csv")).
  apply lookup_singleton_ne. discriminate.
Defined.

(** ** Queries on an instance that has not loaded *)

Lemma iv_data_or_load_unloaded s columns :
  let filepath := path_join (data_path (analysis s))
                    (default "current_voltage_measurements.csv" None) in
  iv_data (analysis s) = None ->
  files (world s) !! filepath = Some columns ->
  iv_data_or_load s = (Ok tt, with_iv_data s filepath columns).
Proof.
  intros filepath Hnone Hfile. unfold iv_data_or_load.
  rewrite run_bind. cbn [get]. rewrite Hnone.
  rewrite run_bind, (load_iv_data_run s None columns Hfile). reflexivity.
Qed.

Lemma iv_data_or_load_no_file s :
  let filepath := path_join (data_path (analysis s))
                    (default "current_voltage_measurements.csv" None) in
  iv_data (analysis s) = None ->
  files (world s) !! filepath = None ->
  iv_data_or_load s = (Err (FileNotFoundError filepath), s).
Proof.
  intros filepath Hnone Hfile. unfold iv_data_or_load.
  rewrite run_bind. cbn [get]. rewrite Hnone.
  rewrite run_bind, (load_iv_data_missing s None Hfile). reflexivity.
Qed.

(** X19.  [interpolate_current] on an instance that holds no IV table
    loads the default file first: if the file is missing the query raises
    [FileNotFoundError] and nothing changes; otherwise the file is read
    once, the new table is stored, and the query answers (or raises) as it
    does on the instance that holds that table, where asking again reads
    nothing more. *)
Theorem interpolate_current_loads_on_demand s x :
  iv_data (analysis s) = None ->
  let filepath := path_join (data_path (analysis s))
                    "current_voltage_measurements.csv" in
  match files (world s) !! filepath with
  | None => interpolate_current x s = (Err (FileNotFoundError filepath), s)
  | Some columns =>
      let loaded := with_iv_data s filepath columns in
      reads (world loaded) = filepath :: reads (world s) /\
      exists r,
        interpolate_current x s = (r, loaded) /\
        interpolate_current x loaded = (r, loaded)
  end.
Proof.
  intros Hnone filepath.
  destruct (files (world s) !! filepath) as [columns |] eqn:E.
  - intros loaded. split; [reflexivity |].
    assert (Hloaded : is_Some (iv_data (analysis loaded))) by (simpl; eauto).
    pose proof (keeps_interpolate_current x loaded Hloaded) as K. unfold keeps in K.
    exists (interpolate_current x loaded).1.
    assert (Hsame : interpolate_current x s = interpolate_current x loaded).
    { unfold interpolate_current. rewrite !run_bind.
      rewrite (iv_data_or_load_unloaded s columns Hnone E). fold filepath loaded.
      destruct Hloaded as [df Hdf].
      now rewrite (iv_data_or_load_loaded loaded df Hdf). }
    rewrite Hsame.
    destruct (interpolate_current x loaded) as [r s1]. simpl in *. now subst s1.
  - unfold interpolate_current. rewrite run_bind.
    now rewrite (iv_data_or_load_no_file s Hnone E).
Qed.

Lemma interpolate_current_loads_on_demand_witness :
  reads (world three_row_session) = iv_file :: reads (world fresh_session) /\
  exists r,
    interpolate_current 1.25 fresh_session = (r, three_row_session) /\
    interpolate_current 1.25 three_row_session = (r, three_row_session).
Proof.
  exact (interpolate_current_loads_on_demand fresh_session 1.25 eq_refl).
Defined.

(** ** Interpolation between samples *)

(** Strictly inside a bracket the walk returns the point of the chord. *)
Lemma interp_from_bracket xp : forall fp a b j x x0 x1 y0 y1,
  length fp = length xp ->
  StronglySorted Rlt (a :: xp) ->
  (a :: xp) !! j = Some x0 -> (a :: xp) !! S j = Some x1 ->
  (b :: fp) !! j = Some y0 -> (b :: fp) !! S j = Some y1 ->
  x0 < x < x1 ->
  interp_from x a b (zip xp fp) = (y1 - y0) / (x1 - x0) * (x - x0) + y0.
Proof.
  induction xp as [| a1 xp IH]; intros fp a b j x x0 x1 y0 y1 Hlen Hs Hx0 Hx1 Hy0 Hy1 Hx.
  - destruct j; discriminate Hx1.
  - destruct fp as [| b1 fp]; [discriminate Hlen |].
    injection Hlen as Hlen. simpl.
    destruct j as [| j]; simpl in Hx0, Hx1, Hy0, Hy1.
    + injection Hx0 as <-. injection Hx1 as <-.
      injection Hy0 as <-. injection Hy1 as <-.
      destruct (Rlt_dec x a1); [| lra].
      destruct (Req_dec_T a x); [lra | reflexivity].
    + apply StronglySorted_inv in Hs as [Hs _].
      pose proof (sorted_lookup_ge _ _ _ _ Hs Hx0) as Hge.
      destruct (Rlt_dec x a1); [lra |].
      now apply (IH fp a1 b1 j x x0 x1 y0 y1).
Qed.

Lemma np_interp_bracket xp fp j x x0 x1 y0 y1 :
  length fp = length xp ->
  StronglySorted Rlt xp ->
  xp !! j = Some x0 -> xp !! S j = Some x1 ->
  fp !! j = Some y0 -> fp !! S j = Some y1 ->
  x0 < x < x1 ->
  np_interp x xp fp = Ok ((y1 - y0) / (x1 - x0) * (x - x0) + y0).
Proof.
  intros Hlen Hs Hx0 Hx1 Hy0 Hy1 Hx.
  destruct xp as [| a xp]; [discriminate Hx0 |].
  destruct fp as [| b fp]; [discriminate Hlen |].
  injection Hlen as Hlen. rewrite np_interp_cons by exact Hlen.
  pose proof (sorted_lookup_ge _ _ _ _ Hs Hx0) as Hge.
  destruct (Rlt_dec x a); [lra |].
  f_equal. now apply (interp_from_bracket xp fp a b j x x0 x1 y0 y1).
Qed.

Lemma chord_between x x0 x1 y0 y1 :
  x0 < x < x1 ->
  Rmin y0 y1 <= (y1 - y0) / (x1 - x0) * (x - x0) + y0 <= Rmax y0 y1.
Proof.
  intros Hx.
  set (t := (x - x0) / (x1 - x0)).
  assert (Ht : 0 < t < 1).
  { unfold t. split.
    - apply Rdiv_lt_0_compat; lra.
    - apply Rmult_lt_reg_r with (x1 - x0); [lra |].
      unfold Rdiv. rewrite Rmult_assoc, Rinv_l by lra. lra. }
  replace ((y1 - y0) / (x1 - x0) * (x - x0) + y0) with (y0 + t * (y1 - y0))
    by (unfold t; field; lra).
  unfold Rmin, Rmax. destruct (Rle_dec y0 y1); split; nra.
Qed.

(** X20.  On a loaded IV table with strictly increasing voltages,
    [interpolate_current] at a voltage strictly between two adjacent
    samples returns the point of the straight line through them, a value
    between the two samples' current densities. *)
Theorem interpolate_current_between_samples s df xp fp j x x0 x1 y0 y1 :
  iv_data (analysis s) = Some df ->
  df_columns df !! "voltage_V" = Some xp ->
  df_columns df !! "current_density_A_m2" = Some fp ->
  length fp = length xp ->
  StronglySorted Rlt xp ->
  xp !! j = Some x0 -> xp !! S j = Some x1 ->
  fp !! j = Some y0 -> fp !! S j = Some y1 ->
  x0 < x < x1 ->
  exists y,
    interpolate_current x s = (Ok y, s) /\
    y = y0 + (y1 - y0) * ((x - x0) / (x1 - x0)) /\
    Rmin y0 y1 <= y <= Rmax y0 y1.
Proof.
  intros H Hxp Hfp Hlen Hs Hx0 Hx1 Hy0 Hy1 Hx.
  eexists. rewrite (interpolate_current_loaded _ _ _ _ _ H Hxp Hfp).
  rewrite (np_interp_bracket xp fp j x x0 x1 y0 y1) by assumption.
  split; [reflexivity |]. split; [field; lra | now apply chord_between].
Qed.

Lemma interpolate_current_between_samples_witness :
  exists y,
    interpolate_current 1.7 three_row_session = (Ok y, three_row_session) /\
    y = 50 + (100 - 50) * ((1.7 - 1.5) / (2.0 - 1.5)) /\
    Rmin 50 100 <= y <= Rmax 50 100.
Proof.
  apply (interpolate_current_between_samples three_row_session three_row_table
           [1.0; 1.5; 2.0] [0; 50; 100] 1 1.7 1.5 2.0 50 100);
    [reflexivity | reflexivity | reflexivity | reflexivity
    | repeat (constructor; [| repeat constructor; lra]); constructor
    | reflexivity | reflexivity | reflexivity | reflexivity | lra].
Defined.

(** ** Malformed tables *)

Lemma iv_column_missing s df name :
  iv_data (analysis s) = Some df ->
  df_columns df !! name = None ->
  iv_column name s = (Err (KeyError name), s).
Proof.
  intros H Hcol. unfold iv_column. rewrite run_bind. simpl.
  rewrite H. unfold lift, column_of. now rewrite Hcol.
Qed.

(** X21.  On a loaded IV table, [interpolate_current] raises
    [KeyError] exactly when the table lacks one of the two columns
    "voltage_V" and "current_density_A_m2", and the key it names is the
    first of them that is missing; whatever the outcome, the instance is
    left as it was. *)
Theorem interpolate_current_malformed_table s df x :
  iv_data (analysis s) = Some df ->
  (interpolate_current x s).2 = s /\
  match df_columns df !! "voltage_V", df_columns df !! "current_density_A_m2" with
  | None, _ => (interpolate_current x s).1 = Err (KeyError "voltage_V")
  | Some _, None =>
      (interpolate_current x s).1 = Err (KeyError "current_density_A_m2")
  | Some _, Some _ =>
      forall key, (interpolate_current x s).1 <> Err (KeyError key)
  end.
Proof.
  intros H.
  destruct (df_columns df !! "voltage_V") as [xp |] eqn:Hxp.
  - destruct (df_columns df !! "current_density_A_m2") as [fp |] eqn:Hfp.
    + rewrite (interpolate_current_loaded _ _ _ _ _ H Hxp Hfp).
      split; [reflexivity |]. intros key. cbn [fst].
      unfold np_interp. repeat case_decide; [discriminate | | discriminate].
      destruct (zip xp fp) as [| [x0 y0] rest]; discriminate.
    + unfold interpolate_current.
      rewrite run_bind, (iv_data_or_load_loaded _ _ H).
      rewrite run_bind, (iv_column_loaded _ _ _ _ H Hxp).
      rewrite run_bind, (iv_column_missing _ _ _ H Hfp).
      split; reflexivity.
  - unfold interpolate_current.
    rewrite run_bind, (iv_data_or_load_loaded _ _ H).
    rewrite run_bind, (iv_column_missing _ _ _ H Hxp).
    split; [reflexivity |].
    destruct (df_columns df !! "current_density_A_m2"); reflexivity.
Qed.

Lemma interpolate_current_malformed_table_witness :
  (interpolate_current 1.5 voltage_only_session).2 = voltage_only_session /\
  (interpolate_current 1.5 voltage_only_session).1
  = Err (KeyError "current_density_A_m2").
Proof.
  exact (interpolate_current_malformed_table voltage_only_session
           {| df_id := 0; df_columns := voltage_only_columns |} 1.5 eq_refl).
Defined.

(** ** Voltage from current density *)

(** X22.  On a loaded IV table in which both the voltages and the
    current densities are strictly increasing, [interpolate_voltage] undoes
    [interpolate_current] at every sample: the interpolated current
    density at a sample's voltage is the sample's, and the voltage
    interpolated at that current density is the sample's voltage again. *)
Theorem interpolate_voltage_inverts_at_samples s df xp fp j v :
  iv_data (analysis s) = Some df ->
  df_columns df !! "voltage_V" = Some xp ->
  df_columns df !! "current_density_A_m2" = Some fp ->
  length fp = length xp ->
  StronglySorted Rlt xp ->
  StronglySorted Rlt fp ->
  xp !! j = Some v ->
  exists c,
    fp !! j = Some c /\
    interpolate_current v s = (Ok c, s) /\
    interpolate_voltage c s = (Ok v, s) /\
    (interpolate_current v ≫= interpolate_voltage) s = (Ok v, s).
Proof.
  intros H Hxp Hfp Hlen Hsx Hsf Hj.
  destruct (lookup_lt_is_Some_2 fp j) as [c Hc].
  { rewrite Hlen. eapply lookup_lt_Some. exact Hj. }
  exists c. split; [exact Hc |].
  assert (Hcur : interpolate_current v s = (Ok c, s)).
  { rewrite (interpolate_current_loaded _ _ _ _ _ H Hxp Hfp).
    now rewrite (np_interp_sample xp fp j v c). }
  assert (Hvol : interpolate_voltage c s = (Ok v, s)).
  { unfold interpolate_voltage.
    rewrite run_bind, (iv_data_or_load_loaded _ _ H).
    rewrite run_bind, (iv_column_loaded _ _ _ _ H Hfp).
    rewrite run_bind, (iv_column_loaded _ _ _ _ H Hxp).
    rewrite run_lift. now rewrite (np_interp_sample fp xp j c v). }
  split; [exact Hcur |]. split; [exact Hvol |].
  rewrite run_bind, Hcur. exact Hvol.
Qed.

Lemma interpolate_voltage_inverts_at_samples_witness :
  exists c,
    [0; 50; 100] !! 1%nat = Some c /\
    interpolate_current 1.5 three_row_session = (Ok c, three_row_session) /\
    interpolate_voltage c three_row_session = (Ok 1.5, three_row_session) /\
    (interpolate_current 1.5 ≫= interpolate_voltage) three_row_session
    = (Ok 1.5, three_row_session).
Proof.
  apply (interpolate_voltage_inverts_at_samples three_row_session three_row_table
           [1.0; 1.5; 2.0] [0; 50; 100] 1 1.5);
    [reflexivity | reflexivity | reflexivity | reflexivity
    | repeat (constructor; [| repeat constructor; lra]); constructor
    | repeat (constructor; [| repeat constructor; lra]); constructor
    | reflexivity].
Defined.

(** ** Performance metrics *)

Lemma h2_column_loaded s df name col :
  h2_data (analysis s) = Some df ->
  df_columns df !! name = Some col ->
  h2_column name s = (Ok col, s).
Proof.
  intros H Hcol. unfold h2_column. rewrite run_bind. simpl.
  rewrite H. unfold lift, column_of. now rewrite Hcol.
Qed.

Lemma np_interp_nonempty x xp fp :
  xp <> [] -> length fp = length xp -> exists y, np_interp x xp fp = Ok y.
Proof.
  intros Hne Hlen. destruct xp as [| x0 xp]; [contradiction |].
  destruct fp as [| y0 fp]; [discriminate Hlen |].
  injection Hlen as Hlen. rewrite np_interp_cons by exact Hlen. eauto.
Qed.

Lemma interpolate_voltage_loaded s df xp fp x :
  iv_data (analysis s) = Some df ->
  df_columns df !! "current_density_A_m2" = Some xp ->
  df_columns df !! "voltage_V" = Some fp ->
  interpolate_voltage x s = (np_interp x xp fp, s).
Proof.
  intros H Hxp Hfp. unfold interpolate_voltage.
  rewrite run_bind, (iv_data_or_load_loaded _ _ H).
  rewrite run_bind, (iv_column_loaded _ _ _ _ H Hxp).
  rewrite run_bind, (iv_column_loaded _ _ _ _ H Hfp).
  reflexivity.
Qed.

(** The method on two loaded tables that have the columns it reads and an
    IV table with a row. *)
Lemma calculate_performance_metrics_loaded s iv h2 xp fp fe rate :
  iv_data (analysis s) = Some iv ->
  h2_data (analysis s) = Some h2 ->
  df_columns iv !! "voltage_V" = Some xp ->
  df_columns iv !! "current_density_A_m2" = Some fp ->
  df_columns h2 !! "faradaic_efficiency" = Some fe ->
  df_columns h2 !! "h2_production_mmol_s" = Some rate ->
  xp <> [] -> length fp = length xp ->
  exists i15 i20 v100 v200,
    np_interp 1.5 xp fp = Ok i15 /\
    np_interp 2.0 xp fp = Ok i20 /\
    np_interp 100 fp xp = Ok v100 /\
    np_interp 200 fp xp = Ok v200 /\
    calculate_performance_metrics s =
    (Ok (<["max_h2_rate_mmol_s" := series_max rate]> (
         <["min_faradaic_efficiency" := series_min fe]> (
         <["avg_faradaic_efficiency" := series_mean fe]> (
         <["voltage_at_200_A_m2" := Some v200]> (
         <["voltage_at_100_A_m2" := Some v100]> (
         <["max_current_density" := series_max fp]> (
         <["current_at_2_0V" := Some i20]> (
         <["current_at_1_5V" := Some i15]> ∅)))))))), s).
Proof.
  intros Hiv Hh2 Hxp Hfp Hfe Hrate Hne Hlen.
  assert (Hne' : fp <> []).
  { intros ->. destruct xp; [contradiction | discriminate Hlen]. }
  destruct (np_interp_nonempty 1.5 xp fp Hne Hlen) as [i15 H15].
  destruct (np_interp_nonempty 2.0 xp fp Hne Hlen) as [i20 H20].
  destruct (np_interp_nonempty 100 fp xp Hne' (eq_sym Hlen)) as [v100 H100].
  destruct (np_interp_nonempty 200 fp xp Hne' (eq_sym Hlen)) as [v200 H200].
  exists i15, i20, v100, v200. repeat (split; [assumption |]).
  rewrite calculate_performance_metrics_unfold.
  rewrite (iv_data_or_load_loaded _ _ Hiv), (h2_data_or_load_loaded _ _ Hh2).
  rewrite run_bind, (interpolate_current_loaded _ _ _ _ _ Hiv Hxp Hfp), H15.
  rewrite run_bind, (interpolate_current_loaded _ _ _ _ _ Hiv Hxp Hfp), H20.
  rewrite run_bind, (iv_column_loaded _ _ _ _ Hiv Hfp).
  rewrite run_bind, (interpolate_voltage_loaded _ _ _ _ _ Hiv Hfp Hxp), H100.
  rewrite run_bind, (interpolate_voltage_loaded _ _ _ _ _ Hiv Hfp Hxp), H200.
  rewrite run_bind, (h2_column_loaded _ _ _ _ Hh2 Hfe).
  rewrite run_bind, (h2_column_loaded _ _ _ _ Hh2 Hfe).
  rewrite run_bind, (h2_column_loaded _ _ _ _ Hh2 Hrate).
  reflexivity.
Qed.

(** X23.  On an instance that holds both tables, with the columns
    the method reads and at least one IV row, [calculate_performance_metrics]
    returns without reading a file or changing the instance.  The
    dictionary has exactly the eight documented keys; its four interpolated
    entries are what [interpolate_current] returns at 1.5 and 2.0 V and
    [interpolate_voltage] at 100 and 200 A/m2 on the same instance, and the
    others are the maximum of the current densities, the mean and minimum
    of the Faradaic efficiencies and the maximum of the hydrogen rates. *)
Theorem calculate_performance_metrics_composes s iv h2 xp fp fe rate :
  iv_data (analysis s) = Some iv ->
  h2_data (analysis s) = Some h2 ->
  df_columns iv !! "voltage_V" = Some xp ->
  df_columns iv !! "current_density_A_m2" = Some fp ->
  df_columns h2 !! "faradaic_efficiency" = Some fe ->
  df_columns h2 !! "h2_production_mmol_s" = Some rate ->
  xp <> [] -> length fp = length xp ->
  exists m i15 i20 v100 v200,
    calculate_performance_metrics s = (Ok m, s) /\
    dom m = metric_keys /\
    interpolate_current 1.5 s = (Ok i15, s) /\
    interpolate_current 2.0 s = (Ok i20, s) /\
    interpolate_voltage 100 s = (Ok v100, s) /\
    interpolate_voltage 200 s = (Ok v200, s) /\
    m !! "current_at_1_5V" = Some (Some i15) /\
    m !! "current_at_2_0V" = Some (Some i20) /\
    m !! "voltage_at_100_A_m2" = Some (Some v100) /\
    m !! "voltage_at_200_A_m2" = Some (Some v200) /\
    m !! "max_current_density" = Some (series_max fp) /\
    m !! "avg_faradaic_efficiency" = Some (series_mean fe) /\
    m !! "min_faradaic_efficiency" = Some (series_min fe) /\
    m !! "max_h2_rate_mmol_s" = Some (series_max rate).
Proof.
  intros Hiv Hh2 Hxp Hfp Hfe Hrate Hne Hlen.
  destruct (calculate_performance_metrics_loaded s iv h2 xp fp fe rate
              Hiv Hh2 Hxp Hfp Hfe Hrate Hne Hlen)
    as (i15 & i20 & v100 & v200 & H15 & H20 & H100 & H200 & Hrun).
  eexists. exists i15, i20, v100, v200.
  split; [exact Hrun |].
  split; [rewrite !dom_insert_L, dom_empty_L; unfold metric_keys; set_solver |].
  split; [now rewrite (interpolate_current_loaded _ _ _ _ _ Hiv Hxp Hfp), H15 |].
  split; [now rewrite (interpolate_current_loaded _ _ _ _ _ Hiv Hxp Hfp), H20 |].
  split; [now rewrite (interpolate_voltage_loaded _ _ _ _ _ Hiv Hfp Hxp), H100 |].
  split; [now rewrite (interpolate_voltage_loaded _ _ _ _ _ Hiv Hfp Hxp), H200 |].
  repeat split; reflexivity.
Qed.

Lemma calculate_performance_metrics_composes_witness :
  exists m i15 i20 v100 v200,
    calculate_performance_metrics both_tables_session = (Ok m, both_tables_session) /\
    dom m = metric_keys /\
    interpolate_current 1.5 both_tables_session = (Ok i15, both_tables_session) /\
    interpolate_current 2.0 both_tables_session = (Ok i20, both_tables_session) /\
    interpolate_voltage 100 both_tables_session = (Ok v100, both_tables_session) /\
    interpolate_voltage 200 both_tables_session = (Ok v200, both_tables_session) /\
    m !! "current_at_1_5V" = Some (Some i15) /\
    m !! "current_at_2_0V" = Some (Some i20) /\
    m !! "voltage_at_100_A_m2" = Some (Some v100) /\
    m !! "voltage_at_200_A_m2" = Some (Some v200) /\
    m !! "max_current_density" = Some (series_max [0; 50; 100]) /\
    m !! "avg_faradaic_efficiency" = Some (series_mean [0.99; 1.0]) /\
    m !! "min_faradaic_efficiency" = Some (series_min [0.99; 1.0]) /\
    m !! "max_h2_rate_mmol_s" = Some (series_max [0.0026; 0.0052]).
Proof.
  apply (calculate_performance_metrics_composes both_tables_session three_row_table
           {| df_id := 1; df_columns := two_row_h2_columns |}
           [1.0; 1.5; 2.0] [0; 50; 100] [0.99; 1.0] [0.0026; 0.0052]);
    [reflexivity | reflexivity | reflexivity | reflexivity | reflexivity
    | reflexivity | discriminate | reflexivity].
Defined.

(** X24.  When the current densities of the loaded IV table are
    strictly increasing and the largest of them is below 200 A/m2, the
    entry "voltage_at_200_A_m2" of the metrics is the last voltage of the
    table: the interpolation clamps, and the dictionary does not tell that
    200 A/m2 was never reached. *)
Theorem calculate_performance_metrics_clamps_voltage
    s iv h2 xp fp fe rate v_last c_last :
  iv_data (analysis s) = Some iv ->
  h2_data (analysis s) = Some h2 ->
  df_columns iv !! "voltage_V" = Some xp ->
  df_columns iv !! "current_density_A_m2" = Some fp ->
  df_columns h2 !! "faradaic_efficiency" = Some fe ->
  df_columns h2 !! "h2_production_mmol_s" = Some rate ->
  length fp = length xp ->
  StronglySorted Rlt fp ->
  last xp = Some v_last ->
  last fp = Some c_last ->
  c_last < 200 ->
  exists m,
    calculate_performance_metrics s = (Ok m, s) /\
    m !! "voltage_at_200_A_m2" = Some (Some v_last).
Proof.
  intros Hiv Hh2 Hxp Hfp Hfe Hrate Hlen Hs Hvl Hcl Hlt.
  assert (Hne : xp <> []) by (intros ->; discriminate Hvl).
  destruct (calculate_performance_metrics_loaded s iv h2 xp fp fe rate
              Hiv Hh2 Hxp Hfp Hfe Hrate Hne Hlen)
    as (i15 & i20 & v100 & v200 & H15 & H20 & H100 & H200 & Hrun).
  eexists. split; [exact Hrun |].
  rewrite (np_interp_right fp xp 200 c_last v_last (eq_sym Hlen) Hs Hcl Hvl Hlt) in H200.
  injection H200 as <-. reflexivity.
Qed.

Lemma calculate_performance_metrics_clamps_voltage_witness :
  exists m,
    calculate_performance_metrics both_tables_session = (Ok m, both_tables_session) /\
    m !! "voltage_at_200_A_m2" = Some (Some 2.0).
Proof.
  apply (calculate_performance_metrics_clamps_voltage both_tables_session
           three_row_table {| df_id := 1; df_columns := two_row_h2_columns |}
           [1.0; 1.5; 2.0] [0; 50; 100] [0.99; 1.0] [0.0026; 0.0052] 2.0 100);
    [reflexivity | reflexivity | reflexivity | reflexivity | reflexivity
    | reflexivity | reflexivity
    | repeat (constructor; [| repeat constructor; lra]); constructor
    | reflexivity | reflexivity | lra].
Defined.

(** X25.  A hydrogen table without rows does not make
    [calculate_performance_metrics] fail: with the IV table in order the
    dictionary is returned, and its mean and minimum Faradaic efficiency
    and its maximum production rate are not a number. *)
Theorem calculate_performance_metrics_without_rows s iv h2 xp fp :
  iv_data (analysis s) = Some iv ->
  h2_data (analysis s) = Some h2 ->
  df_columns iv !! "voltage_V" = Some xp ->
  df_columns iv !! "current_density_A_m2" = Some fp ->
  df_columns h2 !! "faradaic_efficiency" = Some [] ->
  df_columns h2 !! "h2_production_mmol_s" = Some [] ->
  xp <> [] ->
  length fp = length xp ->
  exists m,
    calculate_performance_metrics s = (Ok m, s) /\
    m !! "avg_faradaic_efficiency" = Some None /\
    m !! "min_faradaic_efficiency" = Some None /\
    m !! "max_h2_rate_mmol_s" = Some None.
Proof.
  intros Hiv Hh2 Hxp Hfp Hfe Hrate Hrows Hlen.
  destruct (calculate_performance_metrics_loaded s iv h2 xp fp [] []
              Hiv Hh2 Hxp Hfp Hfe Hrate Hrows Hlen)
    as (i15 & i20 & v100 & v200 & _ & _ & _ & _ & Hrun).
  eexists. split; [exact Hrun |].
  split; [| split; reflexivity].
  rewrite lookup_insert_ne by discriminate.
  rewrite lookup_insert_ne by discriminate.
  rewrite lookup_insert_eq. f_equal.
  unfold series_mean. simpl. apply np_div_by_zero.
Qed.

Lemma calculate_performance_metrics_without_rows_witness :
  exists m,
    calculate_performance_metrics empty_h2_session = (Ok m, empty_h2_session) /\
    m !! "avg_faradaic_efficiency" = Some None /\
    m !! "min_faradaic_efficiency" = Some None /\
    m !! "max_h2_rate_mmol_s" = Some None.
Proof.
  exact (calculate_performance_metrics_without_rows empty_h2_session three_row_table
           {| df_id := 1; df_columns := no_row_h2_columns |}
           [1.0; 1.5; 2.0] [0; 50; 100]
           eq_refl eq_refl eq_refl eq_refl eq_refl eq_refl
           ltac:(discriminate) eq_refl).
Defined.

(** ** The fit's coefficient of determination *)

Lemma fit_tafel_equation_result
    (curve_fit : (R -> R -> R -> option R) -> list R -> list R -> R * R -> nat
                 -> result ((R * R) * Covariance))
    s df v_col c_col voltage_range popt pcov :
  iv_data (analysis s) = Some df ->
  df_columns df !! "voltage_V" = Some v_col ->
  df_columns df !! "current_density_A_m2" = Some c_col ->
  length c_col = length v_col ->
  let window := default (1.2, 1.8) voltage_range in
  let rows := rows_in_range window.1 window.2 (zip v_col c_col) in
  curve_fit tafel_equation (map fst rows) (map snd rows) (1.0, 0.1) 5000%nat
    = Ok (popt, pcov) ->
  fit_tafel_equation curve_fit voltage_range s =
  (Ok {| tafel_a := popt.1;
         tafel_b := popt.2;
         r_squared := tafel_r_squared (map fst rows) (map snd rows) popt;
         covariance := pcov;
         fit_voltage_range := window |}, s).
Proof.
  intros H Hv Hc Hlen window rows Hfit.
  destruct (loc_window window.1 window.2 v_col c_col Hlen) as [Hlv Hlc].
  fold rows in Hlv, Hlc.
  unfold fit_tafel_equation. fold window.
  rewrite run_bind, (iv_data_or_load_loaded _ _ H).
  rewrite run_bind, (iv_column_loaded _ _ _ _ H Hv).
  rewrite run_bind, (iv_column_loaded _ _ _ _ H Hv).
  rewrite run_bind, (iv_column_loaded _ _ _ _ H Hv).
  rewrite run_bind, (iv_column_loaded _ _ _ _ H Hc).
  rewrite run_bind, run_lift, Hlv, Hlc, Hfit.
  reflexivity.
Qed.

Lemma np_sum_nonneg l : Forall (fun x => 0 <= x) l -> 0 <= np_sum l.
Proof.
  induction 1 as [| x l Hx _ IH]; simpl; [apply Rle_refl | lra].
Qed.

Lemma squares_nonneg {A} (f : A -> R) l : Forall (fun x => 0 <= x) (map (fun a => f a ^ 2) l).
Proof.
  induction l as [| a l IH]; simpl; constructor; [apply pow2_ge_0 | exact IH].
Qed.

Lemma square_differences_nonneg current : forall y,
  Forall (fun x => 0 <= x) (zip_with (fun c p => (c - p) ^ 2) current y).
Proof.
  induction current as [| c current IH]; intros [| p y]; simpl; constructor;
    [apply pow2_ge_0 | apply IH].
Qed.

Lemma tafel_r_squared_le_1 voltage current popt r :
  tafel_r_squared voltage current popt = Some r -> r <= 1.
Proof.
  unfold tafel_r_squared.
  destruct (all_real _) as [y |]; simpl; [| discriminate].
  destruct (np_div (np_sum current) _) as [m |]; simpl; [| discriminate].
  unfold np_div.
  match goal with
  | |- context [Req_dec_T ?tot 0] =>
      assert (Htot : 0 <= tot)
        by exact (np_sum_nonneg _ (squares_nonneg (fun c => c - m) current));
      destruct (Req_dec_T tot 0) as [| Hne]
  end; simpl; [discriminate |].
  intros [= <-].
  match goal with
  | |- 1 - ?res / ?tot <= 1 =>
      assert (Hres : 0 <= res)
        by exact (np_sum_nonneg _ (square_differences_nonneg current y));
      assert (0 <= res / tot)
        by (apply Rmult_le_pos; [exact Hres | left; apply Rinv_0_lt_compat; lra])
  end.
  lra.
Qed.

Lemma all_real_tafel voltage a b :
  b <> 0 ->
  all_real (map (fun eta => tafel_equation eta a b) voltage)
  = Some (map (fun eta => exp ((eta - a) / b)) voltage).
Proof.
  intros Hb. induction voltage as [| v voltage IH]; [reflexivity |].
  cbn [map all_real]. rewrite (tafel_equation_exp v a b Hb), IH. reflexivity.
Qed.

Lemma np_sum_exact_residuals voltage : forall current a b,
  Forall2 (fun v c => c = exp ((v - a) / b)) voltage current ->
  np_sum (zip_with (fun c p => (c - p) ^ 2) current
            (map (fun eta => exp ((eta - a) / b)) voltage)) = 0.
Proof.
  induction voltage as [| v voltage IH]; intros current a b H.
  - inversion H; subst. reflexivity.
  - inversion H as [| ? c ? current' Hc Hrest]; subst.
    cbn [map zip_with np_sum fold_right]. unfold np_sum in IH.
    rewrite (IH current' a b Hrest). ring.
Qed.

Lemma np_sum_zero_all_zero l :
  Forall (fun x => 0 <= x) l -> np_sum l = 0 -> Forall (fun x => x = 0) l.
Proof.
  induction 1 as [| x l Hx Hl IH]; intros Hsum; [constructor |].
  simpl in Hsum. pose proof (np_sum_nonneg l Hl) as Hnn. unfold np_sum in *.
  constructor; [lra | apply IH; lra].
Qed.

(** Two different entries keep the sum of squares about any centre off
    zero. *)
Lemma spread_nonzero current m c1 c2 :
  c1 ∈ current -> c2 ∈ current -> c1 <> c2 ->
  np_sum (map (fun c => (c - m) ^ 2) current) <> 0.
Proof.
  intros H1 H2 Hne Hsum.
  pose proof (np_sum_zero_all_zero _ (squares_nonneg (fun c => c - m) current) Hsum)
    as Hall.
  rewrite Forall_fmap, Forall_forall in Hall.
  pose proof (Hall c1 H1) as E1. pose proof (Hall c2 H2) as E2. simpl in E1, E2.
  assert (c1 - m = 0) by nra. assert (c2 - m = 0) by nra. lra.
Qed.

Lemma tafel_r_squared_exact voltage current a b c1 c2 :
  b <> 0 ->
  Forall2 (fun v c => c = exp ((v - a) / b)) voltage current ->
  c1 ∈ current -> c2 ∈ current -> c1 <> c2 ->
  tafel_r_squared voltage current (a, b) = Some 1.
Proof.
  intros Hb Hfit H1 H2 Hne. unfold tafel_r_squared. cbn [fst snd].
  rewrite (all_real_tafel voltage a b Hb). cbn [mbind option_bind].
  rewrite (np_sum_exact_residuals voltage current a b Hfit).
  assert (Hlen : INR (length current) <> 0).
  { apply not_0_INR. destruct current; [inversion H1 | discriminate]. }
  rewrite (np_div_nonzero _ _ Hlen). cbn [mbind option_bind].
  rewrite np_div_nonzero by (now apply (spread_nonzero current _ c1 c2)).
  cbn [mbind option_bind]. f_equal. unfold Rdiv. ring.
Qed.

Lemma fit_tafel_equation_Ok_inv
    (curve_fit : (R -> R -> R -> option R) -> list R -> list R -> R * R -> nat
                 -> result ((R * R) * Covariance))
    s voltage_range fit :
  (fit_tafel_equation curve_fit voltage_range s).1 = Ok fit ->
  exists voltage current,
    curve_fit tafel_equation voltage current (1.0, 0.1) 5000%nat
      = Ok ((tafel_a fit, tafel_b fit), covariance fit) /\
    r_squared fit = tafel_r_squared voltage current (tafel_a fit, tafel_b fit) /\
    fit_voltage_range fit = default (1.2, 1.8) voltage_range.
Proof.
  unfold fit_tafel_equation. intros H.
  do 5 run_stage H.
  rewrite run_bind, run_lift in H.
  match type of H with
  | context [curve_fit tafel_equation ?v ?c _ _] =>
      exists v, c; destruct (curve_fit tafel_equation v c (1.0, 0.1) 5000%nat)
        as [[[pa pb] pcov] | err] eqn:Efit; [| discriminate H]
  end.
  rewrite run_ret in H. simpl in H. injection H as <-.
  repeat split.
Qed.

(** X26.  Whenever [fit_tafel_equation] returns, the coefficient of
    determination in its result, when it is a number, is at most 1, and
    the result echoes the voltage range the fit was asked for. *)
Theorem fit_tafel_equation_r_squared_at_most_one
    (curve_fit : (R -> R -> R -> option R) -> list R -> list R -> R * R -> nat
                 -> result ((R * R) * Covariance))
    s voltage_range fit :
  (fit_tafel_equation curve_fit voltage_range s).1 = Ok fit ->
  (forall r, r_squared fit = Some r -> r <= 1) /\
  fit_voltage_range fit = default (1.2, 1.8) voltage_range.
Proof.
  intros H.
  destruct (fit_tafel_equation_Ok_inv curve_fit s voltage_range fit H)
    as (voltage & current & _ & Hr2 & Hrange).
  split; [| exact Hrange].
  intros r Hr. rewrite Hr2 in Hr. exact (tafel_r_squared_le_1 _ _ _ _ Hr).
Qed.

Example tafel_window :
  rows_in_range 1.2 1.8
    (zip [1.2; 1.3] [exp ((1.2 - 1.0) / 0.1); exp ((1.3 - 1.0) / 0.1)])
  = [(1.2, exp ((1.2 - 1.0) / 0.1)); (1.3, exp ((1.3 - 1.0) / 0.1))].
Proof.
  unfold rows_in_range. simpl zip_with.
  rewrite filter_cons. destruct (decide _) as [_ | H]; [| exfalso; apply H; simpl; lra].
  rewrite filter_cons. destruct (decide _) as [_ | H]; [| exfalso; apply H; simpl; lra].
  reflexivity.
Qed.

Lemma tafel_session_optimizer :
  let rows := rows_in_range (default (1.2, 1.8) None).1 (default (1.2, 1.8) None).2
                (zip [1.2; 1.3] [exp ((1.2 - 1.0) / 0.1); exp ((1.3 - 1.0) / 0.1)]) in
  curve_fit_double tafel_equation (map fst rows) (map snd rows) (1.0, 0.1) 5000%nat
  = Ok ((1.0, 0.1), [[None; None]; [None; None]]).
Proof.
  cbv zeta. simpl default. cbn [fst snd]. rewrite tafel_window. reflexivity.
Qed.

Lemma tafel_session_fit_returns :
  exists fit,
    (fit_tafel_equation curve_fit_double None tafel_session).1 = Ok fit.
Proof.
  eexists.
  rewrite (fit_tafel_equation_result curve_fit_double tafel_session
             {| df_id := 0; df_columns := tafel_columns |}
             [1.2; 1.3] [exp ((1.2 - 1.0) / 0.1); exp ((1.3 - 1.0) / 0.1)] None
             (1.0, 0.1) [[None; None]; [None; None]]
             eq_refl eq_refl eq_refl eq_refl tafel_session_optimizer).
  reflexivity.
Qed.

Lemma fit_tafel_equation_r_squared_at_most_one_witness :
  exists fit,
    (fit_tafel_equation curve_fit_double None tafel_session).1 = Ok fit /\
    (forall r, r_squared fit = Some r -> r <= 1) /\
    fit_voltage_range fit = (1.2, 1.8).
Proof.
  destruct tafel_session_fit_returns as [fit H]. exists fit.
  split; [exact H |].
  exact (fit_tafel_equation_r_squared_at_most_one curve_fit_double tafel_session
           None fit H).
Defined.

Lemma rows_Forall2 (P : R -> R -> Prop) (rows : list (R * R)) :
  Forall (fun row => P row.1 row.2) rows ->
  Forall2 P (map fst rows) (map snd rows).
Proof. induction 1; simpl; constructor; assumption. Qed.

(** X27.  When the rows of the window lie exactly on the curve
    i = exp((V - a) / b) of the parameters the optimizer returns, with
    b non-zero and two rows of different current density, the coefficient
    of determination that [fit_tafel_equation] reports is exactly 1. *)
Theorem fit_tafel_equation_exact_data
    (curve_fit : (R -> R -> R -> option R) -> list R -> list R -> R * R -> nat
                 -> result ((R * R) * Covariance))
    s df v_col c_col voltage_range a b pcov row1 row2 :
  iv_data (analysis s) = Some df ->
  df_columns df !! "voltage_V" = Some v_col ->
  df_columns df !! "current_density_A_m2" = Some c_col ->
  length c_col = length v_col ->
  let window := default (1.2, 1.8) voltage_range in
  let rows := rows_in_range window.1 window.2 (zip v_col c_col) in
  curve_fit tafel_equation (map fst rows) (map snd rows) (1.0, 0.1) 5000%nat
    = Ok ((a, b), pcov) ->
  b <> 0 ->
  Forall (fun row => row.2 = exp ((row.1 - a) / b)) rows ->
  row1 ∈ rows -> row2 ∈ rows -> row1.2 <> row2.2 ->
  exists fit,
    fit_tafel_equation curve_fit voltage_range s = (Ok fit, s) /\
    tafel_a fit = a /\ tafel_b fit = b /\
    r_squared fit = Some 1.
Proof.
  intros H Hv Hc Hlen window rows Hfit Hb Hexact H1 H2 Hne.
  eexists. split.
  - exact (fit_tafel_equation_result curve_fit s df v_col c_col voltage_range
             (a, b) pcov H Hv Hc Hlen Hfit).
  - cbn [tafel_a tafel_b r_squared fst snd]. split; [reflexivity |].
    split; [reflexivity |]. fold window. fold rows.
    apply (tafel_r_squared_exact _ _ a b row1.2 row2.2 Hb).
    + now apply (rows_Forall2 (fun v c => c = exp ((v - a) / b))).
    + apply list_elem_of_fmap. eauto.
    + apply list_elem_of_fmap. eauto.
    + exact Hne.
Qed.

Lemma fit_tafel_equation_exact_data_witness :
  exists fit,
    fit_tafel_equation curve_fit_double None tafel_session = (Ok fit, tafel_session) /\
    tafel_a fit = 1.0 /\ tafel_b fit = 0.1 /\
    r_squared fit = Some 1.
Proof.
  apply (fit_tafel_equation_exact_data curve_fit_double tafel_session
           {| df_id := 0; df_columns := tafel_columns |}
           [1.2; 1.3] [exp ((1.2 - 1.0) / 0.1); exp ((1.3 - 1.0) / 0.1)] None
           1.0 0.1 [[None; None]; [None; None]]
           (1.2, exp ((1.2 - 1.0) / 0.1)) (1.3, exp ((1.3 - 1.0) / 0.1)));
    [reflexivity | reflexivity | reflexivity | reflexivity
    | exact tafel_session_optimizer | lra | | | | ];
    simpl default; cbn [fst snd]; try rewrite tafel_window.
  - repeat constructor.
  - apply list_elem_of_here.
  - apply list_elem_of_further, list_elem_of_here.
  - intros Heq. apply exp_inv in Heq. lra.
Defined.

(** ** The figure that compares model and experiment *)





